(** * lanzou-gui: the worker layer ([workers.py]) and the credential store
      ([tools.py]), embedded in Rocq.

    Python values are modelled as follows.  An [int] is a [Z].  A [str] is a
    [string] holding its UTF-8 bytes, a [bytearray] a [list Z] whose items
    lie in [range(256)].  A [dict] is an association list in insertion
    order with pairwise distinct keys ([PyDict]).  A call that can raise
    returns a [result].  Qt signals are recorded as a list of emissions. *)

From Stdlib Require Import ZArith List String Ascii Bool Lia.
From Stdlib Require Import Floats.SpecFloat.
Import ListNotations.
Open Scope string_scope.
Open Scope Z_scope.

(* ================================================================= *)
(** ** Exceptions *)

(** The exception classes the two files meet.  Every one of them derives
    from [Exception], so an [except Exception] clause catches each. *)
Inductive exn : Type :=
| TimeoutError
| UserWarning
| ZeroDivisionError
| KeyError
| IndexError
| ValueError
| UnicodeDecodeError
| UnboundLocalError
| OverflowError
| TypeError
| OtherError.

Inductive result (A : Type) : Type :=
| Ok (a : A)
| Raise (e : exn).
Arguments Ok {A} a.
Arguments Raise {A} e.

Definition bind {A B : Type} (r : result A) (k : A -> result B) : result B :=
  match r with
  | Ok a => k a
  | Raise e => Raise e
  end.

Declare Scope py_scope.
Notation "x <- c ;; k" := (bind c (fun x => k))
  (at level 61, c at next level, right associativity) : py_scope.
Open Scope py_scope.

(* ================================================================= *)
(** ** Insertion-ordered dictionaries *)

Module PyDict.
Section Dict.
Context {V : Type}.

Definition t := list (string * V).

Definition keys (d : t) : list string := map fst d.

(** [d.get(k)] *)
Fixpoint get (d : t) (k : string) : option V :=
  match d with
  | [] => None
  | (k', v) :: r => if String.eqb k k' then Some v else get r k
  end.

(** [k in d] *)
Definition mem (d : t) (k : string) : bool :=
  match get d k with Some _ => true | None => false end.

(** [d[k] = v]: an existing key keeps its place, a new one goes last. *)
Fixpoint set (d : t) (k : string) (v : V) : t :=
  match d with
  | [] => [(k, v)]
  | (k', v') :: r =>
      if String.eqb k k' then (k', v) :: r else (k', v') :: set r k v
  end.

(** [del d[k]] on a key that is present. *)
Fixpoint remove (d : t) (k : string) : t :=
  match d with
  | [] => []
  | (k', v') :: r =>
      if String.eqb k k' then r else (k', v') :: remove r k
  end.

(** [d.update(other)]: [d[k] = v] for each item of [other], in order. *)
Definition update (d other : t) : t :=
  fold_left (fun acc kv => set acc (fst kv) (snd kv)) other d.

(** The number of items stored under [k]. *)
Definition entries (d : t) (k : string) : nat :=
  List.length (filter (fun kv => String.eqb k (fst kv)) d).

(** What every Python dictionary satisfies: no key twice. *)
Definition wf (d : t) : Prop := NoDup (keys d).
End Dict.
Arguments t V : clear implicits.
End PyDict.

(* ================================================================= *)
(** ** tools.py *)

(** [KEY = 152] *)
Definition KEY : Z := 152.

(** *** Strings and byte arrays *)

Definition in_byte_range (v : Z) : bool := (0 <=? v) && (v <? 256).

(** [s.encode("utf-8")]: the bytes the string holds. *)
Definition encode_utf8 (s : string) : list Z :=
  map (fun a => Z.of_N (N_of_ascii a)) (list_ascii_of_string s).

Definition utf8_cont (b : Z) : bool := (128 <=? b) && (b <=? 191).

(** Well-formed UTF-8, as CPython's decoder accepts it: no stray or
    missing continuation byte, no overlong form, no surrogate, nothing
    above U+10FFFF. *)
Fixpoint utf8_valid (b : list Z) : bool :=
  match b with
  | [] => true
  | b0 :: r =>
      if (0 <=? b0) && (b0 <? 128) then utf8_valid r
      else if (194 <=? b0) && (b0 <=? 223) then
        match r with
        | b1 :: r1 => utf8_cont b1 && utf8_valid r1
        | _ => false
        end
      else if (224 <=? b0) && (b0 <=? 239) then
        match r with
        | b1 :: b2 :: r2 =>
            utf8_cont b1 && utf8_cont b2
            && (if b0 =? 224 then 160 <=? b1 else true)
            && (if b0 =? 237 then b1 <=? 159 else true)
            && utf8_valid r2
        | _ => false
        end
      else if (240 <=? b0) && (b0 <=? 244) then
        match r with
        | b1 :: b2 :: b3 :: r3 =>
            utf8_cont b1 && utf8_cont b2 && utf8_cont b3
            && (if b0 =? 240 then 144 <=? b1 else true)
            && (if b0 =? 244 then b1 <=? 143 else true)
            && utf8_valid r3
        | _ => false
        end
      else false
  end.

(** A Python [str]: a string whose bytes are well-formed UTF-8. *)
Definition is_str (s : string) : Prop := utf8_valid (encode_utf8 s) = true.

(** [b.decode("utf-8")] *)
Definition decode_utf8 (b : list Z) : result string :=
  if utf8_valid b
  then Ok (string_of_list_ascii (map (fun v => ascii_of_N (Z.to_N v)) b))
  else Raise UnicodeDecodeError.

(** [bytearray(n)] *)
Definition bytearray (n : nat) : list Z := repeat 0 n.

(** [c[j] = v] on a bytearray: the index must exist and the value must be
    in [range(256)]. *)
Fixpoint list_set (c : list Z) (j : nat) (v : Z) : option (list Z) :=
  match c, j with
  | [], _ => None
  | _ :: r, O => Some (v :: r)
  | x :: r, S j' => option_map (cons x) (list_set r j' v)
  end.

Definition bytearray_set (c : list Z) (j : nat) (v : Z) : result (list Z) :=
  if in_byte_range v
  then match list_set c j v with
       | Some c' => Ok c'
       | None => Raise IndexError
       end
  else Raise ValueError.

(** [c[j]] on a bytearray. *)
Definition bytearray_get (c : list Z) (j : nat) : result Z :=
  match nth_error c j with
  | Some v => Ok v
  | None => Raise IndexError
  end.

(** *** encrypt *)

(** One turn of the loop of [encrypt]: byte [b1] goes to [c[j]], [c[j+1]]. *)
Definition encrypt_step (key : Z) (st : list Z * nat) (b1 : Z)
  : result (list Z * nat) :=
  let '(c, j) := st in
  let b2 := Z.lxor b1 key in
  let c1 := b2 mod 19 in
  let c2 := b2 / 19 in
  let c1 := c1 + 46 in
  let c2 := c2 + 46 in
  c <- bytearray_set c j c1 ;;
  c <- bytearray_set c (j + 1)%nat c2 ;;
  Ok (c, (j + 2)%nat).

(** [for] over the items of a list, threading a state that may raise. *)
Fixpoint for_each {S X : Type} (f : S -> X -> result S) (l : list X) (st : S)
  : result S :=
  match l with
  | [] => Ok st
  | x :: r => st' <- f st x ;; for_each f r st'
  end.

Definition encrypt (key : Z) (s : string) : result string :=
  let b := encode_utf8 s in
  let n := List.length b in
  let c := bytearray (n * 2) in
  st <- for_each (encrypt_step key) b (c, O) ;;
  decode_utf8 (fst st).

(** *** decrypt *)

(** One turn of the loop of [decrypt]: [c[j]], [c[j+1]] go to [b[i]]. *)
Definition decrypt_step (ksa : Z) (c : list Z) (st : list Z * nat) (i : nat)
  : result (list Z * nat) :=
  let '(b, j) := st in
  c1 <- bytearray_get c j ;;
  c2 <- bytearray_get c (j + 1)%nat ;;
  let j := (j + 2)%nat in
  let c1 := c1 - 46 in
  let c2 := c2 - 46 in
  let b2 := c2 * 19 + c1 in
  let b1 := Z.lxor b2 ksa in
  b <- bytearray_set b i b1 ;;
  Ok (b, j).

Definition decrypt (ksa : Z) (s : string) : result string :=
  let c := encode_utf8 s in
  let n := List.length c in
  if negb (Nat.eqb (n mod 2) 0) then Ok ""
  else
    let n := (n / 2)%nat in
    let b := bytearray n in
    st <- for_each (decrypt_step ksa c) (seq 0 n) (b, O) ;;
    decode_utf8 (fst st).

(** The two loops, as functions of the bytes alone: each byte of the
    text gives a pair of bytes of the cipher, each pair of the cipher a
    byte of the text. *)
Fixpoint enc_bytes (key : Z) (b : list Z) : list Z :=
  match b with
  | [] => []
  | b1 :: r =>
      let b2 := Z.lxor b1 key in
      (b2 mod 19 + 46) :: (b2 / 19 + 46) :: enc_bytes key r
  end.

(** *** Values *)

(** [None], a string, or a dictionary of strings (a cookie), as a value. *)
Inductive pyval : Type :=
| PyNone
| PyStr (s : string)
| PyDict (d : PyDict.t string).

(** Python truth of such a value, as [elif var:] tests it. *)
Definition truthy (v : pyval) : bool :=
  match v with
  | PyNone => false
  | PyStr s => negb (String.eqb s "")
  | PyDict d => match d with [] => false | _ => true end
  end.

(* ================================================================= *)
(** ** Python numbers *)

(** A Python [float] is an IEEE 754 binary64 number: [spec_float] at
    precision 53 and maximal exponent 1024. *)
Definition float := spec_float.

Definition Z_to_float (z : Z) : float :=
  match z with
  | Z0 => S754_zero false
  | Zpos p => S754_finite false p 0
  | Zneg p => S754_finite true p 0
  end.

(** [a / b] on two [int]s: the quotient rounded once to the nearest
    float, ties to even; [ZeroDivisionError] when [b] is zero. *)
Definition py_truediv (a b : Z) : result float :=
  if b =? 0 then Raise ZeroDivisionError
  else
    match SFdiv 53 1024 (Z_to_float a) (Z_to_float b) with
    | S754_infinity _ => Raise OverflowError
    | q => Ok q
    end.

(** [int(x)] on a float: the fraction is dropped. *)
Definition py_int (x : float) : result Z :=
  match x with
  | S754_zero _ => Ok 0
  | S754_finite s m e =>
      let v := if 0 <=? e then Zpos m * 2 ^ e else Zpos m / 2 ^ (- e) in
      Ok (if s then - v else v)
  | S754_infinity _ => Raise OverflowError
  | S754_nan => Raise ValueError
  end.

(** [round(x)] on a float: the nearest [int], ties to even. *)
Definition py_round (x : float) : result Z :=
  match x with
  | S754_zero _ => Ok 0
  | S754_finite s m e =>
      let v :=
        if 0 <=? e then Zpos m * 2 ^ e
        else
          let d := 2 ^ (- e) in
          let q := Zpos m / d in
          let r := Zpos m mod d in
          match 2 * r ?= d with
          | Lt => q
          | Gt => q + 1
          | Eq => if Z.even q then q else q + 1
          end in
      Ok (if s then - v else v)
  | S754_infinity _ => Raise OverflowError
  | S754_nan => Raise ValueError
  end.

(** [len(s)] on a [str]: its code points, the bytes that continue none. *)
Definition py_len (s : string) : Z :=
  Z.of_nat (List.length (filter (fun b => negb (utf8_cont b)) (encode_utf8 s))).

(* ================================================================= *)
(** ** workers.py: progress *)

(** What the message of [show_progress] is made of; the rendering of the
    numbers into text is left out. *)
Record progress_msg : Type := mkProgress {
  pm_percent : float;        (* [percent * 100] *)
  pm_done_cells : Z;         (* [round(bar_len * percent)] *)
  pm_rest_cells : Z;         (* [round(bar_len * (1 - percent))] *)
  pm_now : float;            (* [now_size / piece] *)
  pm_total : float;          (* [total_size / piece] *)
  pm_unit : string;
  pm_file_name : string;
  pm_finished : bool         (* the suffix [Done!] *)
}.

(** [show_progress(file_name, total_size, now_size)] *)
Definition show_progress (file_name : string) (total_size now_size : Z)
  : result progress_msg :=
  percent <- py_truediv now_size total_size ;;
  let file_len := py_len file_name in
  let bar_len :=
    if 20 <=? file_len then 20
    else if 10 <=? file_len then 30
    else 40 in
  let '(unit, piece) :=
    if 1048576 <=? total_size then ("MB", 1048576) else ("KB", 1024) in
  done_cells <- py_round (SFmul 53 1024 (Z_to_float bar_len) percent) ;;
  rest_cells <- py_round (SFmul 53 1024 (Z_to_float bar_len)
                            (SFsub 53 1024 (Z_to_float 1) percent)) ;;
  now <- py_truediv now_size piece ;;
  total <- py_truediv total_size piece ;;
  Ok (mkProgress (SFmul 53 1024 percent (Z_to_float 100))
        done_cells rest_cells now total unit file_name
        (total_size =? now_size)).

(** The rate both [_show_progress] callbacks emit:
    [int(1000 * now_size/total_size)]. *)
Definition progress_rate (total_size now_size : Z) : result Z :=
  q <- py_truediv (1000 * now_size) total_size ;;
  py_int q.

(* ================================================================= *)
(** ** Methods as state transformers *)

(** A method of an object of state [S]: it returns or raises, and leaves
    the object in a new state either way. *)
Definition St (S A : Type) : Type := S -> result A * S.

Definition ret {S A : Type} (a : A) : St S A := fun s => (Ok a, s).
Definition raise {S A : Type} (e : exn) : St S A := fun s => (Raise e, s).
Definition get_state {S : Type} : St S S := fun s => (Ok s, s).
Definition modify {S : Type} (f : S -> S) : St S unit := fun s => (Ok tt, f s).

Definition bindS {S A B : Type} (c : St S A) (k : A -> St S B) : St S B :=
  fun s =>
    match c s with
    | (Ok a, s') => k a s'
    | (Raise e, s') => (Raise e, s')
    end.

Notation "x <~ c ;; k" := (bindS c (fun x => k))
  (at level 61, c at next level, right associativity) : py_scope.
Notation "c ;;; k" := (bindS c (fun _ => k))
  (at level 61, right associativity) : py_scope.

(** [try: body / except ...: handler]; a handler re-raises what its
    clauses do not name. *)
Definition try_except {S A : Type} (body : St S A) (handler : exn -> St S A)
  : St S A :=
  fun s =>
    match body s with
    | (Ok a, s') => (Ok a, s')
    | (Raise e, s') => handler e s'
    end.

(** [d[k]] as an expression: [KeyError] on a missing key. *)
Definition subscript {S V : Type} (d : PyDict.t V) (k : string) : St S V :=
  match PyDict.get d k with
  | Some v => ret v
  | None => raise KeyError
  end.

(** [for x in l: body] *)
Fixpoint for_in {S X : Type} (l : list X) (body : X -> St S unit) : St S unit :=
  match l with
  | [] => ret tt
  | x :: r => body x ;;; for_in r body
  end.

(** The state a method leaves behind. *)
Definition after {S A : Type} (c : St S A) (s : S) : S := snd (c s).

(* ================================================================= *)
(** ** PyQt5: the thread of a worker *)

(** Every worker is a [QThread]; the interface submits work by a method
    that stores its arguments in attributes and calls [self.start()].  Of
    [QThread] the model keeps what Qt documents of [start()]: it begins
    the execution of the thread by calling [run()], and if the thread is
    already running it does nothing.  A thread runs from [start()] to the
    end of its [run]. *)
Module QThread.
Section Thread.
Context {Obj : Type}.

(** A thread object: the worker [obj], with its attributes and the record
    of what it has done; whether the thread runs; how many executions of
    [run] have been begun. *)
Record t : Type := mk {
  obj : Obj;
  isRunning : bool;
  begun : nat
}.

(** A method of the worker, called on the thread object. *)
Definition method {A : Type} (c : St Obj A) : St t A :=
  fun q => let '(r, o) := c (obj q) in (r, mk o (isRunning q) (begun q)).

(** [self.start()] *)
Definition start : St t unit :=
  modify (fun q => if isRunning q then q else mk (obj q) true (S (begun q))).

(** The thread executes [run], which [start()] has begun, to its end;
    an exception that leaves [run] ends the thread as well. *)
Definition exec (run : St Obj unit) : St t unit :=
  fun q =>
    if isRunning q
    then let '(r, o) := run (obj q) in (r, mk o false (begun q))
    else (Ok tt, q).
End Thread.
Arguments t Obj : clear implicits.
End QThread.

(* ================================================================= *)
(** ** tools.py: job records *)

(** The [info] of a job: an error code of the backend or a text. *)
Inductive job_info : Type :=
| InfoCode (c : Z)
| InfoText (s : string).

(** [DlJob = namedtuple('DlJob', [name, url, pwd, path, info, run, rate])] *)
Module DlJob.
Record t : Type := mk {
  name : string;
  url : string;
  pwd : string;
  path : string;
  info : option job_info;
  run : bool;
  rate : Z
}.
(** [job._replace(run=b)], [job._replace(info=i)], [job._replace(rate=r)] *)
Definition replace_run (j : t) (b : bool) : t :=
  mk (name j) (url j) (pwd j) (path j) (info j) b (rate j).
Definition replace_info (j : t) (i : option job_info) : t :=
  mk (name j) (url j) (pwd j) (path j) i (run j) (rate j).
Definition replace_rate (j : t) (r : Z) : t :=
  mk (name j) (url j) (pwd j) (path j) (info j) (run j) r.
End DlJob.

(** [UpJob = namedtuple('UpJob', [furl, id, folder, info, run, rate,
    set_pwd, pwd, set_desc, desc])] *)
Module UpJob.
Record t : Type := mk {
  furl : string;
  id : Z;
  folder : string;
  info : option job_info;
  run : bool;
  rate : Z;
  set_pwd : bool;
  pwd : string;
  set_desc : bool;
  desc : string
}.
Definition replace_info (j : t) (i : option job_info) : t :=
  mk (furl j) (id j) (folder j) i (run j) (rate j)
     (set_pwd j) (pwd j) (set_desc j) (desc j).
Definition replace_rate (j : t) (r : Z) : t :=
  mk (furl j) (id j) (folder j) (info j) (run j) r
     (set_pwd j) (pwd j) (set_desc j) (desc j).
End UpJob.

(* ================================================================= *)
(** ** workers.py: Downloader and DownloadManager *)

Module DownloadManager.

(** A [Downloader] thread object.  Of [QThread] the model keeps this:
    [start()] makes a thread that is not running run, and does nothing to
    one that runs; [isRunning()] tells which; a thread stops running when
    its [run] returns or when [terminate()] ends it, and either way emits
    [finished], whose slots are called when the signal is delivered. *)
Record Downloader : Type := mkDownloader {
  d_name : string;
  d_url : string;
  d_pwd : string;
  d_save_path : string;
  d_stopped : bool;      (* [_stopped] *)
  d_running : bool;      (* [isRunning()] *)
  d_pending : nat;       (* [finished] signals emitted and not yet delivered *)
  d_frame : nat          (* the activation of [DownloadManager.run] whose
                            variable [url] the slot on [finished] reads *)
}.

(** [DownloadManager]: its attributes, the [Downloader] objects it has
    created (an attribute holds the address of one), and the variable
    [url] of each activation of [run]. *)
Record t : Type := mkManager {
  _tasks : PyDict.t DlJob.t;
  _thread : Z;
  _count : Z;
  _is_work : bool;
  _mutex : bool;
  _dl_ing : PyDict.t DlJob.t;
  downloaders : PyDict.t nat;
  objects : list Downloader;
  frames : list (option string)
}.

(** [DownloadManager(threads)] *)
Definition init (threads : Z) : t :=
  mkManager [] threads 0 false false [] [] [] [].

Definition with_tasks (m : t) (x : PyDict.t DlJob.t) :=
  mkManager x (_thread m) (_count m) (_is_work m) (_mutex m) (_dl_ing m)
    (downloaders m) (objects m) (frames m).
Definition with_thread (m : t) (x : Z) :=
  mkManager (_tasks m) x (_count m) (_is_work m) (_mutex m) (_dl_ing m)
    (downloaders m) (objects m) (frames m).
Definition with_count (m : t) (x : Z) :=
  mkManager (_tasks m) (_thread m) x (_is_work m) (_mutex m) (_dl_ing m)
    (downloaders m) (objects m) (frames m).
Definition with_work (m : t) (x : bool) :=
  mkManager (_tasks m) (_thread m) (_count m) x x (_dl_ing m)
    (downloaders m) (objects m) (frames m).
Definition with_dl_ing (m : t) (x : PyDict.t DlJob.t) :=
  mkManager (_tasks m) (_thread m) (_count m) (_is_work m) (_mutex m) x
    (downloaders m) (objects m) (frames m).
Definition with_downloaders (m : t) (x : PyDict.t nat) :=
  mkManager (_tasks m) (_thread m) (_count m) (_is_work m) (_mutex m)
    (_dl_ing m) x (objects m) (frames m).
Definition with_objects (m : t) (x : list Downloader) :=
  mkManager (_tasks m) (_thread m) (_count m) (_is_work m) (_mutex m)
    (_dl_ing m) (downloaders m) x (frames m).
Definition with_frames (m : t) (x : list (option string)) :=
  mkManager (_tasks m) (_thread m) (_count m) (_is_work m) (_mutex m)
    (_dl_ing m) (downloaders m) (objects m) x.

(** Replace item [i] of a list (nothing happens past its end). *)
Fixpoint list_update {X : Type} (l : list X) (i : nat) (f : X -> X) : list X :=
  match l, i with
  | [], _ => []
  | x :: r, O => f x :: r
  | x :: r, S i' => x :: list_update r i' f
  end.

(** The object at address [a]. *)
Definition object_at (a : nat) : St t Downloader :=
  fun m =>
    match nth_error (objects m) a with
    | Some d => (Ok d, m)
    | None => (Raise OtherError, m)
    end.

Definition update_object (a : nat) (f : Downloader -> Downloader)
  : St t unit :=
  modify (fun m => with_objects m (list_update (objects m) a f)).

(** [QThread.start()] on a thread object, and on the object at [a]. *)
Definition started_object (d : Downloader) : Downloader :=
  mkDownloader (d_name d) (d_url d) (d_pwd d) (d_save_path d)
    (d_stopped d) true (d_pending d) (d_frame d).

Definition Downloader_start (a : nat) : St t unit :=
  update_object a started_object.

(** The thread at [a] leaves [run], by itself or terminated: it runs no
    more and emits [finished]. *)
Definition Downloader_exit (d : Downloader) : Downloader :=
  mkDownloader (d_name d) (d_url d) (d_pwd d) (d_save_path d)
    (d_stopped d) false (S (d_pending d)) (d_frame d).

(** [Downloader.stop]: sets [_stopped] and terminates the thread. *)
Definition stopped_object (d : Downloader) : Downloader :=
  let d := mkDownloader (d_name d) (d_url d) (d_pwd d) (d_save_path d)
             true (d_running d) (d_pending d) (d_frame d) in
  if d_running d then Downloader_exit d else d.

Definition Downloader_stop (a : nat) : St t unit :=
  update_object a stopped_object.

(** [Downloader.set_values]: stores the job and starts the thread. *)
Definition Downloader_set_values (a : nat) (name url pwd save_path : string)
  : St t unit :=
  update_object a (fun d =>
    mkDownloader name url pwd save_path
      (d_stopped d) (d_running d) (d_pending d) (d_frame d)) ;;;
  Downloader_start a.

(** [DownloadManager.set_thread] *)
Definition set_thread (thread : Z) : St t unit :=
  modify (fun m => with_thread m thread).

(** [DownloadManager.start()], inherited from [QThread]: a manager whose
    thread runs is left alone; otherwise the thread enters [run], whose
    first lines find [_is_work] false, lock the mutex and set the flag.
    The flag is true exactly while the thread is in [run].  The activation
    gets a variable [url] of its own, unbound so far. *)
Definition manager_start : St t unit :=
  modify (fun m =>
    if _is_work m then m
    else with_frames (with_work m true) (frames m ++ [None])).

(** [DownloadManager.add_task] *)
Definition add_task (task : DlJob.t) : St t unit :=
  m <~ get_state ;;
  (if negb (PyDict.mem (_tasks m) (DlJob.url task))
   then modify (fun m =>
          with_tasks m (PyDict.set (_tasks m) (DlJob.url task) task))
   else ret tt) ;;;
  manager_start.

(** [DownloadManager.add_tasks] *)
Definition add_tasks (tasks : PyDict.t DlJob.t) : St t unit :=
  modify (fun m => with_tasks m (PyDict.update (_tasks m) tasks)) ;;;
  manager_start.

(** [DownloadManager.stop_task] *)
Definition stop_task (task : DlJob.t) : St t unit :=
  m <~ get_state ;;
  a <~ subscript (downloaders m) (DlJob.url task) ;;
  d <~ object_at a ;;
  if d_running d then
    Downloader_stop a ;;;
    m <~ get_state ;;
    j <~ subscript (_dl_ing m) (DlJob.url task) ;;
    modify (fun m =>
      with_dl_ing m
        (PyDict.set (_dl_ing m) (DlJob.url task) (DlJob.replace_run j false)))
  else ret tt.

(** [DownloadManager.start_task] *)
Definition start_task (task : DlJob.t) : St t unit :=
  m <~ get_state ;;
  if negb (PyDict.mem (downloaders m) (DlJob.url task)) then add_task task
  else
    a <~ subscript (downloaders m) (DlJob.url task) ;;
    d <~ object_at a ;;
    if negb (d_running d) then
      Downloader_start a ;;;
      m <~ get_state ;;
      j <~ subscript (_dl_ing m) (DlJob.url task) ;;
      modify (fun m =>
        with_dl_ing m
          (PyDict.set (_dl_ing m) (DlJob.url task) (DlJob.replace_run j true)))
    else ret tt.

(** [DownloadManager.del_task] *)
Definition del_task (url : string) : St t unit :=
  modify (fun m =>
    let m := if PyDict.mem (_dl_ing m) url
             then with_dl_ing m (PyDict.remove (_dl_ing m) url) else m in
    if PyDict.mem (downloaders m) url
    then with_downloaders m (PyDict.remove (downloaders m) url) else m).

(** [DownloadManager._ahead_error] and [_ahead_rate] *)
Definition _ahead_error (url : string) (error : job_info)
  : St t unit :=
  m <~ get_state ;;
  j <~ subscript (_dl_ing m) url ;;
  modify (fun m =>
    with_dl_ing m (PyDict.set (_dl_ing m) url (DlJob.replace_info j (Some error)))).

Definition _ahead_rate (url : string) (rate : Z) : St t unit :=
  m <~ get_state ;;
  j <~ subscript (_dl_ing m) url ;;
  modify (fun m =>
    with_dl_ing m (PyDict.set (_dl_ing m) url (DlJob.replace_rate j rate))).

(** [DownloadManager._add_thread]: the count goes down first, then the
    entry is deleted, with [KeyError] when there is none. *)
Definition _add_thread (url : string) : St t unit :=
  modify (fun m => with_count m (_count m - 1)) ;;;
  m <~ get_state ;;
  if PyDict.mem (downloaders m) url
  then modify (fun m => with_downloaders m (PyDict.remove (downloaders m) url))
  else raise KeyError.

(** One pass through the body of [while True:] in [DownloadManager.run].
    An empty [_tasks] ends the loop, and [run] with it.  At the ceiling
    the pass is one [sleep(1)].  Otherwise one job leaves [_tasks] for a
    new [Downloader], whose [finished] is connected to
    [lambda: self._add_thread(url)]: the slot reads the variable [url] of
    this activation when it is called, not when it is connected. *)
Definition run_pass : St t unit :=
  m <~ get_state ;;
  if negb (_is_work m) then ret tt
  else
    match _tasks m with
    | [] => modify (fun m => with_work m false)
    | (url, task) :: _ =>
        if _thread m <=? _count m then ret tt
        else
          let frame := Nat.pred (List.length (frames m)) in
          let a := List.length (objects m) in
          modify (fun m => with_count m (_count m + 1)) ;;;
          modify (fun m =>
            with_frames m (list_update (frames m) frame (fun _ => Some url))) ;;;
          modify (fun m =>
            with_objects m
              (objects m ++ [mkDownloader "" "" "" "" true false O frame])) ;;;
          modify (fun m =>
            with_downloaders m (PyDict.set (downloaders m) url a)) ;;;
          modify (fun m =>
            with_dl_ing m
              (PyDict.set (_dl_ing m) url (DlJob.replace_run task true))) ;;;
          Downloader_set_values a (DlJob.name task) (DlJob.url task)
            (DlJob.pwd task) (DlJob.path task) ;;;
          modify (fun m => with_tasks m (PyDict.remove (_tasks m) url))
    end.

(** The download of the thread at [a] comes to its end: [Downloader.run]
    returns. *)
Definition worker_returns (a : nat) : St t unit :=
  update_object a (fun d => if d_running d then Downloader_exit d else d).

(** A [finished] signal of the object at [a] is delivered: the slot
    [lambda: self._add_thread(url)] runs with the present value of the
    variable [url] it closes over. *)
Definition finished_delivered (a : nat) : St t unit :=
  d <~ object_at a ;;
  match d_pending d with
  | O => ret tt
  | S n =>
      update_object a (fun d =>
        mkDownloader (d_name d) (d_url d) (d_pwd d) (d_save_path d)
          (d_stopped d) (d_running d) n (d_frame d)) ;;;
      m <~ get_state ;;
      match nth_error (frames m) (d_frame d) with
      | Some (Some url) => _add_thread url
      | _ => raise UnboundLocalError
      end
  end.

(** What can happen to a manager: a call of one of its methods by the
    interface, a pass of its loop, the end of a download, the delivery of
    a [finished] signal. *)
Inductive event : Type :=
| AddTask (task : DlJob.t)
| AddTasks (tasks : PyDict.t DlJob.t)
| StopTask (task : DlJob.t)
| StartTask (task : DlJob.t)
| DelTask (url : string)
| SetThread (thread : Z)
| RunPass
| WorkerReturns (a : nat)
| FinishedDelivered (a : nat).

Definition handle (e : event) : St t unit :=
  match e with
  | AddTask task => add_task task
  | AddTasks tasks => add_tasks tasks
  | StopTask task => stop_task task
  | StartTask task => start_task task
  | DelTask url => del_task url
  | SetThread thread => set_thread thread
  | RunPass => run_pass
  | WorkerReturns a => worker_returns a
  | FinishedDelivered a => finished_delivered a
  end.

(** A history: each event acts on the state the one before left, an
    exception being the caller's affair. *)
Definition play (es : list event) (m : t) : t :=
  fold_left (fun m e => after (handle e) m) es m.

(** The [Downloader] threads that run. *)
Definition running_workers (m : t) : Z :=
  Z.of_nat (List.length (filter d_running (objects m))).

Definition is_set_thread (e : event) : bool :=
  match e with SetThread _ => true | _ => false end.

End DownloadManager.

(* ================================================================= *)
(** ** The backend and what a worker leaves behind *)

(** The methods of the backend object [_disk] the workers below call. *)
Inductive call : Type :=
| get_share_info_by_url (share_url pwd : string)
| get_folder_info_by_url (share_url pwd : string)
| set_passwd (fid : Z) (pwd : string) (is_file : bool)
| set_desc (fid : Z) (desc : string) (is_file : bool)
| upload_file (furl : string) (folder_id : Z)
| upload_dir (furl : string) (folder_id : Z)
| login (username password : string)
| login_by_cookie (cookie : pyval)
| get_cookie
| logout
| delete (fid : Z) (is_file : bool).

(** What such a call returns: a status code; an information object with
    its [code] and what [infos["info"]] gives; the triple of
    [upload_file]; a cookie; nothing. *)
Inductive answer : Type :=
| a_code (code : Z)
| a_infos (code : Z) (info_item : result string)
| a_upload (code fid : Z) (isfile : bool)
| a_cookie (cookie : pyval)
| a_none.

(** A call reports progress samples [(file_name, total_size, now_size)]
    to the callback it was given, then returns or raises. *)
Record reply : Type := mkReply {
  progress : list (string * Z * Z);
  outcome : result answer
}.

(** The backend: the status codes of class [LanZouCloud], which this
    repository imports and does not define, and the reply to the [n]-th
    call. *)
Record LanZouCloud : Type := mkDisk {
  SUCCESS : Z;
  FAILED : Z;
  URL_INVALID : Z;
  LACK_PASSWORD : Z;
  PASSWORD_ERROR : Z;
  FILE_CANCELLED : Z;
  NETWORK_ERROR : Z;
  respond : nat -> call -> reply
}.

(** Arguments of a signal. *)
Inductive pyobj : Type :=
| o_none
| o_bool (b : bool)
| o_int (z : Z)
| o_str (s : string)
| o_val (v : pyval)
| o_answer (a : answer)
| o_progress (m : progress_msg)
| o_upjob (furl : string) (job : UpJob.t).

(** What a worker does that others see, in order. *)
Inductive item : Type :=
| Called (c : call)
| Emitted (signal : string) (args : list pyobj)
| Locked
| Unlocked.

(** A worker object and the record of what it has done. *)
Record io (W : Type) : Type := mkIO {
  self : W;
  log : list item
}.
Arguments mkIO {W} self log.
Arguments self {W} i.
Arguments log {W} i.

(** [res == code] for what a call returned and a status code: no other
    kind of answer is equal to a code. *)
Definition answer_is (res : answer) (code : Z) : bool :=
  match res with
  | a_code c => c =? code
  | _ => false
  end.

Definition is_call (i : item) : bool :=
  match i with Called _ => true | _ => false end.
Definition is_unlock (i : item) : bool :=
  match i with Unlocked => true | _ => false end.
Definition is_lock (i : item) : bool :=
  match i with Locked => true | _ => false end.

(** The backend calls, the releases and the takings of the mutex in a
    record. *)
Definition calls_in (l : list item) : list item := filter is_call l.
Definition unlocks_in (l : list item) : nat := List.length (filter is_unlock l).
Definition locks_in (l : list item) : nat := List.length (filter is_lock l).

Section Worker.
Context {W : Type}.

Definition get_self : St (io W) W := fun s => (Ok (self s), s).

Definition set_self (f : W -> W) : St (io W) unit :=
  modify (fun s => mkIO (f (self s)) (log s)).

Definition record (i : item) : St (io W) unit :=
  modify (fun s => mkIO (self s) (log s ++ [i])).

(** [self.<signal>.emit(args)] *)
Definition emit (signal : string) (args : list pyobj) : St (io W) unit :=
  record (Emitted signal args).

(** A call of the backend with a progress callback. *)
Definition ask_with (disk : LanZouCloud)
    (callback : string -> Z -> Z -> St (io W) unit) (c : call)
  : St (io W) answer :=
  s <~ get_state ;;
  let r := respond disk (List.length (calls_in (log s))) c in
  record (Called c) ;;;
  for_in (progress r)
    (fun sample => callback (fst (fst sample)) (snd (fst sample)) (snd sample)) ;;;
  match outcome r with
  | Ok a => ret a
  | Raise e => raise e
  end.

(** A call of the backend that is given no callback. *)
Definition ask (disk : LanZouCloud) (c : call) : St (io W) answer :=
  ask_with disk (fun _ _ _ => ret tt) c.


(** [code, fid, isfile = answer] *)
Definition as_upload (a : answer) : St (io W) (Z * Z * bool) :=
  match a with
  | a_upload c f b => ret (c, f, b)
  | _ => raise TypeError
  end.

(** [infos.code] *)
Definition infos_code (a : answer) : St (io W) Z :=
  match a with
  | a_infos c _ => ret c
  | _ => raise OtherError
  end.

(** [infos["info"]] *)
Definition infos_item (a : answer) : St (io W) string :=
  match a with
  | a_infos _ (Ok i) => ret i
  | a_infos _ (Raise e) => raise e
  | _ => raise TypeError
  end.

(** Run [c] and hand back how it ended, raising nothing. *)
Definition attempt {A : Type} (c : St (io W) A) : St (io W) (result A) :=
  fun s => let '(r, s') := c s in (Ok r, s').
End Worker.

(** The texts a guarded [run] emits when it finds the flag up. *)
Definition busy_text_1 : string := "<font color='blue'>后台正在运行，稍后重试！</font>".
Definition busy_text_2 : string := "后台正在运行，请稍后重试！".
Definition busy_text_3 : string := "后台正在运行删除指令！".

(* ================================================================= *)
(** ** workers.py: GetSharedInfo *)

Module GetSharedInfo.
Record t : Type := mk {
  share_url : string;
  pwd : string;
  is_file : bool;
  is_folder : bool;
  _mutex : bool;
  _is_work : bool
}.

Definition lock_and_flag (w : t) : t :=
  mk (share_url w) (pwd w) (is_file w) (is_folder w) true true.
Definition unflag_and_unlock (w : t) : t :=
  mk (share_url w) (pwd w) (is_file w) (is_folder w) false false.

(** [emit_msg] *)
Definition emit_msg (disk : LanZouCloud) (infos : answer) : St (io t) unit :=
  let show_time := 2999 in
  w <~ get_self ;;
  code <~ infos_code infos ;;
  if code =? FILE_CANCELLED disk then
    emit "msg" [o_str "<font color='red'>文件不存在，或已删除！</font>"; o_int show_time]
  else if code =? URL_INVALID disk then
    emit "msg" [o_str "<font color='red'>链接非法！</font>"; o_int show_time]
  else if code =? PASSWORD_ERROR disk then
    emit "msg" [o_str ("<font color='red'>提取码 [<b><font color='magenta'>"
                       ++ pwd w ++ "</font></b>] 错误！</font>"); o_int show_time]
  else if code =? LACK_PASSWORD disk then
    emit "msg" [o_str "<font color='red'>请在链接后面跟上提取码，空格分割！</font>"; o_int show_time]
  else if code =? NETWORK_ERROR disk then
    i <~ infos_item infos ;;
    emit "msg" [o_str ("<font color='red'>网络错误！" ++ i ++ "</font>"); o_int show_time]
  else if code =? SUCCESS disk then
    emit "msg" [o_str "<font color='#00CC00'>提取成功！</font>"; o_int show_time]
  else ret tt.

(** The lines of [run] under [try:]. *)
Definition run_try (disk : LanZouCloud) : St (io t) unit :=
  w <~ get_self ;;
  _infos <~ (if is_file w then
               i <~ ask disk (get_share_info_by_url (share_url w) (pwd w)) ;;
               emit_msg disk i ;;; ret (Some i)
             else if is_folder w then
               i <~ ask disk (get_folder_info_by_url (share_url w) (pwd w)) ;;
               emit_msg disk i ;;; ret (Some i)
             else ret None) ;;
  match _infos with
  | Some i => emit "infos" [o_answer i]
  | None => raise UnboundLocalError
  end.

(** The [except] clauses of [run]. *)
Definition run_except (e : exn) : St (io t) unit :=
  match e with
  | TimeoutError =>
      emit "msg" [o_str "font color='red'>网络超时！请稍后重试</font>"; o_int 5000]
  | _ => ret tt
  end.

(** [GetSharedInfo.run] *)
Definition run (disk : LanZouCloud) : St (io t) unit :=
  w <~ get_self ;;
  if negb (_is_work w) then
    record Locked ;;;
    set_self lock_and_flag ;;;
    try_except (run_try disk) run_except ;;;
    set_self unflag_and_unlock ;;;
    record Unlocked
  else
    emit "msg" [o_str busy_text_1; o_int 4000].
End GetSharedInfo.

(* ================================================================= *)
(** ** workers.py: LoginLuncher *)

Module LoginLuncher.
Record t : Type := mk {
  username : string;
  password : string;
  cookie : pyval
}.

(** The lines of [run] under [try:]; the [return] after a login by
    cookie skips the rest. *)
Definition run_try (disk : LanZouCloud) : St (io t) unit :=
  w <~ get_self ;;
  returned <~ (if truthy (cookie w) then
                 res <~ ask disk (login_by_cookie (cookie w)) ;;
                 if answer_is res (SUCCESS disk) then
                   emit "code" [o_bool true;
                     o_str "<font color='#00CC00'>通过<b>Cookie</b>登录<b>成功</b>！ ≧◉◡◉≦</font>";
                     o_int 5000] ;;;
                   ret true
                 else ret false
               else ret false) ;;
  if returned : bool then ret tt
  else if (negb (truthy (PyStr (username w))) || negb (truthy (PyStr (password w))))
          && negb (truthy (cookie w)) then
    emit "code" [o_bool false;
      o_str "<font color='red'>登录失败: 没有用户或密码</font>"; o_int 3000]
  else
    res <~ ask disk (login (username w) (password w)) ;;
    if answer_is res (SUCCESS disk) then
      emit "code" [o_bool true;
        o_str "<font color='#00CC00'>登录<b>成功</b>！ ≧◉◡◉≦</font>"; o_int 5000] ;;;
      c <~ ask disk get_cookie ;;
      emit "update_cookie" [o_answer c; o_str (username w)]
    else
      emit "code" [o_bool false;
        o_str "<font color='red'>登录失败，可能是用户名或密码错误！</font>"; o_int 8000] ;;;
      emit "update_cookie" [o_none; o_str (username w)].

Definition run_except (e : exn) : St (io t) unit :=
  match e with
  | TimeoutError =>
      emit "code" [o_bool false; o_str "<font color='red'>网络超时！</font>"; o_int 3000]
  | _ => ret tt
  end.

(** [LoginLuncher.run]: no flag is read and none is set. *)
Definition run (disk : LanZouCloud) : St (io t) unit :=
  try_except (run_try disk) run_except.
End LoginLuncher.

(* ================================================================= *)
(** ** workers.py: SetPwdWorker *)

(** What the workers read of an [Infos] object of [tools.py]. *)
Record Infos : Type := mkInfos {
  i_name : string;
  i_is_file : bool;
  i_id : Z;
  i_new_pwd : string
}.

Module SetPwdWorker.
Record t : Type := mk {
  infos : list Infos;
  _work_id : Z;
  _mutex : bool;
  _is_work : bool
}.

Definition lock_and_flag (w : t) : t := mk (infos w) (_work_id w) true true.
Definition unflag_and_unlock (w : t) : t := mk (infos w) (_work_id w) false false.

(** The local variables of [run]. *)
Record locals : Type := mkLocals {
  has_file : bool;
  has_folder : bool;
  failed : bool;
  res : option answer
}.

(** [2 > len(new_pwd) >= 1 or len(new_pwd) > limit] *)
Definition bad_length (new_pwd : string) (limit : Z) : bool :=
  ((py_len new_pwd <? 2) && (1 <=? py_len new_pwd)) || (limit <? py_len new_pwd).

(** The body of [for infos in self.infos:]. *)
Definition run_item (disk : LanZouCloud) (v : locals) (i : Infos)
  : St (io t) locals :=
  v <~ (if i_is_file i then
          let v := mkLocals true (has_folder v) (failed v) (res v) in
          if bad_length (i_new_pwd i) 6 then
            emit "msg" [o_str "文件提取码为2-6位字符,关闭请留空！"; o_int 4000] ;;;
            raise UserWarning
          else ret v
        else
          let v := mkLocals (has_file v) true (failed v) (res v) in
          if bad_length (i_new_pwd i) 12 then
            emit "msg" [o_str "文件夹提取码为0-12位字符,关闭请留空！"; o_int 4000] ;;;
            raise UserWarning
          else ret v) ;;
  r <~ ask disk (set_passwd (i_id i) (i_new_pwd i) (i_is_file i)) ;;
  ret (mkLocals (has_file v) (has_folder v)
         (if negb (answer_is r (SUCCESS disk)) then true else failed v)
         (Some r)).

Fixpoint run_items (disk : LanZouCloud) (l : list Infos) (v : locals)
  : St (io t) locals :=
  match l with
  | [] => ret v
  | i :: r => v' <~ run_item disk v i ;; run_items disk r v'
  end.

(** The lines of [run] under [try:]. *)
Definition run_try (disk : LanZouCloud) : St (io t) unit :=
  w <~ get_self ;;
  v <~ run_items disk (infos w) (mkLocals false false false None) ;;
  (if failed v then
     match res v with
     | Some r =>
         emit "msg" [o_str "部分提取码变更失败❀╳❀:{}，请勿使用特殊符号!"; o_answer r; o_int 4000]
     | None => raise UnboundLocalError
     end
   else emit "msg" [o_str "提取码变更成功！♬"; o_int 3000]) ;;;
  emit "update" [o_int (_work_id w); o_bool (has_file v); o_bool (has_folder v);
                 o_bool false].

Definition run_except (e : exn) : St (io t) unit :=
  match e with
  | TimeoutError => emit "msg" [o_str "网络超时，请稍后重试！"; o_int 6000]
  | _ => ret tt
  end.

(** [SetPwdWorker.run] *)
Definition run (disk : LanZouCloud) : St (io t) unit :=
  w <~ get_self ;;
  if negb (_is_work w) then
    record Locked ;;;
    set_self lock_and_flag ;;;
    try_except (run_try disk) run_except ;;;
    set_self unflag_and_unlock ;;;
    record Unlocked
  else
    emit "msg" [o_str busy_text_2; o_int 3100].
End SetPwdWorker.

(* ================================================================= *)
(** ** workers.py: LogoutWorker *)

Module LogoutWorker.
Record t : Type := mk {
  update_ui : bool;
  _mutex : bool;
  _is_work : bool
}.

Definition lock_and_flag (w : t) : t := mk (update_ui w) true true.
Definition unflag_and_unlock (w : t) : t := mk (update_ui w) false false.

Definition run_try (disk : LanZouCloud) : St (io t) unit :=
  w <~ get_self ;;
  res <~ ask disk logout ;;
  if answer_is res (SUCCESS disk) then
    (if update_ui w then emit "successed" [] else ret tt) ;;;
    emit "msg" [o_str "已经退出登录！"; o_int 4000]
  else
    emit "msg" [o_str "失败，请重试！"; o_int 5000].

Definition run_except (e : exn) : St (io t) unit :=
  match e with
  | TimeoutError => emit "msg" [o_str "网络超时，请稍后重试！"; o_int 6000]
  | _ => ret tt
  end.

(** [LogoutWorker.run] *)
Definition run (disk : LanZouCloud) : St (io t) unit :=
  w <~ get_self ;;
  if negb (_is_work w) then
    record Locked ;;;
    set_self lock_and_flag ;;;
    try_except (run_try disk) run_except ;;;
    set_self unflag_and_unlock ;;;
    record Unlocked
  else
    emit "msg" [o_str busy_text_2; o_int 3100].
End LogoutWorker.

(* ================================================================= *)
(** ** workers.py: RemoveFilesWorker *)

Module RemoveFilesWorker.
Record t : Type := mk {
  infos : list Infos;
  _mutex : bool;
  _is_work : bool
}.

Definition lock_and_flag (w : t) : t := mk (infos w) true true.
Definition unflag_and_unlock (w : t) : t := mk (infos w) false false.

(** The body of [for i in self.infos:], a [try] of its own. *)
Definition run_item (disk : LanZouCloud) (i : Infos) : St (io t) unit :=
  try_except
    (ask disk (delete (i_id i) (i_is_file i)) ;;; ret tt)
    (fun e =>
       match e with
       | TimeoutError =>
           emit "msg" [o_str ("删除 " ++ i_name i ++ " 因网络超时失败！"); o_int 3000]
       | _ => ret tt
       end).

(** [RemoveFilesWorker.run]: with nothing to delete it resets the flag,
    unlocks and returns at once. *)
Definition run (disk : LanZouCloud) : St (io t) unit :=
  w <~ get_self ;;
  if negb (_is_work w) then
    record Locked ;;;
    set_self lock_and_flag ;;;
    match infos w with
    | [] =>
        set_self unflag_and_unlock ;;;
        record Unlocked
    | _ =>
        for_in (infos w) (run_item disk) ;;;
        emit "finished" [] ;;;
        set_self unflag_and_unlock ;;;
        record Unlocked
    end
  else
    emit "msg" [o_str busy_text_3; o_int 3100].
End RemoveFilesWorker.

(* ================================================================= *)
(** ** workers.py: UploadWorker *)

(** What [os.path] tells about the local files. *)
Record FileSystem : Type := mkFS {
  exists_ : string -> bool;
  isdir : string -> bool
}.

Module UploadWorker.
Record t : Type := mk {
  _tasks : PyDict.t UpJob.t;
  _mutex : bool;
  _is_work : bool;
  _furl : string;
  _task : option UpJob.t
}.

Definition lock_and_flag (w : t) : t :=
  mk (_tasks w) true true (_furl w) (_task w).
Definition unflag_and_unlock (w : t) : t :=
  mk (_tasks w) false false (_furl w) (_task w).
Definition with_current (furl : string) (task : UpJob.t) (w : t) : t :=
  mk (_tasks w) (_mutex w) (_is_work w) furl (Some task).
Definition with_task (task : UpJob.t) (w : t) : t :=
  mk (_tasks w) (_mutex w) (_is_work w) (_furl w) (Some task).
Definition with_tasks (d : PyDict.t UpJob.t) (w : t) : t :=
  mk d (_mutex w) (_is_work w) (_furl w) (_task w).

(** [self._task] where a job is expected. *)
Definition current_task : St (io t) UpJob.t :=
  w <~ get_self ;;
  match _task w with
  | Some j => ret j
  | None => raise OtherError
  end.

(** [self._task = self._task._replace(info=text)] and the emission of
    the one-job dictionary that follows it in both [except] clauses. *)
Definition set_info (text : string) : St (io t) unit :=
  j <~ current_task ;;
  set_self (with_task (UpJob.replace_info j (Some (InfoText text)))).

Definition emit_update : St (io t) unit :=
  w <~ get_self ;;
  j <~ current_task ;;
  emit "update" [o_upjob (_furl w) j].

(** [UploadWorker._show_progress] *)
Definition _show_progress (file_name : string) (total_size now_size : Z)
  : St (io t) unit :=
  msg <~ (fun s => (show_progress file_name total_size now_size, s)) ;;
  rate <~ (fun s => (progress_rate total_size now_size, s)) ;;
  j <~ current_task ;;
  set_self (with_task (UpJob.replace_rate j rate)) ;;;
  emit_update ;;;
  emit "code" [o_progress msg; o_int 0].

(** [UploadWorker.add_task] and [add_tasks]; the thread is started by
    the caller of the model, with [run]. *)
Definition add_task (task : UpJob.t) : St (io t) unit :=
  w <~ get_self ;;
  if negb (PyDict.mem (_tasks w) (UpJob.furl task))
  then set_self (fun w => with_tasks (PyDict.set (_tasks w) (UpJob.furl task) task) w)
  else ret tt.

Definition add_tasks (tasks : PyDict.t UpJob.t) : St (io t) unit :=
  set_self (fun w => with_tasks (PyDict.update (_tasks w) tasks) w).

(** The upload of one file: [try] / [except] / [else]. *)
Definition upload_one (disk : LanZouCloud) : St (io t) unit :=
  w <~ get_self ;;
  j <~ current_task ;;
  emit "code" [o_str ("<b>INFO :</b> <font color='#00CC00'>上传文件:" ++ _furl w ++ "</font>");
               o_int 20000] ;;;
  r <~ attempt (a <~ ask_with disk _show_progress
                       (upload_file (UpJob.furl j) (UpJob.id j)) ;;
                as_upload a) ;;
  match r with
  | Raise TimeoutError =>
      emit "code" [o_str "<b>ERROR :</b> <font color='red'>网络连接超时，请重试！</font>";
                   o_int 3100] ;;;
      set_info "网络连接超时" ;;;
      emit_update
  | Raise _ =>
      set_info "未知错误" ;;;
      emit_update
  | Ok (code, fid, isfile) =>
      set_info "上传成功" ;;;
      if code =? SUCCESS disk then
        j <~ current_task ;;
        (if UpJob.set_pwd j
         then ask disk (set_passwd fid (UpJob.pwd j) isfile) ;;; ret tt
         else ret tt) ;;;
        j <~ current_task ;;
        (if UpJob.set_desc j
         then ask disk (set_desc fid (UpJob.desc j) isfile) ;;; ret tt
         else ret tt)
      else ret tt
  end.

(** How a pass through the body of [while True:] ends. *)
Inductive pass_end : Type :=
| Break       (* [_tasks] is empty *)
| Continue    (* the [continue] after a missing path *)
| Next.       (* the end of the body, after [del self._tasks[self._furl]] *)

(** One pass through the body of [while True:] in [run]. *)
Definition run_pass (fs : FileSystem) (disk : LanZouCloud) : St (io t) pass_end :=
  w <~ get_self ;;
  match _tasks w with
  | [] => ret Break
  | (furl, task) :: _ =>
      set_self (with_current furl task) ;;;
      if negb (exists_ fs furl) then
        emit "code" [o_str ("<b>ERROR :</b> <font color='red'>文件不存在:" ++ furl ++ "</font>");
                     o_int 3100] ;;;
        ret Continue
      else
        (if isdir fs furl then
           emit "code" [o_str ("<b>INFO :</b> <font color='#00CC00'>批量上传文件夹:" ++ furl ++ "</font>");
                        o_int 30000] ;;;
           ask_with disk _show_progress (upload_dir furl (UpJob.id task)) ;;;
           ret tt
         else upload_one disk) ;;;
        w <~ get_self ;;
        (if PyDict.mem (_tasks w) (_furl w)
         then set_self (fun w => with_tasks (PyDict.remove (_tasks w) (_furl w)) w)
         else raise KeyError) ;;;
        ret Next
  end.

(** The loop [while True:], for at most [fuel] passes: [true] when it
    was left by [break], [false] when the passes ran out first. *)
Fixpoint run_loop (fs : FileSystem) (disk : LanZouCloud) (fuel : nat)
  : St (io t) bool :=
  match fuel with
  | O => ret false
  | S n =>
      e <~ run_pass fs disk ;;
      match e with
      | Break => ret true
      | _ => run_loop fs disk n
      end
  end.

(** [UploadWorker.run], for at most [fuel] passes of its loop: [true]
    when [run] came to its end. *)
Definition run (fs : FileSystem) (disk : LanZouCloud) (fuel : nat)
  : St (io t) bool :=
  w <~ get_self ;;
  if negb (_is_work w) then
    record Locked ;;;
    set_self lock_and_flag ;;;
    left <~ run_loop fs disk fuel ;;
    if left : bool then
      set_self unflag_and_unlock ;;;
      record Unlocked ;;;
      ret true
    else ret false
  else ret true.
End UploadWorker.

(* ================================================================= *)
(** ** The guard of the single-action workers *)

Definition is_emission (i : item) : bool :=
  match i with Emitted _ _ => true | _ => false end.

(** A signal or a call of the backend: what a worker does between
    taking its mutex and releasing it. *)
Definition is_work_item (i : item) : bool := is_emission i || is_call i.

(** [c] leaves the attributes of the worker alone and adds to the record
    only items that [allowed] accepts. *)
Definition adds {W A : Type} (allowed : item -> bool) (c : St (io W) A) : Prop :=
  forall s, exists added,
    snd (c s) = mkIO (self s) (log s ++ added) /\ forallb allowed added = true.

(** The guard of a single-action worker, as every [run] that has one is
    written.  From a state whose flag is down, [run] returns without
    raising, with the flag down and the mutex free again, having taken
    the mutex once and released it once, and what it did in between is
    work: signals and backend calls. *)
Definition releases_once {W : Type} (flag mutex : W -> bool)
    (run : St (io W) unit) : Prop :=
  forall (w : W) (l : list item),
    flag w = false ->
    exists (w' : W) (work : list item),
      run (mkIO w l) = (Ok tt, mkIO w' (l ++ Locked :: work ++ [Unlocked]))
      /\ flag w' = false
      /\ mutex w' = false
      /\ forallb is_work_item work = true.

(* ================================================================= *)
(** ** What a record shows *)

(** The arguments of the emissions of [signal] in a record, in order. *)
Definition emitted (signal : string) (l : list item) : list (list pyobj) :=
  flat_map (fun i => match i with
                     | Emitted sg args => if String.eqb sg signal then [args] else []
                     | _ => []
                     end) l.

(** The calls of [upload_file] in a record. *)
Definition is_upload (i : item) : bool :=
  match i with Called (upload_file _ _) => true | _ => false end.

(** [c] leaves the flag and the mutex of an [UploadWorker] as they are,
    however it ends. *)
Definition keeps_guard {A : Type} (c : St (io UploadWorker.t) A) : Prop :=
  forall s,
    UploadWorker._is_work (self (snd (c s))) = UploadWorker._is_work (self s)
    /\ UploadWorker._mutex (self (snd (c s))) = UploadWorker._mutex (self s).

(** What the loop of [DownloadManager.run] has made of the jobs [d], and
    nothing else submitted, when [j] of them are handed out: they are the
    first [j], each with a [Downloader] of its own that runs; the others
    are pending.  [work] tells whether [run] is still in its loop. *)
Definition dispatched (d : PyDict.t DlJob.t) (threads : Z) (j : nat) (work : bool)
  : DownloadManager.t :=
  DownloadManager.mkManager (skipn j d) threads (Z.of_nat j) work work
    (map (fun kv => (fst kv, DlJob.replace_run (snd kv) true)) (firstn j d))
    (combine (PyDict.keys (firstn j d)) (seq 0 j))
    (map (fun kv => DownloadManager.mkDownloader
                      (DlJob.name (snd kv)) (DlJob.url (snd kv))
                      (DlJob.pwd (snd kv)) (DlJob.path (snd kv)) true true O O)
       (firstn j d))
    [match j with
     | O => None
     | S i => option_map fst (nth_error d i)
     end].

(* ================================================================= *)
(** ** tools.py: UserInfo and the objects it shares with its caller *)

(** [UserInfo.encode] changes a dictionary it is given in place, and
    [decode] builds a new one.  To tell the two apart the dictionaries
    live in a store and are named by their address; a string is a value
    of its own. *)
Module Shared.

Inductive ref : Type :=
| RNone
| RStr (s : string)
| RDict (a : nat).

Definition store : Type := list (PyDict.t string).

(** The dictionary at address [a]. *)
Definition deref (a : nat) : St store (PyDict.t string) :=
  fun h =>
    match nth_error h a with
    | Some d => (Ok d, h)
    | None => (Raise OtherError, h)
    end.

(** [d[k] = v] on the dictionary at address [a]. *)
Definition assign (a : nat) (k v : string) : St store unit :=
  modify (fun h => DownloadManager.list_update h a (fun d => PyDict.set d k v)).

(** [{}]: a new dictionary, at a new address. *)
Definition new_dict : St store nat :=
  fun h => (Ok (List.length h), (h ++ [[]])%list).

(** A function of [tools.py] that touches no object. *)
Definition pure {A : Type} (r : result A) : St store A := fun h => (r, h).

(** [UserInfo.encode]: the items of a dictionary are overwritten one by
    one, and the dictionary itself is returned. *)
Definition encode (var : ref) : St store ref :=
  match var with
  | RDict a =>
      d <~ deref a ;;
      for_in d (fun kv => c <~ pure (encrypt KEY (snd kv)) ;; assign a (fst kv) c) ;;;
      ret var
  | RStr s =>
      if negb (String.eqb s "")
      then c <~ pure (encrypt KEY s) ;; ret (RStr c)
      else ret var
  | RNone => ret var
  end.

(** [UserInfo.decode]: a dictionary is read into a new one; whatever is
    raised on the way gives [None]. *)
Definition decode (var : ref) : St store ref :=
  try_except
    (match var with
     | RDict a =>
         dvar <~ new_dict ;;
         d <~ deref a ;;
         for_in d (fun kv => p <~ pure (decrypt KEY (snd kv)) ;; assign dvar (fst kv) p) ;;;
         ret (RDict dvar)
     | RStr s =>
         if negb (String.eqb s "")
         then p <~ pure (decrypt KEY s) ;; ret (RStr p)
         else ret RNone
     | RNone => ret RNone
     end)
    (fun _ => ret RNone).

(** A [UserInfo] object. *)
Record t : Type := mk {
  _username : ref;
  _pwd : ref;
  _cookie : ref;
  _settings : ref
}.

(** [UserInfo.__init__] *)
Definition init (name pwd cookie : ref) : St store t :=
  u <~ encode name ;;
  p <~ encode pwd ;;
  c <~ encode cookie ;;
  s <~ new_dict ;;
  ret (mk u p c (RDict s)).

(** The properties [name], [pwd], [cookie] and [settings]. *)
Definition name (u : t) : St store ref := decode (_username u).
Definition pwd (u : t) : St store ref := decode (_pwd u).
Definition cookie (u : t) : St store ref := decode (_cookie u).
Definition settings (u : t) : ref := _settings u.

(** The setters of [cookie] and [settings]. *)
Definition set_cookie (u : t) (cookie : ref) : St store t :=
  c <~ encode cookie ;;
  ret (mk (_username u) (_pwd u) c (_settings u)).

Definition set_settings (u : t) (settings : ref) : t :=
  mk (_username u) (_pwd u) (_cookie u) settings.

(** [UserInfo.set_infos]: [infos] is a dictionary of values by name. *)
Definition set_infos (u : t) (infos : PyDict.t ref) : St store t :=
  u <~ (match PyDict.get infos "name" with
        | Some v => e <~ encode v ;; ret (mk e (_pwd u) (_cookie u) (_settings u))
        | None => ret u
        end) ;;
  u <~ (match PyDict.get infos "pwd" with
        | Some v => e <~ encode v ;; ret (mk (_username u) e (_cookie u) (_settings u))
        | None => ret u
        end) ;;
  match PyDict.get infos "cookie" with
  | Some v => e <~ encode v ;; ret (mk (_username u) (_pwd u) e (_settings u))
  | None => ret u
  end.

(** A value a [UserInfo] can be given, in the store [h]: a string in it
    is a Python string, and a dictionary is at its address, with strings
    for values. *)
Definition ref_ok (h : store) (v : ref) : Prop :=
  match v with
  | RNone => True
  | RStr s => is_str s
  | RDict a =>
      exists d, nth_error h a = Some d
                /\ PyDict.wf d /\ Forall (fun kv => is_str (snd kv)) d
  end.

(** Two values that are not one and the same dictionary. *)
Definition apart (v w : ref) : Prop :=
  match v, w with
  | RDict a, RDict b => a <> b
  | _, _ => True
  end.

(** [got], what an accessor gives in the store [h1], is the value [v] as
    it was in the store [h0]: [v] itself for [None] and for a string that
    is not empty, [None] for the empty string, and for a dictionary a new
    one, with the items the dictionary had in [h0]. *)
Definition gives_back (h0 : store) (v : ref) (h1 : store) (got : result ref * store)
  : Prop :=
  match v with
  | RNone => got = (Ok RNone, h1)
  | RStr s => got = (Ok (if String.eqb s "" then RNone else RStr s), h1)
  | RDict a =>
      exists d, nth_error h0 a = Some d
                /\ got = (Ok (RDict (List.length h1)), (h1 ++ [d])%list)
  end.

End Shared.

(* ================================================================= *)
(** ** The other workers and what they ask of the backend *)

Module Api.

(** A file or a folder in a list of the backend: its name and its id
    (class [File], [Folder], [RecFile] or [RecFolder] of
    [lanzou.api.types]; the other fields are not read here). *)
Record entry : Type := mkEntry {
  e_name : string;
  e_id : Z
}.

(** What [RenameMkdirWorker] reads of an object of the dialog, a
    [FileInfos] or a [FolderInfos] of [tools.py]: [is_file], [id],
    [new_name] and [new_des]. *)
Record edit : Type := mkEdit {
  ed_is_file : bool;
  ed_id : Z;
  ed_new_name : string;
  ed_new_des : string
}.

(** An item of the sequence the dialog hands to [RenameMkdirWorker]: a
    text, or a list of such objects. *)
Inductive value : Type :=
| v_str (s : string)
| v_edits (l : list edit).

(** The methods of [_disk] these workers call. *)
Inductive request : Type :=
| down_file_by_url (url pwd save_path : string)
| down_dir_by_url (url pwd save_path : string)
| get_share_info (fid : Z) (is_file : bool)
| get_file_info_by_url (url pwd : string)
| get_file_list (fid : Z)
| get_dir_list (fid : Z)
| move_file (fid target : Z)
| move_folder (fid target : Z)
| get_move_folders
| mkdir (parent : Z) (name : string) (desc : value)
| set_desc (fid : Z) (desc : string) (is_file : bool)
| _set_dir_info (fid : Z) (name desc : string)
| get_rec_file_list (folder_id : Z)
| get_rec_dir_list
| recovery_multi (files folders : list Z)
| delete_rec_multi (files folders : list Z)
| clean_rec
| recovery_all.

(** What such a call returns: a status code; the share information of a
    file or folder; the details of a shared file; a list of files; the
    folders with the path to them; the folders a file can move to, by
    name; nothing. *)
Inductive answer : Type :=
| a_code (code : Z)
| a_share (code : Z) (pwd url desc : string)
| a_detail (code : Z) (durl : string)
| a_list (l : list entry)
| a_dirs (folders full_path : list entry)
| a_folders (name_id : PyDict.t Z)
| a_none.

(** What a call does with the callbacks it was given, before it returns. *)
Inductive callback : Type :=
| Progress (file_name : string) (total_size now_size : Z)
| Failed (code : Z) (file : entry).

Record reply : Type := mkReply {
  callbacks : list callback;
  outcome : result answer
}.

(** The backend: the status codes of class [LanZouCloud] and the reply
    to the [n]-th call. *)
Record LanZouCloud : Type := mkDisk {
  SUCCESS : Z;
  FAILED : Z;
  NETWORK_ERROR : Z;
  MKDIR_ERROR : Z;
  respond : nat -> request -> reply
}.

(** What [ListRefresher] reports: the dictionary [emit_infos], whose
    items [file_list], [folder_list] and [path_list] are there or not. *)
Record listing : Type := mkListing {
  l_fid : Z;
  l_files : bool;
  l_folders : bool;
  l_path : bool;
  file_list : option (PyDict.t entry);
  folder_list : option (PyDict.t entry);
  path_list : option (list entry)
}.

(** Arguments of a signal.  An [Infos] object of the interface goes by
    its address; [g_fmt] is a text with one value put into it. *)
Inductive arg : Type :=
| g_none
| g_bool (b : bool)
| g_int (z : Z)
| g_str (s : string)
| g_exn (e : exn)
| g_answer (a : answer)
| g_progress (m : progress_msg)
| g_entry (e : entry)
| g_ref (a : nat)
| g_refs (l : list nat)
| g_tasks (d : PyDict.t DlJob.t)
| g_names (d : PyDict.t Z)
| g_listing (l : listing)
| g_fmt (template : string) (part : arg).

(** What a worker does that others see, in order; [Slept] is a call of
    [sleep], in milliseconds. *)
Inductive item : Type :=
| Called (r : request)
| Emitted (signal : string) (args : list arg)
| Slept (ms : Z)
| Locked
| Unlocked.

Record io (W : Type) : Type := mkIO {
  self : W;
  log : list item
}.
Arguments mkIO {W} self log.
Arguments self {W} i.
Arguments log {W} i.

Definition is_call (i : item) : bool :=
  match i with Called _ => true | _ => false end.
Definition is_emission (i : item) : bool :=
  match i with Emitted _ _ => true | _ => false end.

Definition calls_in (l : list item) : list item := filter is_call l.

(** The arguments of the emissions of [signal] in a record, in order. *)
Definition emitted (signal : string) (l : list item) : list (list arg) :=
  flat_map (fun i => match i with
                     | Emitted sg args => if String.eqb sg signal then [args] else []
                     | _ => []
                     end) l.

(** [res == code] for what a call returned and a status code. *)
Definition answer_is (res : answer) (code : Z) : bool :=
  match res with
  | a_code c => c =? code
  | _ => false
  end.

(** [isinstance(res, int)] *)
Definition is_int (res : answer) : bool :=
  match res with
  | a_code _ => true
  | _ => false
  end.

Section Worker.
Context {W : Type}.

Definition get_self : St (io W) W := fun s => (Ok (self s), s).

Definition set_self (f : W -> W) : St (io W) unit :=
  modify (fun s => mkIO (f (self s)) (log s)).

Definition record (i : item) : St (io W) unit :=
  modify (fun s => mkIO (self s) (log s ++ [i])%list).

(** [self.<signal>.emit(args)] and [sleep(ms / 1000)] *)
Definition emit (signal : string) (args : list arg) : St (io W) unit :=
  record (Emitted signal args).

Definition sleep (ms : Z) : St (io W) unit := record (Slept ms).

(** A call of the backend with a progress callback and, when
    [on_failed] is one, a callback for the files that failed.  A callback
    that raises ends the call. *)
Definition ask_with (disk : LanZouCloud)
    (on_progress : string -> Z -> Z -> St (io W) unit)
    (on_failed : option (Z -> entry -> St (io W) unit))
    (r : request) : St (io W) answer :=
  s <~ get_state ;;
  let rep := respond disk (List.length (calls_in (log s))) r in
  record (Called r) ;;;
  for_in (callbacks rep)
    (fun c => match c with
              | Progress file_name total_size now_size =>
                  on_progress file_name total_size now_size
              | Failed code file =>
                  match on_failed with
                  | Some f => f code file
                  | None => ret tt
                  end
              end) ;;;
  match outcome rep with
  | Ok a => ret a
  | Raise e => raise e
  end.

(** A call of the backend that is given no callback. *)
Definition ask (disk : LanZouCloud) (r : request) : St (io W) answer :=
  s <~ get_state ;;
  record (Called r) ;;;
  match outcome (respond disk (List.length (calls_in (log s))) r) with
  | Ok a => ret a
  | Raise e => raise e
  end.

(** [res.code] and the like: an attribute of what a call returned; what
    has no such attribute raises. *)
Definition code_of (a : answer) : St (io W) Z :=
  match a with
  | a_share c _ _ _ => ret c
  | a_detail c _ => ret c
  | _ => raise OtherError
  end.
End Worker.

(** What [lanzou.api.utils] tells about a url. *)
Record Utils : Type := mkUtils {
  is_file_url : string -> bool;
  is_folder_url : string -> bool
}.

(* ----------------------------------------------------------------- *)
(** *** workers.py: Downloader *)

Module Downloader.
Record t : Type := mk {
  name : string;
  url : string;
  pwd : string;
  save_path : string
}.

(** [Downloader._show_progress] *)
Definition _show_progress (file_name : string) (total_size now_size : Z)
  : St (io t) unit :=
  msg <~ (fun s => (show_progress file_name total_size now_size, s)) ;;
  w <~ get_self ;;
  rate <~ (fun s => (progress_rate total_size now_size, s)) ;;
  emit "download_rate" [g_str (url w); g_int rate] ;;;
  emit "download_proc" [g_progress msg].

(** [Downloader._down_failed] *)
Definition _down_failed (code : Z) (file : entry) : St (io t) unit :=
  emit "folder_file_failed" [g_int code; g_entry file].

(** The lines of [run] under [try:]. *)
Definition run_try (utils : Utils) (disk : LanZouCloud) : St (io t) unit :=
  w <~ get_self ;;
  res <~ (if is_file_url utils (url w) then
            r <~ ask_with disk _show_progress None
                   (down_file_by_url (url w) (pwd w) (save_path w)) ;;
            ret (Some r)
          else if is_folder_url utils (url w) then
            r <~ ask_with disk _show_progress (Some _down_failed)
                   (down_dir_by_url (url w) (pwd w) (save_path w)) ;;
            ret (Some r)
          else ret None) ;;
  match res with
  | None => ret tt
  | Some res =>
      if answer_is res 0
      then emit "download_rate" [g_str (url w); g_int 1000]
      else emit "download_failed" [g_str (url w); g_answer res]
  end.

(** The [except] clauses of [run]. *)
Definition run_except (e : exn) : St (io t) unit :=
  w <~ get_self ;;
  match e with
  | TimeoutError => emit "download_failed" [g_str (url w); g_str "网络连接错误！"]
  | _ => emit "download_failed" [g_str (url w); g_fmt "未知错误！{}" (g_exn e)]
  end.

(** [Downloader.run] *)
Definition run (utils : Utils) (disk : LanZouCloud) : St (io t) unit :=
  try_except (run_try utils disk) run_except.

(** [Downloader.set_values]; the thread is started by the caller of the
    model, with [run]. *)
Definition set_values (name url pwd save_path : string) : St (io t) unit :=
  set_self (fun _ => mk name url pwd save_path).

(** What a callback raises in a [Downloader], if it raises: a progress
    sample whose message or whose rate cannot be computed. *)
Definition raised (c : callback) : option exn :=
  match c with
  | Progress file_name total_size now_size =>
      match show_progress file_name total_size now_size with
      | Raise e => Some e
      | Ok _ =>
          match progress_rate total_size now_size with
          | Raise e => Some e
          | Ok _ => None
          end
      end
  | Failed _ _ => None
  end.

(** What a callback that returns adds to the record of the [Downloader]
    of [url]: a progress sample its rate and its message; a file of a
    folder that failed the signal [folder_file_failed], which the
    download of a single file, given no callback for it, leaves out. *)
Definition forwarded (url : string) (folder : bool) (c : callback) : list item :=
  match c with
  | Progress file_name total_size now_size =>
      match show_progress file_name total_size now_size,
            progress_rate total_size now_size with
      | Ok msg, Ok rate =>
          [Emitted "download_rate" [g_str url; g_int rate];
           Emitted "download_proc" [g_progress msg]]
      | _, _ => []
      end
  | Failed code file =>
      if folder then [Emitted "folder_file_failed" [g_int code; g_entry file]] else []
  end.

End Downloader.

End Api.

(* ================================================================= *)
(** ** workers.py: GetRecListsWorker *)

Module GetRecListsWorker.
Import Api.

Record t : Type := mk {
  _folder_id : option Z;
  _mutex : bool;
  _is_work : bool
}.

Definition lock_and_flag (w : t) : t := mk (_folder_id w) true true.
Definition unflag_and_unlock (w : t) : t := mk (_folder_id w) false false.

(** [GetRecListsWorker.set_values]; the thread is started by the caller
    of the model, with [run]. *)
Definition set_values (fid : option Z) : St (io t) unit :=
  set_self (fun w => mk fid (_mutex w) (_is_work w)).

(** The lines of [run] under [try:].  [if self._folder_id:] takes [None]
    and [0] for false. *)
Definition run_try (disk : LanZouCloud) : St (io t) unit :=
  w <~ get_self ;;
  (match _folder_id w with
   | Some folder_id =>
       if negb (folder_id =? 0) then
         file_lists <~ ask disk (get_rec_file_list folder_id) ;;
         set_self (fun w => mk None (_mutex w) (_is_work w)) ;;;
         emit "folders" [g_answer file_lists] ;;;
         raise UserWarning
       else ret tt
   | None => ret tt
   end) ;;;
  dir_lists <~ ask disk get_rec_dir_list ;;
  file_lists <~ ask disk (get_rec_file_list (-1)) ;;
  emit "infos" [g_answer dir_lists; g_answer file_lists] ;;;
  emit "msg" [g_str "刷新列表成功！"; g_int 2000].

(** The [except] clauses of [run]. *)
Definition run_except (e : exn) : St (io t) unit :=
  match e with
  | TimeoutError => emit "msg" [g_str "网络超时，请稍后重试！"; g_int 6000]
  | _ => ret tt
  end.

(** [GetRecListsWorker.run] *)
Definition run (disk : LanZouCloud) : St (io t) unit :=
  w <~ get_self ;;
  if negb (_is_work w) then
    record Locked ;;;
    set_self lock_and_flag ;;;
    try_except (run_try disk) run_except ;;;
    set_self unflag_and_unlock ;;;
    record Unlocked
  else
    emit "msg" [g_str busy_text_2; g_int 3100].
End GetRecListsWorker.

(* ================================================================= *)
(** ** workers.py: RecManipulator *)

Module RecManipulator.
Import Api.

(** An item of the selection in the recycle bin: a [RecFile] or a
    [RecFolder] of [lanzou.api.types] with its id, or anything else. *)
Inductive rec_item : Type :=
| RecFile (id : Z)
| RecFolder (id : Z)
| Other.

Record t : Type := mk {
  _action : option string;
  _folders : list Z;
  _files : list Z;
  _mutex : bool;
  _is_work : bool
}.

Definition lock_and_flag (w : t) : t :=
  mk (_action w) (_folders w) (_files w) true true.

(** The last lines of [run]: the flag, the action and the selection are
    reset, the mutex is released. *)
Definition reset_and_unlock (w : t) : t := mk None [] [] false false.

(** [RecManipulator.set_values]; the thread is started by the caller of
    the model, with [run]. *)
Definition set_values (infos : list rec_item) (action : option string)
  : St (io t) unit :=
  set_self (fun w => mk None [] [] (_mutex w) (_is_work w)) ;;;
  for_in infos
    (fun item =>
       match item with
       | RecFile id =>
           set_self (fun w => mk (_action w) (_folders w) (_files w ++ [id])%list
                                (_mutex w) (_is_work w))
       | RecFolder id =>
           set_self (fun w => mk (_action w) (_folders w ++ [id])%list (_files w)
                                (_mutex w) (_is_work w))
       | Other => ret tt
       end) ;;;
  set_self (fun w => mk action (_folders w) (_files w) (_mutex w) (_is_work w)).

(** [self._files or self._folders] *)
Definition selected (w : t) : bool :=
  match _files w, _folders w with
  | [], [] => false
  | _, _ => true
  end.

(** A call whose status [SUCCESS] is reported with [text]. *)
Definition call_and_report (disk : LanZouCloud) (r : request) (text : string)
  : St (io t) (option answer) :=
  res <~ ask disk r ;;
  (if answer_is res (SUCCESS disk)
   then emit "msg" [g_str text; g_int 2500]
   else ret tt) ;;;
  ret (Some res).

(** The lines of [run] under [try:].  The variable [res] is bound by the
    branches that call the backend, and by no other. *)
Definition run_try (disk : LanZouCloud) : St (io t) unit :=
  w <~ get_self ;;
  res <~ (match _action w with
          | Some action =>
              if String.eqb action "recovery" then
                if selected w
                then call_and_report disk (recovery_multi (_files w) (_folders w))
                       "选定文件(夹)恢复成功，即将刷新列表"
                else ret None
              else if String.eqb action "delete" then
                if selected w
                then call_and_report disk (delete_rec_multi (_files w) (_folders w))
                       "选定文件(夹)彻底删除成功，即将刷新列表"
                else ret None
              else if String.eqb action "clean" then
                call_and_report disk clean_rec "清空回收站成功，即将刷新列表"
              else if String.eqb action "recovery_all" then
                call_and_report disk recovery_all "文件(夹)全部还原成功，即将刷新列表"
              else ret None
          | None => ret None
          end) ;;
  match res with
  | None => raise UnboundLocalError
  | Some res =>
      if is_int res then
        if answer_is res (FAILED disk) then
          emit "msg" [g_str "失败，请重试！"; g_int 4500]
        else if answer_is res (NETWORK_ERROR disk) then
          emit "msg" [g_str "网络错误，请稍后重试！"; g_int 4500]
        else
          sleep 2600 ;;;
          emit "successed" []
      else ret tt
  end.

(** The [except] clauses of [run]. *)
Definition run_except (e : exn) : St (io t) unit :=
  match e with
  | TimeoutError => emit "msg" [g_str "网络超时，请稍后重试！"; g_int 6000]
  | _ => ret tt
  end.

(** [RecManipulator.run] *)
Definition run (disk : LanZouCloud) : St (io t) unit :=
  w <~ get_self ;;
  if negb (_is_work w) then
    record Locked ;;;
    set_self lock_and_flag ;;;
    try_except (run_try disk) run_except ;;;
    set_self reset_and_unlock ;;;
    record Unlocked
  else
    emit "msg" [g_str busy_text_2; g_int 3100].
End RecManipulator.

(* ================================================================= *)
(** ** workers.py: RenameMkdirWorker *)

Module RenameMkdirWorker.
Import Api.

Record t : Type := mk {
  infos : option (list value);
  _work_id : Z;
  _folder_list : option (PyDict.t entry);
  _mutex : bool;
  _is_work : bool
}.

(** [RenameMkdirWorker()] *)
Definition init : t := mk None (-1) None false false.

Definition lock_and_flag (w : t) : t :=
  mk (infos w) (_work_id w) (_folder_list w) true true.
Definition unflag_and_unlock (w : t) : t :=
  mk (infos w) (_work_id w) (_folder_list w) false false.

(** [RenameMkdirWorker.set_values] *)
Definition set_values (infos : option (list value)) (work_id : Z)
    (folder_list : option (PyDict.t entry)) : St (QThread.t (io t)) unit :=
  QThread.method
    (set_self (fun w => mk infos work_id folder_list (_mutex w) (_is_work w))) ;;;
  QThread.start.

(** [self.infos[i]]: [TypeError] when [infos] is [None], [IndexError]
    past its end. *)
Definition infos_item (i : nat) : St (io t) value :=
  w <~ get_self ;;
  match infos w with
  | None => raise TypeError
  | Some l =>
      match nth_error l i with
      | Some v => ret v
      | None => raise IndexError
      end
  end.

(** [action == 'new'] *)
Definition is_new (action : value) : bool :=
  match action with
  | v_str s => String.eqb s "new"
  | v_edits _ => false
  end.

(** The branch [if action == 'new':].  [self._folder_list.keys()] on
    [None] raises [AttributeError], here [OtherError]; a list is not
    hashable, so that the test [in] raises [TypeError] on it. *)
Definition run_new (disk : LanZouCloud) : St (io t) unit :=
  new_name <~ infos_item 1 ;;
  new_des <~ infos_item 2 ;;
  w <~ get_self ;;
  match _folder_list w with
  | None => raise OtherError
  | Some folder_list =>
      match new_name with
      | v_edits _ => raise TypeError
      | v_str new_name =>
          if PyDict.mem folder_list new_name then
            emit "msg" [g_str ("文件夹已存在：" ++ new_name); g_int 7000]
          else
            res <~ ask disk (mkdir (_work_id w) new_name new_des) ;;
            if answer_is res (MKDIR_ERROR disk) then
              emit "msg" [g_str ("创建文件夹失败：" ++ new_name); g_int 7000]
            else
              sleep 1500 ;;;
              emit "update" [g_int (_work_id w); g_bool false; g_bool true; g_bool false] ;;;
              emit "msg" [g_str ("成功创建文件夹：" ++ new_name); g_int 4000]
      end
  end.

(** The local variables of the other branch. *)
Record locals : Type := mkLocals {
  has_file : bool;
  has_folder : bool;
  failed : bool
}.

(** The body of [for info in self.infos[1]:].  For a folder the name is
    [info.new_name or info.nmae]: an object of [tools.py] has no
    attribute [nmae], so that an empty [new_name] raises
    [AttributeError], here [OtherError]. *)
Definition run_edit (disk : LanZouCloud) (v : locals) (info : edit)
  : St (io t) locals :=
  if ed_is_file info then
    res <~ ask disk (set_desc (ed_id info) (ed_new_des info) (ed_is_file info)) ;;
    ret (if answer_is res (SUCCESS disk)
         then mkLocals true (has_folder v) (failed v)
         else mkLocals (has_file v) (has_folder v) true)
  else
    name <~ (if negb (String.eqb (ed_new_name info) "")
             then ret (ed_new_name info)
             else raise OtherError) ;;
    res <~ ask disk (_set_dir_info (ed_id info) name (ed_new_des info)) ;;
    ret (if answer_is res (SUCCESS disk)
         then mkLocals (has_file v) true (failed v)
         else mkLocals (has_file v) (has_folder v) true).

Fixpoint run_edits (disk : LanZouCloud) (l : list edit) (v : locals)
  : St (io t) locals :=
  match l with
  | [] => ret v
  | info :: r => v' <~ run_edit disk v info ;; run_edits disk r v'
  end.

(** The branch [else:] of the renaming and of the new descriptions.  A
    text in the place of the list is gone through character by
    character, and a character has no attribute [is_file]. *)
Definition run_rename (disk : LanZouCloud) : St (io t) unit :=
  selection <~ infos_item 1 ;;
  v <~ (match selection with
        | v_edits l => run_edits disk l (mkLocals false false false)
        | v_str s =>
            if String.eqb s "" then ret (mkLocals false false false)
            else raise OtherError
        end) ;;
  w <~ get_self ;;
  emit "update" [g_int (_work_id w); g_bool (has_file v); g_bool (has_folder v);
                 g_bool false] ;;;
  if failed v
  then emit "msg" [g_str "有发生错误！"; g_int 6000]
  else emit "msg" [g_str "修改成功！"; g_int 4000].

(** The lines of [run] under [try:]. *)
Definition run_try (disk : LanZouCloud) (action : value) : St (io t) unit :=
  if is_new action then run_new disk else run_rename disk.

(** The [except] clauses of [run]. *)
Definition run_except (e : exn) : St (io t) unit :=
  match e with
  | TimeoutError => emit "msg" [g_str "网络超时，请稍后重试！"; g_int 6000]
  | _ => ret tt
  end.

(** [RenameMkdirWorker.run]: [action = self.infos[0]] comes after the
    mutex is taken and the flag set, and before [try:]. *)
Definition run (disk : LanZouCloud) : St (io t) unit :=
  w <~ get_self ;;
  if negb (_is_work w) then
    record Locked ;;;
    set_self lock_and_flag ;;;
    action <~ infos_item 0 ;;
    try_except (run_try disk action) run_except ;;;
    set_self unflag_and_unlock ;;;
    record Unlocked
  else
    emit "msg" [g_str busy_text_2; g_int 3100].

(** The call of the backend that changes an object of the selection: the
    description of a file, the name and the description of a folder. *)
Definition call_of (info : edit) : request :=
  if ed_is_file info
  then set_desc (ed_id info) (ed_new_des info) (ed_is_file info)
  else _set_dir_info (ed_id info) (ed_new_name info) (ed_new_des info).

(** A folder that is given no new name. *)
Definition nameless (info : edit) : bool :=
  negb (ed_is_file info) && String.eqb (ed_new_name info) "".
End RenameMkdirWorker.

(* ================================================================= *)
(** ** workers.py: ListRefresher *)

Module ListRefresher.
Import Api.

Record t : Type := mk {
  _fid : Z;
  r_files : bool;
  r_folders : bool;
  r_path : bool;
  _mutex : bool;
  _is_work : bool
}.

(** [ListRefresher()] *)
Definition init : t := mk (-1) true true true false false.

(** [ListRefresher.set_values]: the flag is tested here, before the
    attributes are written and the thread is started. *)
Definition set_values (fid : Z) (files folders path : bool)
  : St (QThread.t (io t)) unit :=
  w <~ QThread.method get_self ;;
  if negb (_is_work w) then
    QThread.method
      (set_self (fun w => mk fid files folders path (_mutex w) (_is_work w))) ;;;
    QThread.start
  else
    QThread.method (emit "err_msg" [g_str "正在更新目录，请稍后再试！"; g_int 3100]).
End ListRefresher.

(* ================================================================= *)
(** ** workers.py: what the interface submits to the login and to the
       sharing worker *)

(** [LoginLuncher.set_values] *)
Definition LoginLuncher_set_values (username password : string) (cookie : pyval)
  : St (QThread.t (io LoginLuncher.t)) unit :=
  QThread.method (set_self (fun _ => LoginLuncher.mk username password cookie)) ;;;
  QThread.start.

(** [GetSharedInfo.set_values].  [found] is what
    [re.findall(self._pat, text)] returns: for each link in [text] the
    three groups of the pattern, the link first and the password last.
    The loop looks at the first and is left. *)
Definition GetSharedInfo_set_values (utils : Api.Utils) (text : string)
    (found : list (string * string * string))
  : St (QThread.t (io GetSharedInfo.t)) unit :=
  if negb (truthy (PyStr text)) then ret tt
  else
    match found with
    | [] => ret tt
    | (share_url, _, pwd) :: _ =>
        kind <~ (if Api.is_file_url utils share_url then
                   QThread.method
                     (emit "msg" [o_str "正在获取文件链接信息……"; o_int 20000]) ;;;
                   ret (Some (true, false))
                 else if Api.is_folder_url utils share_url then
                   QThread.method
                     (emit "msg" [o_str "正在获取文件夹链接信息，可能需要几秒钟，请稍后……";
                                  o_int 30000]) ;;;
                   ret (Some (false, true))
                 else
                   QThread.method
                     (emit "msg" [o_str (share_url ++ " 为非法链接！"); o_int 0]) ;;;
                   ret None) ;;
        match kind with
        | None => ret tt
        | Some (is_file, is_folder) =>
            QThread.method (emit "update" []) ;;;
            QThread.method
              (set_self (fun w =>
                 GetSharedInfo.mk share_url pwd is_file is_folder
                   (GetSharedInfo._mutex w) (GetSharedInfo._is_work w))) ;;;
            QThread.start
        end
    end.

(* ================================================================= *)
(** ** workers.py: submits and runs of one worker, over time *)

(** [SetPwdWorker.set_values], [LogoutWorker.set_values] and
    [RemoveFilesWorker.set_values] *)
Definition SetPwdWorker_set_values (infos : list Infos) (work_id : Z)
  : St (QThread.t (io SetPwdWorker.t)) unit :=
  QThread.method
    (set_self (fun w => SetPwdWorker.mk infos work_id
                          (SetPwdWorker._mutex w) (SetPwdWorker._is_work w))) ;;;
  QThread.start.

Definition LogoutWorker_set_values (update_ui : bool)
  : St (QThread.t (io LogoutWorker.t)) unit :=
  QThread.method
    (set_self (fun w => LogoutWorker.mk update_ui
                          (LogoutWorker._mutex w) (LogoutWorker._is_work w))) ;;;
  QThread.start.

Definition RemoveFilesWorker_set_values (infos : list Infos)
  : St (QThread.t (io RemoveFilesWorker.t)) unit :=
  QThread.method
    (set_self (fun w => RemoveFilesWorker.mk infos
                          (RemoveFilesWorker._mutex w) (RemoveFilesWorker._is_work w))) ;;;
  QThread.start.

(** What happens to a worker: the interface submits, with arguments [a],
    or the thread executes the run that was begun. *)
Inductive step (A : Type) : Type :=
| Submit (a : A)
| Exec.
Arguments Submit {A} a.
Arguments Exec {A}.

(** A history of a worker: each step acts on the state the one before
    left, an exception being the affair of who raised it. *)
Definition history {Obj A : Type} (submit : A -> St (QThread.t Obj) unit)
    (run : St Obj unit) (steps : list (step A)) (q : QThread.t Obj) : QThread.t Obj :=
  fold_left (fun q s => match s with
                        | Submit a => after (submit a) q
                        | Exec => after (QThread.exec run) q
                        end) steps q.

(** The signal [msg] with one of the texts that say the worker is at
    work. *)
Definition is_busy_text (i : item) : bool :=
  match i with
  | Emitted signal (o_str text :: _) =>
      String.eqb signal "msg"
      && (String.eqb text busy_text_1 || String.eqb text busy_text_2
          || String.eqb text busy_text_3)
  | _ => false
  end.

(** A signal or a call, and no such text. *)
Definition is_quiet_work (i : item) : bool := is_work_item i && negb (is_busy_text i).

(* ================================================================= *)
(** ** workers.py: GetAllFoldersWorker *)

Module GetAllFoldersWorker.
Import Api.

(** An item of [move_infos], the list [file_id, folder_id, f_name,
    type(size)] of the dialog: the two ids are numbers, and the last
    item counts as true for a file. *)
Record move : Type := mkMove {
  mv_fid : Z;
  mv_target : Z;
  mv_fname : string;
  mv_is_file : bool
}.

(** [org_infos] is an object of the dialog, known by its address. *)
Record t : Type := mk {
  org_infos : option nat;
  move_infos : option (list move);
  _mutex : bool;
  _is_work : bool
}.

(** [GetAllFoldersWorker()] *)
Definition init : t := mk None None false false.

Definition lock_and_flag (w : t) : t := mk (org_infos w) (move_infos w) true true.
Definition unflag_and_unlock (w : t) : t := mk (org_infos w) (move_infos w) false false.

(** [GetAllFoldersWorker.set_values] and [move_file] *)
Definition set_values (org : option nat) : St (QThread.t (io t)) unit :=
  QThread.method (set_self (fun w => mk org None (_mutex w) (_is_work w))) ;;;
  QThread.start.

Definition move_file (info : option (list move)) : St (QThread.t (io t)) unit :=
  QThread.method (set_self (fun w => mk (org_infos w) info (_mutex w) (_is_work w))) ;;;
  QThread.start.

(** The local variables [no_err], [r_files] and [r_folders] of [run]. *)
Record locals : Type := mkLocals {
  no_err : bool;
  r_files : bool;
  r_folders : bool
}.

(** [GetAllFoldersWorker.move_file_folder] *)
Definition move_file_folder (disk : LanZouCloud) (info : move) (v : locals)
  : St (io t) locals :=
  if mv_is_file info then
    res <~ ask disk (Api.move_file (mv_fid info) (mv_target info)) ;;
    if answer_is res (SUCCESS disk) then
      emit "msg" [g_str (mv_fname info ++ " 移动成功！"); g_int 3000] ;;;
      ret (mkLocals true true (r_folders v))
    else
      emit "msg" [g_str ("移动文件" ++ mv_fname info ++ "失败！"); g_int 4000] ;;;
      ret v
  else
    res <~ ask disk (move_folder (mv_fid info) (mv_target info)) ;;
    if answer_is res (SUCCESS disk) then
      emit "msg" [g_str (mv_fname info ++ " 移动成功！"); g_int 3000] ;;;
      ret (mkLocals true (r_files v) true)
    else
      emit "msg" [g_str ("移动文件夹 " ++ mv_fname info
                         ++ " 失败！移动的文件夹中不能包含子文件夹！"); g_int 4000] ;;;
      ret v.

(** The body of [for info in self.move_infos:], a [try] of its own: on
    an exception the three variables keep their values. *)
Definition run_move (disk : LanZouCloud) (v : locals) (info : move)
  : St (io t) locals :=
  try_except
    (move_file_folder disk info v)
    (fun e =>
       match e with
       | TimeoutError =>
           emit "msg" [g_str ("移动文件(夹) " ++ mv_fname info
                              ++ " 失败，网络超时！请稍后重试"); g_int 5000] ;;;
           ret v
       | _ =>
           emit "msg" [g_str ("移动文件(夹) " ++ mv_fname info ++ " 失败，未知错误！");
                       g_int 5000] ;;;
           ret v
       end).

Fixpoint run_moves (disk : LanZouCloud) (l : list move) (v : locals)
  : St (io t) locals :=
  match l with
  | [] => ret v
  | info :: r => v' <~ run_move disk v info ;; run_moves disk r v'
  end.

(** [get_move_folders().name_id] *)
Definition name_id_of (a : answer) : St (io t) (PyDict.t Z) :=
  match a with
  | a_folders d => ret d
  | _ => raise OtherError
  end.

(** The branch [else:] of [run], all the folders, with its [try]. *)
Definition run_folders (disk : LanZouCloud) : St (io t) unit :=
  try_except
    (emit "msg" [g_str "网络请求中，请稍后……"; g_int 0] ;;;
     a <~ ask disk get_move_folders ;;
     all_dirs_dict <~ name_id_of a ;;
     w <~ get_self ;;
     emit "infos" [match org_infos w with Some o => g_ref o | None => g_none end;
                   g_names all_dirs_dict] ;;;
     emit "msg" [g_str ""; g_int 0])
    (fun e =>
       match e with
       | TimeoutError => emit "msg" [g_str "网络超时！稍后重试"; g_int 6000]
       | _ => ret tt
       end).

(** [GetAllFoldersWorker.run]: [if self.move_infos:] takes [None] and the
    empty list for false. *)
Definition run (disk : LanZouCloud) : St (io t) unit :=
  w <~ get_self ;;
  if negb (_is_work w) then
    record Locked ;;;
    set_self lock_and_flag ;;;
    (match move_infos w with
     | Some (info :: rest) =>
         v <~ run_moves disk (info :: rest) (mkLocals false false false) ;;
         if no_err v then
           sleep 2100 ;;;
           emit "moved" [g_bool (r_files v); g_bool (r_folders v); g_bool false]
         else ret tt
     | _ => run_folders disk
     end) ;;;
    set_self unflag_and_unlock ;;;
    record Unlocked
  else
    emit "msg" [g_str busy_text_2; g_int 3100].

(** The call that moves an item, and whether the backend, asked as its
    [n]-th call, answers it with [SUCCESS]. *)
Definition call_of (info : move) : request :=
  if mv_is_file info
  then Api.move_file (mv_fid info) (mv_target info)
  else move_folder (mv_fid info) (mv_target info).

Definition moved (disk : LanZouCloud) (n : nat) (info : move) : bool :=
  match outcome (respond disk n (call_of info)) with
  | Ok a => answer_is a (SUCCESS disk)
  | Raise _ => false
  end.
End GetAllFoldersWorker.

(* ================================================================= *)
(** * Properties *)

Open Scope list_scope.

(* ================================================================= *)
(** ** Dictionaries *)

Section DictFacts.
Context {V : Type}.
Implicit Types (d o : PyDict.t V) (k : string) (v : V).

Lemma get_set_same d k v : PyDict.get (PyDict.set d k v) k = Some v.
Proof.
  induction d as [|[k' v'] d IH]; cbn.
  - rewrite String.eqb_refl. reflexivity.
  - destruct (String.eqb k k') eqn:E; cbn; rewrite E; [reflexivity|exact IH].
Qed.

Lemma get_set_other d k k' v :
  k <> k' -> PyDict.get (PyDict.set d k v) k' = PyDict.get d k'.
Proof.
  intros N. induction d as [|[k0 v0] d IH]; cbn.
  - apply String.eqb_neq in N. rewrite String.eqb_sym, N. reflexivity.
  - destruct (String.eqb k k0) eqn:E; cbn.
    + apply String.eqb_eq in E. subst k0.
      replace (String.eqb k' k) with false
        by (symmetry; apply String.eqb_neq; congruence).
      reflexivity.
    + destruct (String.eqb k' k0); [reflexivity|exact IH].
Qed.

Lemma mem_keys d k : PyDict.mem d k = true <-> In k (PyDict.keys d).
Proof.
  unfold PyDict.mem. induction d as [|[k' v'] d IH]; cbn.
  - split; [discriminate|tauto].
  - destruct (String.eqb k k') eqn:E.
    + apply String.eqb_eq in E. subst. tauto.
    + apply String.eqb_neq in E. rewrite IH. split; [tauto|].
      intros [H|H]; [congruence|exact H].
Qed.

Lemma keys_set_mem d k v :
  PyDict.mem d k = true -> PyDict.keys (PyDict.set d k v) = PyDict.keys d.
Proof.
  unfold PyDict.mem, PyDict.keys. induction d as [|[k' v'] d IH]; cbn; [discriminate|].
  destruct (String.eqb k k') eqn:E; cbn; [reflexivity|].
  intros H. rewrite IH by exact H. reflexivity.
Qed.

Lemma keys_set_new d k v :
  PyDict.mem d k = false -> PyDict.keys (PyDict.set d k v) = PyDict.keys d ++ [k].
Proof.
  unfold PyDict.mem, PyDict.keys. induction d as [|[k' v'] d IH]; cbn; [reflexivity|].
  destruct (String.eqb k k') eqn:E; cbn; [discriminate|].
  intros H. rewrite IH by exact H. reflexivity.
Qed.

Lemma mem_set d k k' v :
  PyDict.mem (PyDict.set d k v) k' = (String.eqb k k' || PyDict.mem d k').
Proof.
  unfold PyDict.mem. destruct (String.eqb k k') eqn:E.
  - apply String.eqb_eq in E. subst. rewrite get_set_same. reflexivity.
  - apply String.eqb_neq in E. rewrite get_set_other by exact E. reflexivity.
Qed.

Lemma wf_set d k v : PyDict.wf d -> PyDict.wf (PyDict.set d k v).
Proof.
  unfold PyDict.wf. intros H. destruct (PyDict.mem d k) eqn:M.
  - rewrite keys_set_mem by exact M. exact H.
  - rewrite keys_set_new by exact M.
    apply NoDup_app; [exact H | repeat constructor; intros [] |].
    intros x Hx [<-|[]]. apply mem_keys in Hx. congruence.
Qed.

Lemma entries_absent d k :
  PyDict.mem d k = false -> PyDict.entries d k = O.
Proof.
  unfold PyDict.mem, PyDict.entries.
  induction d as [|[k' v'] d IH]; cbn; [reflexivity|].
  destruct (String.eqb k k'); [discriminate|exact IH].
Qed.

Lemma entries_wf d k :
  PyDict.wf d -> PyDict.mem d k = true -> PyDict.entries d k = 1%nat.
Proof.
  unfold PyDict.wf. induction d as [|[k' v'] d IH]; intros W M.
  - discriminate.
  - inversion W as [|? ? Hn Hd]; subst.
    unfold PyDict.mem in M. unfold PyDict.entries in *. cbn in M |- *.
    destruct (String.eqb k k') eqn:E; cbn.
    + apply String.eqb_eq in E. subst k'. f_equal.
      apply (entries_absent d k).
      destruct (PyDict.mem d k) eqn:Md; [|reflexivity].
      apply mem_keys in Md. contradiction.
    + apply IH; assumption.
Qed.

Lemma update_wf d o : PyDict.wf d -> PyDict.wf (PyDict.update d o).
Proof.
  unfold PyDict.update. revert d.
  induction o as [|[k v] o IH]; intros d W; cbn; [exact W|].
  apply IH, wf_set, W.
Qed.

Lemma mem_cons d k k' v :
  PyDict.mem ((k', v) :: d) k = (String.eqb k k' || PyDict.mem d k).
Proof. unfold PyDict.mem. cbn. destruct (String.eqb k k'); reflexivity. Qed.

Lemma update_mem d o k :
  PyDict.mem (PyDict.update d o) k = (PyDict.mem d k || PyDict.mem o k).
Proof.
  unfold PyDict.update. revert d.
  induction o as [|[k' v] o IH]; intros d; cbn [fold_left fst snd].
  - unfold PyDict.mem at 3. cbn. rewrite orb_false_r. reflexivity.
  - rewrite IH, mem_set, mem_cons. rewrite (String.eqb_sym k k').
    destruct (String.eqb k' k), (PyDict.mem d k); reflexivity.
Qed.

(** After [d.update(o)], a key of [o] holds the value [o] gives it. *)
Lemma update_get d o k v :
  PyDict.wf o -> PyDict.get o k = Some v ->
  PyDict.get (PyDict.update d o) k = Some v.
Proof.
  unfold PyDict.update, PyDict.wf. revert d.
  induction o as [|[k' v'] o IH]; intros d W G; [discriminate|].
  cbn in G |- *. inversion W as [|? ? Hn Ho]; subst.
  destruct (String.eqb k k') eqn:E.
  - apply String.eqb_eq in E. subst k'. injection G as ->.
    assert (Hk : forall d', PyDict.get d' k = Some v ->
               PyDict.get (fold_left (fun acc kv => PyDict.set acc (fst kv) (snd kv)) o d') k = Some v).
    { clear IH W Ho. induction o as [|[k1 v1] o IHo]; intros d' Hd; [exact Hd|].
      cbn. apply IHo.
      - intros Hin. apply Hn. right. exact Hin.
      - rewrite get_set_other; [exact Hd|].
        intros ->. apply Hn. left. reflexivity. }
    apply Hk, get_set_same.
  - apply IH; assumption.
Qed.

Lemma update_keys_prefix d o :
  exists rest, PyDict.keys (PyDict.update d o) = PyDict.keys d ++ rest.
Proof.
  unfold PyDict.update. revert d.
  induction o as [|[k v] o IH]; intros d; cbn [fold_left fst snd].
  - exists []. rewrite app_nil_r. reflexivity.
  - destruct (IH (PyDict.set d k v)) as [rest E]. rewrite E.
    destruct (PyDict.mem d k) eqn:M.
    + rewrite keys_set_mem by exact M. exists rest. reflexivity.
    + rewrite keys_set_new by exact M. exists (k :: rest).
      rewrite <- app_assoc. reflexivity.
Qed.
End DictFacts.

(* ================================================================= *)
(** ** tools.py: encrypt and decrypt *)

Lemma encode_utf8_in_range (s : string) :
  Forall (fun v => 0 <= v < 256) (encode_utf8 s).
Proof.
  unfold encode_utf8. apply Forall_forall. intros v Hv.
  apply in_map_iff in Hv. destruct Hv as [a [<- _]].
  pose proof (N_ascii_bounded a). lia.
Qed.

Lemma decode_encode_bytes (s : string) :
  string_of_list_ascii (map (fun v => ascii_of_N (Z.to_N v)) (encode_utf8 s)) = s.
Proof.
  unfold encode_utf8. rewrite map_map.
  rewrite <- (string_of_list_ascii_of_string s) at 2. f_equal.
  rewrite <- (map_id (list_ascii_of_string s)) at 2.
  apply map_ext. intros a. rewrite N2Z.id. apply ascii_N_embedding.
Qed.

Lemma encode_decode_bytes (b : list Z) :
  Forall (fun v => 0 <= v < 256) b ->
  encode_utf8 (string_of_list_ascii (map (fun v => ascii_of_N (Z.to_N v)) b)) = b.
Proof.
  intros H. unfold encode_utf8. rewrite list_ascii_of_string_of_list_ascii.
  rewrite map_map. rewrite <- (map_id b) at 2.
  apply map_ext_in. intros v Hv.
  rewrite Forall_forall in H. specialize (H v Hv).
  rewrite N_ascii_embedding by lia. lia.
Qed.

Lemma lxor_byte (a k : Z) :
  0 <= a < 256 -> 0 <= k < 256 -> 0 <= Z.lxor a k < 256.
Proof.
  intros Ha Hk.
  assert (Hn : 0 <= Z.lxor a k) by (apply Z.lxor_nonneg; lia).
  split; [exact Hn|].
  destruct (Z.eq_dec (Z.lxor a k) 0) as [E|E]; [lia|].
  change 256 with (2 ^ 8). apply Z.log2_lt_pow2; [lia|].
  pose proof (Z.log2_lxor a k ltac:(lia) ltac:(lia)) as Hl.
  assert (Z.log2 a < 8).
  { destruct (Z.eq_dec a 0) as [->|]; [cbn; lia|].
    apply Z.log2_lt_pow2; [lia|]. cbn; lia. }
  assert (Z.log2 k < 8).
  { destruct (Z.eq_dec k 0) as [->|]; [cbn; lia|].
    apply Z.log2_lt_pow2; [lia|]. cbn; lia. }
  lia.
Qed.

Lemma lxor_twice (a k : Z) : Z.lxor (Z.lxor a k) k = a.
Proof. rewrite Z.lxor_assoc, Z.lxor_nilpotent, Z.lxor_0_r. reflexivity. Qed.

Lemma list_set_app (pre post : list Z) (x v : Z) :
  list_set (pre ++ x :: post) (List.length pre) v = Some (pre ++ v :: post).
Proof.
  induction pre as [|p pre IH]; cbn; [reflexivity|].
  rewrite IH. reflexivity.
Qed.

Lemma in_byte_range_true (v : Z) : 0 <= v < 256 -> in_byte_range v = true.
Proof. unfold in_byte_range. intros H. apply andb_true_iff. lia. Qed.

Lemma bytearray_set_app (pre post : list Z) (x v : Z) :
  0 <= v < 256 ->
  bytearray_set (pre ++ x :: post) (List.length pre) v = Ok (pre ++ v :: post).
Proof.
  intros H. unfold bytearray_set.
  rewrite in_byte_range_true by exact H. rewrite list_set_app. reflexivity.
Qed.

Lemma enc_bytes_length (key : Z) (b : list Z) :
  List.length (enc_bytes key b) = (List.length b * 2)%nat.
Proof. induction b as [|x b IH]; cbn; [reflexivity|]. rewrite IH. lia. Qed.

Lemma bytearray_set_at (pre post : list Z) (x v : Z) (j : nat) :
  j = List.length pre -> 0 <= v < 256 ->
  bytearray_set (pre ++ x :: post) j v = Ok (pre ++ v :: post).
Proof. intros -> H. apply bytearray_set_app, H. Qed.

Lemma enc_pair_range (x key : Z) :
  0 <= x < 256 -> 0 <= key < 256 ->
  46 <= Z.lxor x key mod 19 + 46 <= 64 /\ 46 <= Z.lxor x key / 19 + 46 <= 59.
Proof.
  intros Hx Hk. pose proof (lxor_byte x key Hx Hk) as Hb2.
  pose proof (Z.mod_pos_bound (Z.lxor x key) 19 ltac:(lia)).
  assert (0 <= Z.lxor x key / 19) by (apply Z.div_pos; lia).
  assert (Z.lxor x key / 19 < 14) by (apply Z.div_lt_upper_bound; lia).
  lia.
Qed.

Lemma encrypt_loop (key : Z) (b : list Z) :
  0 <= key < 256 ->
  Forall (fun v => 0 <= v < 256) b ->
  forall (pre post : list Z) (j : nat),
    j = List.length pre ->
    List.length post = (List.length b * 2)%nat ->
    for_each (encrypt_step key) b (pre ++ post, j)
    = Ok (pre ++ enc_bytes key b, (j + List.length b * 2)%nat).
Proof.
  intros Hk Hb. induction Hb as [|x b Hx Hb IH]; intros pre post j Hj Hlen.
  - destruct post; [|discriminate]. cbn. rewrite Nat.add_0_r. reflexivity.
  - destruct post as [|p0 [|p1 post]]; try discriminate.
    cbn [for_each encrypt_step enc_bytes].
    destruct (enc_pair_range x key Hx Hk) as [H1 H2].
    rewrite (bytearray_set_at pre (p1 :: post) p0 _ j Hj) by lia. cbn [bind].
    change (pre ++ (Z.lxor x key mod 19 + 46) :: p1 :: post)
      with (pre ++ [Z.lxor x key mod 19 + 46] ++ p1 :: post).
    rewrite app_assoc.
    rewrite (bytearray_set_at _ post p1 _ (j + 1)%nat)
      by (rewrite ?length_app; cbn; lia).
    cbn [bind]. rewrite <- app_assoc. cbn [app].
    change (pre ++ (Z.lxor x key mod 19 + 46) :: (Z.lxor x key / 19 + 46) :: post)
      with (pre ++ [Z.lxor x key mod 19 + 46; Z.lxor x key / 19 + 46] ++ post).
    rewrite app_assoc.
    rewrite (IH _ post (j + 2)%nat) by (rewrite ?length_app; cbn in *; lia).
    rewrite <- app_assoc. cbn [app List.length]. f_equal. f_equal. lia.
Qed.

Lemma nth_error_at (pre post : list Z) (x : Z) (j : nat) :
  j = List.length pre -> nth_error (pre ++ x :: post) j = Some x.
Proof.
  intros ->. rewrite nth_error_app2 by lia. rewrite Nat.sub_diag. reflexivity.
Qed.

Lemma dec_enc_byte (x key : Z) :
  0 <= x < 256 -> 0 <= key < 256 ->
  Z.lxor ((Z.lxor x key / 19 + 46 - 46) * 19 + (Z.lxor x key mod 19 + 46 - 46)) key = x.
Proof.
  intros Hx Hk.
  replace ((Z.lxor x key / 19 + 46 - 46) * 19 + (Z.lxor x key mod 19 + 46 - 46))
    with (Z.lxor x key).
  - apply lxor_twice.
  - pose proof (Z.div_mod (Z.lxor x key) 19 ltac:(lia)). lia.
Qed.

Lemma decrypt_loop (key : Z) (r : list Z) :
  0 <= key < 256 ->
  Forall (fun v => 0 <= v < 256) r ->
  forall (cpre bpre zs : list Z) (i j : nat),
    i = List.length bpre ->
    j = List.length cpre ->
    List.length zs = List.length r ->
    for_each (decrypt_step key (cpre ++ enc_bytes key r)) (seq i (List.length r))
      (bpre ++ zs, j)
    = Ok (bpre ++ r, (j + List.length r * 2)%nat).
Proof.
  intros Hk Hr. induction Hr as [|x r Hx Hr IH]; intros cpre bpre zs i j Hi Hj Hlen.
  - destruct zs; [|discriminate]. cbn. rewrite Nat.add_0_r. reflexivity.
  - destruct zs as [|z0 zs]; [discriminate|].
    cbn [List.length seq for_each enc_bytes decrypt_step].
    unfold bytearray_get.
    rewrite (nth_error_at cpre _ _ j Hj). cbn [bind].
    change (cpre ++ (Z.lxor x key mod 19 + 46) :: (Z.lxor x key / 19 + 46) :: enc_bytes key r)
      with (cpre ++ [Z.lxor x key mod 19 + 46] ++ (Z.lxor x key / 19 + 46) :: enc_bytes key r).
    rewrite app_assoc.
    rewrite (nth_error_at _ _ _ (j + 1)%nat) by (rewrite length_app; cbn; lia).
    cbn [bind]. rewrite dec_enc_byte by assumption.
    rewrite (bytearray_set_at bpre zs z0 x i Hi Hx). cbn [bind].
    change (bpre ++ x :: zs) with (bpre ++ [x] ++ zs). rewrite app_assoc.
    replace ((cpre ++ [Z.lxor x key mod 19 + 46]) ++ (Z.lxor x key / 19 + 46) :: enc_bytes key r)
      with ((cpre ++ [Z.lxor x key mod 19 + 46; Z.lxor x key / 19 + 46]) ++ enc_bytes key r)
      by (rewrite <- !app_assoc; reflexivity).
    rewrite (IH _ _ zs (S i) (j + 2)%nat)
      by (rewrite ?length_app; cbn in *; lia).
    rewrite <- app_assoc. cbn [app]. f_equal. f_equal. lia.
Qed.

Lemma ascii_bytes_valid (b : list Z) :
  Forall (fun v => 0 <= v < 128) b -> utf8_valid b = true.
Proof.
  induction 1 as [|x b Hx Hb IH]; [reflexivity|].
  cbn [utf8_valid].
  replace ((0 <=? x) && (x <? 128)) with true
    by (symmetry; apply andb_true_iff; lia).
  exact IH.
Qed.

Lemma enc_bytes_range (key : Z) (b : list Z) :
  0 <= key < 256 ->
  Forall (fun v => 0 <= v < 256) b ->
  Forall (fun v => 46 <= v <= 64) (enc_bytes key b).
Proof.
  intros Hk. induction 1 as [|x b Hx Hb IH]; cbn [enc_bytes]; [constructor|].
  destruct (enc_pair_range x key Hx Hk).
  constructor; [lia|]. constructor; [lia|]. exact IH.
Qed.

Lemma KEY_byte : 0 <= KEY < 256.
Proof. unfold KEY. lia. Qed.

(** [encrypt] returns the text of [enc_bytes]. *)
Lemma encrypt_spec (s : string) :
  exists c, encrypt KEY s = Ok c /\ encode_utf8 c = enc_bytes KEY (encode_utf8 s).
Proof.
  unfold encrypt.
  pose proof (encrypt_loop KEY (encode_utf8 s) KEY_byte (encode_utf8_in_range s)
                [] (bytearray (List.length (encode_utf8 s) * 2)) O eq_refl) as H.
  cbn [app] in H. rewrite H by (unfold bytearray; apply repeat_length).
  cbn [bind fst app].
  pose proof (enc_bytes_range KEY (encode_utf8 s) KEY_byte (encode_utf8_in_range s)) as Hr.
  unfold decode_utf8. rewrite ascii_bytes_valid.
  - eexists. split; [reflexivity|]. apply encode_decode_bytes.
    eapply Forall_impl; [|exact Hr]. cbn. intros; lia.
  - eapply Forall_impl; [|exact Hr]. cbn. intros; lia.
Qed.

(** [decrypt] undoes [encrypt] on every Python string. *)
Lemma decrypt_encrypt (s c : string) :
  is_str s -> encrypt KEY s = Ok c -> decrypt KEY c = Ok s.
Proof.
  intros Hs He. destruct (encrypt_spec s) as [c' [He' Hc]].
  rewrite He in He'. injection He' as <-.
  unfold decrypt. rewrite Hc, enc_bytes_length.
  rewrite Nat.Div0.mod_mul. cbn [Nat.eqb negb].
  rewrite Nat.div_mul by lia.
  pose proof (decrypt_loop KEY (encode_utf8 s) KEY_byte (encode_utf8_in_range s)
                [] [] (bytearray (List.length (encode_utf8 s))) O O eq_refl eq_refl) as H.
  cbn [app] in H. rewrite H by (unfold bytearray; apply repeat_length).
  cbn [bind fst]. unfold decode_utf8. rewrite Hs. rewrite decode_encode_bytes.
  reflexivity.
Qed.

Lemma enc_bytes_positions (key : Z) (b : list Z) :
  0 <= key < 256 ->
  Forall (fun v => 0 <= v < 256) b ->
  forall (i : nat) (x : Z),
    nth_error (enc_bytes key b) i = Some x ->
    if Nat.even i then 46 <= x <= 64 else 46 <= x <= 59.
Proof.
  intros Hk. induction 1 as [|y b Hy Hb IH]; intros i x Hi.
  - destruct i; discriminate.
  - destruct (enc_pair_range y key Hy Hk) as [H1 H2].
    destruct i as [|[|i]]; cbn in Hi.
    + injection Hi as <-. cbn. lia.
    + injection Hi as <-. cbn. lia.
    + change (Nat.even (S (S i))) with (Nat.even i). apply IH, Hi.
Qed.

Lemma encrypt_nonempty (s c : string) :
  encrypt KEY s = Ok c -> String.eqb s "" = false -> String.eqb c "" = false.
Proof.
  intros He Hs. destruct (encrypt_spec s) as [c' [He' Hc]].
  rewrite He in He'. injection He' as <-.
  apply String.eqb_neq. intros ->. apply String.eqb_neq in Hs.
  destruct s as [|a s]; [congruence|]. cbn in Hc. discriminate.
Qed.

(* ================================================================= *)
(** ** workers.py: DownloadManager *)

Import DownloadManager.

Lemma manager_start_tasks (m : t) :
  _tasks (after manager_start m) = _tasks m
  /\ _count (after manager_start m) = _count m
  /\ _thread (after manager_start m) = _thread m
  /\ objects (after manager_start m) = objects m
  /\ downloaders (after manager_start m) = downloaders m
  /\ _dl_ing (after manager_start m) = _dl_ing m.
Proof.
  unfold after, manager_start, modify. cbn.
  destruct (_is_work m); cbn; repeat split; reflexivity.
Qed.

Lemma add_task_tasks (task : DlJob.t) (m : t) :
  _tasks (after (add_task task) m)
  = if PyDict.mem (_tasks m) (DlJob.url task) then _tasks m
    else PyDict.set (_tasks m) (DlJob.url task) task.
Proof.
  unfold after, add_task, bindS, get_state, modify, ret, manager_start. cbn.
  destruct (PyDict.mem (_tasks m) (DlJob.url task)); cbn;
    destruct (_is_work m); reflexivity.
Qed.

Lemma add_tasks_tasks (tasks : PyDict.t DlJob.t) (m : t) :
  _tasks (after (add_tasks tasks) m) = PyDict.update (_tasks m) tasks.
Proof.
  unfold after, add_tasks, bindS, modify, manager_start. cbn.
  destruct (_is_work m); reflexivity.
Qed.

(** A key that is pending and is submitted again.  [add_task task]
    leaves the pending mapping as it was, with one entry under the key;
    [add_tasks] with a batch that holds [task] under that key keeps one
    entry under it and the keys pending before in their order, and puts
    the record of the batch in the place of the pending one. *)
Theorem duplicate_submission_keeps_one_entry
    (m : t) (task : DlJob.t) (tasks : PyDict.t DlJob.t) :
  PyDict.wf (_tasks m) -> PyDict.wf tasks ->
  PyDict.mem (_tasks m) (DlJob.url task) = true ->
  PyDict.get tasks (DlJob.url task) = Some task ->
  (_tasks (after (add_task task) m) = _tasks m
   /\ PyDict.entries (_tasks (after (add_task task) m)) (DlJob.url task) = 1%nat)
  /\ (PyDict.entries (_tasks (after (add_tasks tasks) m)) (DlJob.url task) = 1%nat
      /\ PyDict.get (_tasks (after (add_tasks tasks) m)) (DlJob.url task) = Some task
      /\ exists rest,
           PyDict.keys (_tasks (after (add_tasks tasks) m))
           = PyDict.keys (_tasks m) ++ rest).
Proof.
  intros W Wt M G. split.
  - rewrite add_task_tasks, M. split; [reflexivity|]. apply entries_wf; assumption.
  - rewrite add_tasks_tasks. split; [|split].
    + apply entries_wf; [apply update_wf, W|].
      rewrite update_mem, M. reflexivity.
    + apply update_get; assumption.
    + apply update_keys_prefix.
Qed.

Lemma nth_error_list_update {X : Type} (l : list X) (i : nat) (f : X -> X) (x : X) :
  nth_error l i = Some x -> nth_error (list_update l i f) i = Some (f x).
Proof.
  revert i. induction l as [|y l IH]; intros [|i] H; try discriminate; cbn in *.
  - injection H as ->. reflexivity.
  - apply IH, H.
Qed.

Lemma list_update_twice {X : Type} (l : list X) (i : nat) (f g : X -> X) :
  list_update (list_update l i f) i g = list_update l i (fun x => g (f x)).
Proof.
  revert i. induction l as [|y l IH]; intros [|i]; cbn; try reflexivity.
  rewrite IH. reflexivity.
Qed.

Lemma filter_list_update_same {X : Type} (p : X -> bool) (l : list X) (i : nat) (f : X -> X) :
  (forall x, nth_error l i = Some x -> p (f x) = p x) ->
  List.length (filter p (list_update l i f)) = List.length (filter p l).
Proof.
  revert i. induction l as [|y l IH]; intros [|i] H; cbn; try reflexivity.
  - rewrite (H y eq_refl). destruct (p y); reflexivity.
  - destruct (p y); cbn; rewrite (IH i) by (intros x Hx; apply H; exact Hx);
      reflexivity.
Qed.

Lemma mem_of_get {V : Type} (d : PyDict.t V) (k : string) (v : V) :
  PyDict.get d k = Some v -> PyDict.mem d k = true.
Proof. unfold PyDict.mem. intros ->. reflexivity. Qed.

Lemma stop_task_running (m : t) (task j : DlJob.t) (a : nat) (d : Downloader) :
  PyDict.get (downloaders m) (DlJob.url task) = Some a ->
  nth_error (objects m) a = Some d ->
  d_running d = true ->
  PyDict.get (_dl_ing m) (DlJob.url task) = Some j ->
  stop_task task m
  = (Ok tt,
     with_dl_ing
       (with_objects m (list_update (objects m) a stopped_object))
       (PyDict.set (_dl_ing m) (DlJob.url task) (DlJob.replace_run j false))).
Proof.
  intros Ha Hd Hr Hj.
  unfold stop_task, bindS, get_state, subscript, object_at, ret.
  rewrite Ha. cbn. rewrite Hd. cbn. rewrite Hr.
  unfold Downloader_stop, update_object, modify. cbn. rewrite Hj. reflexivity.
Qed.

Lemma start_task_idle (m : t) (task j : DlJob.t) (a : nat) (d : Downloader) :
  PyDict.get (downloaders m) (DlJob.url task) = Some a ->
  nth_error (objects m) a = Some d ->
  d_running d = false ->
  PyDict.get (_dl_ing m) (DlJob.url task) = Some j ->
  start_task task m
  = (Ok tt,
     with_dl_ing
       (with_objects m (list_update (objects m) a started_object))
       (PyDict.set (_dl_ing m) (DlJob.url task) (DlJob.replace_run j true))).
Proof.
  intros Ha Hd Hr Hj.
  unfold start_task, bindS, get_state, subscript, object_at, ret.
  rewrite (mem_of_get _ _ _ Ha), Ha. cbn. rewrite Hd. cbn. rewrite Hr.
  unfold Downloader_start, update_object, modify. cbn. rewrite Hj. reflexivity.
Qed.

Lemma duplicate_submission_keeps_one_entry_witness :
  let first := DlJob.mk "a.zip" "https://www.lanzous.com/i1" "1234" "/tmp" None false 0 in
  let again := DlJob.mk "a.zip" "https://www.lanzous.com/i1" "abcd" "/tmp" None false 0 in
  let m := after (add_task first) (init 3) in
  _tasks (after (add_task again) m) = _tasks m
  /\ PyDict.get (_tasks (after (add_tasks [("https://www.lanzous.com/i1", again)]) m))
       "https://www.lanzous.com/i1" = Some again.
Proof.
  intros first again m.
  destruct (duplicate_submission_keeps_one_entry m again
              [("https://www.lanzous.com/i1", again)])
    as [[H1 _] [_ [H2 _]]].
  - repeat constructor. intros [].
  - repeat constructor. intros [].
  - reflexivity.
  - reflexivity.
  - split; [exact H1 | exact H2].
Defined.

(** C7, at the input where it fails.  A job is pending under a key; a
    batch brings another record under the same key, with another
    password.  [add_tasks] is [self._tasks.update(tasks)]: the pending
    entry is altered, it is no longer the record that was submitted
    first, where [add_task], which tests the key first, leaves it as it
    was. *)
Theorem batch_add_replaces_pending_record :
  let first := DlJob.mk "a.zip" "https://www.lanzous.com/i1" "1234" "/tmp" None false 0 in
  let again := DlJob.mk "a.zip" "https://www.lanzous.com/i1" "abcd" "/tmp" None false 0 in
  let m := after (add_tasks [("https://www.lanzous.com/i1", first)]) (init 3) in
  PyDict.get (_tasks m) "https://www.lanzous.com/i1" = Some first
  /\ PyDict.get (_tasks (after (add_tasks [("https://www.lanzous.com/i1", again)]) m))
       "https://www.lanzous.com/i1" = Some again
  /\ again <> first
  /\ PyDict.get (_tasks (after (add_task again) m)) "https://www.lanzous.com/i1" = Some first.
Proof.
  cbv zeta. split; [reflexivity|]. split; [reflexivity|]. split; [discriminate | reflexivity].
Qed.

(** Open the [match]es and [if]s of a method's body one by one. *)
Ltac open_cases :=
  repeat (cbn;
          match goal with
          | |- context [match ?x with _ => _ end] =>
              lazymatch x with
              | context [match _ with _ => _ end] => fail
              | _ => destruct x eqn:?
              end
          end).

Lemma handle_keeps_count_below (e : event) (m : t) :
  is_set_thread e = false ->
  _count m <= _thread m ->
  _thread (after (handle e) m) = _thread m
  /\ _count (after (handle e) m) <= _thread m.
Proof.
  intros He Hc. destruct e; try discriminate; clear He;
    unfold after, handle.
  - unfold add_task, bindS, get_state, modify, ret, manager_start.
    open_cases; cbn; split; (reflexivity || lia).
  - unfold add_tasks, bindS, modify, manager_start.
    open_cases; cbn; split; (reflexivity || lia).
  - unfold stop_task, bindS, get_state, subscript, object_at, raise, ret,
      Downloader_stop, update_object, modify.
    open_cases; cbn; split; (reflexivity || lia).
  - unfold start_task, add_task, bindS, get_state, subscript, object_at, raise, ret,
      Downloader_start, update_object, modify, manager_start.
    open_cases; cbn; split; (reflexivity || lia).
  - unfold del_task, modify. open_cases; cbn; split; (reflexivity || lia).
  - unfold run_pass, bindS, get_state, modify, ret, Downloader_set_values,
      Downloader_start, update_object, modify.
    open_cases; cbn; split; (reflexivity || lia).
  - unfold worker_returns, update_object, modify. cbn. split; (reflexivity || lia).
  - unfold finished_delivered, _add_thread, bindS, get_state, object_at, raise, ret,
      update_object, modify.
    open_cases; cbn; split; (reflexivity || lia).
Qed.

(** With the ceiling left alone, the counter [_count] never passes it:
    whatever is submitted, stopped, restarted, deleted, finished or
    delivered, in any order. *)
Theorem count_never_exceeds_ceiling (threads : Z) (es : list event) :
  0 <= threads ->
  forallb (fun e => negb (is_set_thread e)) es = true ->
  _count (play es (init threads)) <= threads
  /\ _thread (play es (init threads)) = threads.
Proof.
  intros Ht Hes.
  assert (G : forall m, _count m <= _thread m ->
              _count (play es m) <= _thread m /\ _thread (play es m) = _thread m).
  { induction es as [|e es IH]; intros m Hm; cbn [play fold_left].
    - split; [exact Hm | reflexivity].
    - cbn [forallb] in Hes. apply andb_true_iff in Hes. destruct Hes as [He Hes].
      apply negb_true_iff in He.
      destruct (handle_keeps_count_below e m He Hm) as [T C].
      destruct (IH Hes (after (handle e) m)) as [C' T']; [rewrite T; exact C|].
      unfold play in *. rewrite T in *. split; assumption. }
  apply (G (init threads)). cbn. exact Ht.
Qed.

Lemma count_never_exceeds_ceiling_witness :
  let job := DlJob.mk "a.zip" "https://www.lanzous.com/i1" "" "/tmp" None false 0 in
  _count (play [AddTask job; RunPass; RunPass; StopTask job; StartTask job] (init 1)) <= 1.
Proof.
  intros job.
  apply (count_never_exceeds_ceiling 1 [AddTask job; RunPass; RunPass; StopTask job; StartTask job]).
  - lia.
  - reflexivity.
Defined.

(** C1, at the input where it fails.  Ceiling 2.  Two jobs are
    submitted and dispatched in one activation of [run], so the slots of
    both threads read the same variable [url], which holds the second
    key.  The first job is stopped; its [finished] runs
    [_add_thread] on the second key: the count drops to 1, the second
    thread, still running, is unregistered, the first stays registered.
    [start_task] restarts the first without counting it; a third job is
    submitted and dispatched, since the count is below the ceiling.
    Three threads run, the count says 2.  The same happens when the first
    download ends by itself and is started again. *)
Theorem restart_exceeds_ceiling :
  let job := fun u : string => DlJob.mk u u "" "/tmp" None false 0 in
  let u1 := "https://www.lanzous.com/i1" in
  let u2 := "https://www.lanzous.com/i2" in
  let u3 := "https://www.lanzous.com/i3" in
  let dispatched := [AddTasks [(u1, job u1); (u2, job u2)]; RunPass; RunPass; RunPass] in
  let restart := [StartTask (job u1); AddTask (job u3); RunPass] in
  let stopped := play (dispatched ++ [StopTask (job u1); FinishedDelivered 0] ++ restart) (init 2) in
  let ended := play (dispatched ++ [WorkerReturns 0; FinishedDelivered 0] ++ restart) (init 2) in
  (_thread stopped = 2 /\ _count stopped = 2 /\ running_workers stopped = 3)
  /\ (_thread ended = 2 /\ _count ended = 2 /\ running_workers ended = 3).
Proof. vm_compute. repeat split. Qed.

(* ================================================================= *)
(** ** workers.py: the single-action workers *)

Section Adds.
Context {W : Type}.
Variable allowed : item -> bool.

Lemma adds_ret {A : Type} (a : A) : adds allowed (ret a : St (io W) A).
Proof. intros s. exists []. cbn. rewrite app_nil_r. destruct s; split; reflexivity. Qed.

Lemma adds_raise {A : Type} (e : exn) : adds allowed (raise e : St (io W) A).
Proof. intros s. exists []. cbn. rewrite app_nil_r. destruct s; split; reflexivity. Qed.

Lemma adds_get_self : adds allowed (get_self : St (io W) W).
Proof. intros s. exists []. cbn. rewrite app_nil_r. destruct s; split; reflexivity. Qed.

Lemma adds_get_state : adds allowed (get_state : St (io W) (io W)).
Proof. intros s. exists []. cbn. rewrite app_nil_r. destruct s; split; reflexivity. Qed.

Lemma adds_bind {A B : Type} (c : St (io W) A) (k : A -> St (io W) B) :
  adds allowed c -> (forall a, adds allowed (k a)) -> adds allowed (bindS c k).
Proof.
  intros Hc Hk s. unfold bindS.
  destruct (Hc s) as [l1 [E1 F1]]. destruct (c s) as [[a|e] s1]; cbn [snd] in *.
  - destruct (Hk a s1) as [l2 [E2 F2]]. exists (l1 ++ l2).
    rewrite E2, E1. cbn. rewrite app_assoc, forallb_app, F1, F2. split; reflexivity.
  - exists l1. split; assumption.
Qed.

Lemma adds_record (i : item) : allowed i = true -> adds allowed (record i : St (io W) unit).
Proof. intros H s. exists [i]. cbn. rewrite H. split; reflexivity. Qed.

Lemma adds_try {A : Type} (body : St (io W) A) (handler : exn -> St (io W) A) :
  adds allowed body -> (forall e, adds allowed (handler e)) ->
  adds allowed (try_except body handler).
Proof.
  intros Hb Hh s. unfold try_except.
  destruct (Hb s) as [l1 [E1 F1]]. destruct (body s) as [[a|e] s1]; cbn [snd] in *.
  - exists l1. split; assumption.
  - destruct (Hh e s1) as [l2 [E2 F2]]. exists (l1 ++ l2).
    rewrite E2, E1. cbn. rewrite app_assoc, forallb_app, F1, F2. split; reflexivity.
Qed.

Lemma adds_for_in {X : Type} (l : list X) (body : X -> St (io W) unit) :
  (forall x, adds allowed (body x)) -> adds allowed (for_in l body).
Proof.
  intros H. induction l as [|x l IH]; cbn [for_in].
  - apply adds_ret.
  - apply adds_bind; [apply H | intros _; exact IH].
Qed.

Lemma adds_ask (disk : LanZouCloud) (c : call) :
  (forall c', allowed (Called c') = true) -> adds allowed (ask disk c : St (io W) answer).
Proof.
  intros H. unfold ask, ask_with.
  apply adds_bind; [apply adds_get_state|]. intros s.
  apply adds_bind; [apply adds_record, H|]. intros _.
  apply adds_bind; [apply adds_for_in; intros x; apply adds_ret|]. intros _.
  destruct (outcome _); [apply adds_ret | apply adds_raise].
Qed.
End Adds.

Lemma adds_emit {W : Type} (allowed : item -> bool) (signal : string) (args : list pyobj) :
  allowed (Emitted signal args) = true -> adds allowed (emit signal args : St (io W) unit).
Proof. intros H. apply adds_record, H. Qed.

(** Build a proof of [adds] along the structure of a method. *)
Ltac adds_tac :=
  repeat first
    [ apply adds_ret | apply adds_raise | apply adds_get_self | apply adds_get_state
    | apply adds_emit; reflexivity
    | apply adds_ask; intros; reflexivity
    | apply adds_try; [|intros ?]
    | apply adds_bind; [|intros ?]
    | match goal with
      | |- adds _ (match ?x with _ => _ end) => destruct x
      end ].

Lemma GetSharedInfo_run_try_adds (disk : LanZouCloud) :
  adds is_work_item (GetSharedInfo.run_try disk).
Proof.
  unfold GetSharedInfo.run_try, GetSharedInfo.emit_msg, infos_code, infos_item.
  adds_tac.
Qed.

(** The lines every guarded [run] is made of, once the flag was found
    down. *)
Lemma guard_pattern {W : Type} (lockf unflagf : W -> W)
    (body : St (io W) unit) (handler : exn -> St (io W) unit)
    (w : W) (l : list item) :
  adds is_work_item body ->
  (forall e, adds is_work_item (handler e)) ->
  (forall e s, fst (handler e s) = Ok tt) ->
  exists work,
    (record Locked ;;; set_self lockf ;;; try_except body handler ;;;
     set_self unflagf ;;; record Unlocked) (mkIO w l)
    = (Ok tt, mkIO (unflagf (lockf w)) (l ++ Locked :: work ++ [Unlocked]))
    /\ forallb is_work_item work = true.
Proof.
  intros Hb Hh Hok.
  destruct (adds_try is_work_item body handler Hb Hh (mkIO (lockf w) (l ++ [Locked])))
    as [work [E F]].
  exists work. split; [|exact F].
  unfold bindS at 1. cbn [record modify self log].
  unfold bindS at 1. cbn [set_self modify self log].
  unfold bindS at 1.
  assert (R : fst (try_except body handler (mkIO (lockf w) (l ++ [Locked]))) = Ok tt).
  { unfold try_except. destruct (body _) as [[[]|e] s1]; [reflexivity|apply Hok]. }
  destruct (try_except body handler (mkIO (lockf w) (l ++ [Locked]))) as [r s2].
  cbn [fst snd] in R, E. subst r s2.
  unfold record, set_self, modify, bindS. cbn. rewrite <- !app_assoc. reflexivity.
Qed.

Lemma GetSharedInfo_releases (disk : LanZouCloud) :
  releases_once GetSharedInfo._is_work GetSharedInfo._mutex (GetSharedInfo.run disk).
Proof.
  intros w l Hf.
  destruct (guard_pattern GetSharedInfo.lock_and_flag GetSharedInfo.unflag_and_unlock
              (GetSharedInfo.run_try disk) GetSharedInfo.run_except w l)
    as [work [E F]].
  - apply GetSharedInfo_run_try_adds.
  - intros e. unfold GetSharedInfo.run_except. adds_tac.
  - intros e s. destruct e; reflexivity.
  - exists (GetSharedInfo.unflag_and_unlock (GetSharedInfo.lock_and_flag w)), work.
    unfold GetSharedInfo.run, bindS at 1. cbn [get_self self]. rewrite Hf. cbn [negb].
    rewrite E. repeat split. exact F.
Qed.

Lemma SetPwdWorker_run_items_adds (disk : LanZouCloud) (l : list Infos) :
  forall v, adds is_work_item (SetPwdWorker.run_items disk l v).
Proof.
  induction l as [|i l IH]; intros v; cbn [SetPwdWorker.run_items].
  - apply adds_ret.
  - apply adds_bind; [|intros v'; apply IH].
    unfold SetPwdWorker.run_item. adds_tac.
Qed.

Lemma SetPwdWorker_releases (disk : LanZouCloud) :
  releases_once SetPwdWorker._is_work SetPwdWorker._mutex (SetPwdWorker.run disk).
Proof.
  intros w l Hf.
  destruct (guard_pattern SetPwdWorker.lock_and_flag SetPwdWorker.unflag_and_unlock
              (SetPwdWorker.run_try disk) SetPwdWorker.run_except w l)
    as [work [E F]].
  - unfold SetPwdWorker.run_try.
    apply adds_bind; [apply adds_get_self|]. intros w0.
    apply adds_bind; [apply SetPwdWorker_run_items_adds|]. intros v.
    adds_tac.
  - intros e. unfold SetPwdWorker.run_except. adds_tac.
  - intros e s. destruct e; reflexivity.
  - exists (SetPwdWorker.unflag_and_unlock (SetPwdWorker.lock_and_flag w)), work.
    unfold SetPwdWorker.run, bindS at 1. cbn [get_self self]. rewrite Hf. cbn [negb].
    rewrite E. repeat split. exact F.
Qed.

Lemma LogoutWorker_releases (disk : LanZouCloud) :
  releases_once LogoutWorker._is_work LogoutWorker._mutex (LogoutWorker.run disk).
Proof.
  intros w l Hf.
  destruct (guard_pattern LogoutWorker.lock_and_flag LogoutWorker.unflag_and_unlock
              (LogoutWorker.run_try disk) LogoutWorker.run_except w l)
    as [work [E F]].
  - unfold LogoutWorker.run_try. adds_tac.
  - intros e. unfold LogoutWorker.run_except. adds_tac.
  - intros e s. destruct e; reflexivity.
  - exists (LogoutWorker.unflag_and_unlock (LogoutWorker.lock_and_flag w)), work.
    unfold LogoutWorker.run, bindS at 1. cbn [get_self self]. rewrite Hf. cbn [negb].
    rewrite E. repeat split. exact F.
Qed.

Lemma for_in_ok {W X : Type} (l : list X) (body : X -> St (io W) unit) :
  (forall x s, fst (body x s) = Ok tt) -> forall s, fst (for_in l body s) = Ok tt.
Proof.
  intros H. induction l as [|x l IH]; intros s; cbn [for_in]; [reflexivity|].
  unfold bindS. specialize (H x s). destruct (body x s) as [[[]|e] s1];
    cbn [fst] in H; [apply IH | discriminate].
Qed.

Lemma RemoveFilesWorker_run_item_adds (disk : LanZouCloud) (i : Infos) :
  adds is_work_item (RemoveFilesWorker.run_item disk i).
Proof. unfold RemoveFilesWorker.run_item. adds_tac. Qed.

Lemma RemoveFilesWorker_run_item_ok (disk : LanZouCloud) (i : Infos) (s : io RemoveFilesWorker.t) :
  fst (RemoveFilesWorker.run_item disk i s) = Ok tt.
Proof.
  unfold RemoveFilesWorker.run_item, try_except.
  destruct (bindS _ _ s) as [[[]|e] s1]; [reflexivity|].
  destruct e; reflexivity.
Qed.

Lemma RemoveFilesWorker_releases (disk : LanZouCloud) :
  releases_once RemoveFilesWorker._is_work RemoveFilesWorker._mutex
    (RemoveFilesWorker.run disk).
Proof.
  intros w l Hf.
  exists (RemoveFilesWorker.unflag_and_unlock (RemoveFilesWorker.lock_and_flag w)).
  unfold RemoveFilesWorker.run, bindS at 1. cbn [get_self self]. rewrite Hf. cbn [negb].
  destruct (RemoveFilesWorker.infos w) as [|i0 rest] eqn:Ei.
  - exists []. unfold record, set_self, modify, bindS. cbn.
    rewrite <- !app_assoc. repeat split.
  - set (s1 := mkIO (RemoveFilesWorker.lock_and_flag w) (l ++ [Locked])).
    destruct (adds_for_in is_work_item (i0 :: rest) (RemoveFilesWorker.run_item disk)
                (RemoveFilesWorker_run_item_adds disk) s1) as [work [E F]].
    pose proof (for_in_ok (i0 :: rest) (RemoveFilesWorker.run_item disk)
                  (RemoveFilesWorker_run_item_ok disk) s1) as R.
    exists (work ++ [Emitted "finished" []]).
    unfold bindS at 1. cbn [record modify self log].
    unfold bindS at 1. cbn [set_self modify self log]. fold s1.
    unfold bindS at 1.
    destruct (for_in (i0 :: rest) (RemoveFilesWorker.run_item disk) s1) as [r s2].
    cbn [fst snd] in R, E. subst r s2.
    unfold emit, record, set_self, modify, bindS. cbn.
    rewrite <- !app_assoc. cbn. repeat split.
    rewrite forallb_app, F. reflexivity.
Qed.

(** What [emit_msg] and the emission of [infos] add is signals only. *)
Lemma GetSharedInfo_emit_msg_emits (disk : LanZouCloud) (i : answer) :
  adds is_emission (GetSharedInfo.emit_msg disk i).
Proof.
  unfold GetSharedInfo.emit_msg, infos_code, infos_item. adds_tac.
Qed.

Lemma calls_in_app (l1 l2 : list item) : calls_in (l1 ++ l2) = calls_in l1 ++ calls_in l2.
Proof. unfold calls_in. apply filter_app. Qed.

Lemma calls_in_emissions (l : list item) :
  forallb is_emission l = true -> calls_in l = [].
Proof.
  unfold calls_in. induction l as [|i l IH]; [reflexivity|].
  cbn. intros H. apply andb_true_iff in H. destruct H as [Hi Hl].
  destruct i; try discriminate. cbn. apply IH, Hl.
Qed.


Lemma for_in_nothing {W X : Type} (l : list X) (s : io W) :
  for_in l (fun _ : X => ret tt) s = (Ok tt, s).
Proof. induction l as [|x l IH]; cbn; [reflexivity|]. unfold bindS. cbn. exact IH. Qed.

(** A call without callback adds itself to the record, and nothing else. *)
Lemma ask_adds_call {W : Type} (disk : LanZouCloud) (c : call) (s : io W) :
  ask disk c s
  = (match outcome (respond disk (List.length (calls_in (log s))) c) with
     | Ok a => Ok a
     | Raise e => Raise e
     end,
     mkIO (self s) (log s ++ [Called c])).
Proof.
  unfold ask, ask_with, bindS, get_state, record, modify. cbn.
  rewrite for_in_nothing. destruct (outcome _); reflexivity.
Qed.

(** An accepted run of [GetSharedInfo] on the link of a file or of a
    folder makes one call of the backend, whatever the backend answers
    or raises: [get_share_info_by_url] for a file and
    [get_folder_info_by_url] for a folder, with the link and the
    password that were stored. *)
Theorem accepted_share_run_makes_one_call
    (disk : LanZouCloud) (w : GetSharedInfo.t) (l : list item) :
  GetSharedInfo._is_work w = false ->
  GetSharedInfo.is_file w || GetSharedInfo.is_folder w = true ->
  calls_in (log (snd (GetSharedInfo.run disk (mkIO w l))))
  = calls_in l
    ++ [Called (if GetSharedInfo.is_file w
                then get_share_info_by_url (GetSharedInfo.share_url w) (GetSharedInfo.pwd w)
                else get_folder_info_by_url (GetSharedInfo.share_url w)
                       (GetSharedInfo.pwd w))].
Proof.
  intros Hf Hk.
  set (c := if GetSharedInfo.is_file w
            then get_share_info_by_url (GetSharedInfo.share_url w) (GetSharedInfo.pwd w)
            else get_folder_info_by_url (GetSharedInfo.share_url w) (GetSharedInfo.pwd w)).
  set (w1 := GetSharedInfo.lock_and_flag w).
  assert (T : exists added,
             snd (try_except (GetSharedInfo.run_try disk) GetSharedInfo.run_except
                    (mkIO w1 (l ++ [Locked])))
             = mkIO w1 ((l ++ [Locked]) ++ Called c :: added)
             /\ forallb is_emission added = true).
  { assert (Hrest : forall i : answer,
               adds is_emission
                 (GetSharedInfo.emit_msg disk i ;;; ret (Some i) : St (io GetSharedInfo.t) _)).
    { intros i. apply adds_bind; [apply GetSharedInfo_emit_msg_emits|].
      intros _. apply adds_ret. }
    assert (Hh : forall e, adds is_emission (GetSharedInfo.run_except e)).
    { intros e. unfold GetSharedInfo.run_except. adds_tac. }
    unfold try_except, GetSharedInfo.run_try, bindS at 1. cbn [get_self self].
    unfold bindS at 1.
    assert (Hc : (if GetSharedInfo.is_file w1
                  then i <~ ask disk (get_share_info_by_url (GetSharedInfo.share_url w1) (GetSharedInfo.pwd w1)) ;;
                       GetSharedInfo.emit_msg disk i ;;; ret (Some i)
                  else if GetSharedInfo.is_folder w1
                  then i <~ ask disk (get_folder_info_by_url (GetSharedInfo.share_url w1) (GetSharedInfo.pwd w1)) ;;
                       GetSharedInfo.emit_msg disk i ;;; ret (Some i)
                  else ret None)
                 = (i <~ ask disk c ;; GetSharedInfo.emit_msg disk i ;;; ret (Some i)
                    : St (io GetSharedInfo.t) (option answer))).
    { subst c w1. cbn. destruct (GetSharedInfo.is_file w); [reflexivity|].
      cbn in Hk. rewrite Hk. reflexivity. }
    rewrite Hc. clear Hc. unfold bindS at 1. rewrite ask_adds_call. cbn [self log].
    destruct (outcome _) as [i|e].
    - destruct (Hrest i (mkIO w1 ((l ++ [Locked]) ++ [Called c]))) as [a1 [E1 F1]].
      destruct ((GetSharedInfo.emit_msg disk i ;;; ret (Some i)) _) as [[o|e] s2];
        cbn [snd self log] in E1; subst s2.
      + destruct o as [i'|].
        * exists (a1 ++ [Emitted "infos" [o_answer i']]).
          cbn. rewrite <- !app_assoc. split; [reflexivity|].
          rewrite forallb_app, F1. reflexivity.
        * exists a1. cbn. rewrite <- !app_assoc. split; [reflexivity|exact F1].
      + destruct (Hh e (mkIO w1 (((l ++ [Locked]) ++ [Called c]) ++ a1))) as [a2 [E2 F2]].
        exists (a1 ++ a2). cbn [self log]. rewrite E2. cbn. rewrite <- !app_assoc. cbn.
        split; [reflexivity|]. rewrite forallb_app, F1, F2. reflexivity.
    - destruct (Hh e (mkIO w1 ((l ++ [Locked]) ++ [Called c]))) as [a2 [E2 F2]].
      exists a2. rewrite E2. cbn. rewrite <- !app_assoc. split; [reflexivity|exact F2]. }
  destruct T as [added [E F]].
  unfold GetSharedInfo.run, bindS at 1. cbn [get_self self]. rewrite Hf. cbn [negb].
  unfold bindS at 1. cbn [record modify self log].
  unfold bindS at 1. cbn [set_self modify self log]. fold w1.
  unfold bindS at 1.
  destruct (try_except _ _ _) as [r s2]. cbn [snd] in E. subst s2.
  pose proof (calls_in_emissions added F) as Hz.
  destruct r as [[]|e]; unfold record, set_self, modify, bindS; cbn [snd fst log self];
    unfold calls_in in *; rewrite !filter_app; cbn [filter is_call];
    rewrite Hz, ?app_nil_r; reflexivity.
Qed.

Lemma accepted_share_run_makes_one_call_witness :
  let disk := mkDisk 0 (-1) 6 3 2 7 9 (fun _ _ => mkReply [] (Raise TimeoutError)) in
  let w := GetSharedInfo.mk "https://www.lanzous.com/b01" "1234" false true false false in
  calls_in (log (snd (GetSharedInfo.run disk (mkIO w []))))
  = [Called (get_folder_info_by_url "https://www.lanzous.com/b01" "1234")].
Proof.
  intros disk w.
  exact (accepted_share_run_makes_one_call disk w [] eq_refl eq_refl).
Defined.

(** Whatever the backend answers or raises, a run of [GetSharedInfo],
    [SetPwdWorker], [LogoutWorker] or [RemoveFilesWorker] that finds the
    flag down returns without raising, with the flag down and the mutex
    free; it has taken the mutex once, at its start, and released it
    once, at its end, and what it did in between is signals and calls of
    the backend. *)
Theorem backend_faults_release_the_guard (disk : LanZouCloud) :
  releases_once GetSharedInfo._is_work GetSharedInfo._mutex (GetSharedInfo.run disk)
  /\ releases_once SetPwdWorker._is_work SetPwdWorker._mutex (SetPwdWorker.run disk)
  /\ releases_once LogoutWorker._is_work LogoutWorker._mutex (LogoutWorker.run disk)
  /\ releases_once RemoveFilesWorker._is_work RemoveFilesWorker._mutex
       (RemoveFilesWorker.run disk).
Proof.
  split; [apply GetSharedInfo_releases|].
  split; [apply SetPwdWorker_releases|].
  split; [apply LogoutWorker_releases | apply RemoveFilesWorker_releases].
Qed.

Lemma backend_faults_release_the_guard_witness :
  let disk := mkDisk 0 (-1) 6 3 2 7 9 (fun _ _ => mkReply [] (Raise OtherError)) in
  let w := SetPwdWorker.mk [mkInfos "a.zip" true 11 "abcd"] 5 false false in
  exists w' work,
    SetPwdWorker.run disk (mkIO w [])
    = (Ok tt, mkIO w' (Locked :: work ++ [Unlocked]))
    /\ SetPwdWorker._is_work w' = false
    /\ SetPwdWorker._mutex w' = false.
Proof.
  intros disk w.
  destruct (backend_faults_release_the_guard disk) as [_ [H _]].
  destruct (H w [] eq_refl) as [w' [work [E [F [M _]]]]].
  exists w', work. split; [exact E|]. split; [exact F | exact M].
Defined.

(* ================================================================= *)
(** ** Python numbers and the progress rate *)

Lemma digits2_pos_spec (p : positive) :
  2 ^ (Zpos (digits2_pos p) - 1) <= Zpos p < 2 ^ Zpos (digits2_pos p).
Proof.
  induction p as [p IH|p IH|]; cbn [digits2_pos].
  - rewrite Pos2Z.inj_succ.
    replace (Z.succ (Zpos (digits2_pos p)) - 1) with (Z.succ (Zpos (digits2_pos p) - 1)) by lia.
    rewrite !Z.pow_succ_r by lia. lia.
  - rewrite Pos2Z.inj_succ.
    replace (Z.succ (Zpos (digits2_pos p)) - 1) with (Z.succ (Zpos (digits2_pos p) - 1)) by lia.
    rewrite !Z.pow_succ_r by lia. lia.
  - cbn. lia.
Qed.

Lemma Zdigits2_unique (q d : Z) :
  0 < d -> 2 ^ (d - 1) <= q < 2 ^ d -> Zdigits2 q = d.
Proof.
  intros Hd [Hl Hu].
  assert (0 < q) by (pose proof (Z.pow_pos_nonneg 2 (d - 1)); lia).
  destruct q as [|p|p]; try lia. cbn [Zdigits2].
  pose proof (digits2_pos_spec p) as [Pl Pu].
  set (n := Zpos (digits2_pos p)) in *.
  assert (0 < n) by (subst n; lia).
  destruct (Z.lt_trichotomy n d) as [L|[E|G]]; [|exact E|].
  - assert (2 ^ n <= 2 ^ (d - 1)) by (apply Z.pow_le_mono_r; lia). lia.
  - assert (2 ^ d <= 2 ^ (n - 1)) by (apply Z.pow_le_mono_r; lia). lia.
Qed.

Lemma shr_fexp_53 (q e : Z) (loc : location) :
  2 ^ 52 <= q < 2 ^ 53 -> -1074 <= e ->
  shr_fexp 53 1024 q e loc = (shr_record_of_loc q loc, e).
Proof.
  intros Hq He. unfold shr_fexp.
  rewrite (Zdigits2_unique q 53) by (cbn in *; lia).
  unfold fexp, emin.
  replace (Z.sub (Z.max (Z.sub (Z.add 53 e) 53) (Z.sub (Z.sub 3 1024) 53)) e) with 0 by lia.
  reflexivity.
Qed.

Lemma shr_fexp_54 (q e : Z) (loc : location) :
  2 ^ 53 <= q < 2 ^ 54 -> -1075 <= e ->
  shr_fexp 53 1024 q e loc = (shr_1 (shr_record_of_loc q loc), e + 1).
Proof.
  intros Hq He. unfold shr_fexp.
  rewrite (Zdigits2_unique q 54) by (cbn in *; lia).
  unfold fexp, emin.
  replace (Z.sub (Z.max (Z.sub (Z.add 54 e) 53) (Z.sub (Z.sub 3 1024) 53)) e) with 1 by lia.
  reflexivity.
Qed.

Lemma shr_1_spec (m : Z) (r s : bool) :
  0 <= m ->
  shr_1 (Build_shr_record m r s) = Build_shr_record (m / 2) (Z.odd m) (r || s).
Proof.
  intros Hm. destruct m as [|p|p]; [reflexivity| |lia].
  destruct p as [p|p|]; cbn [shr_1 Z.odd].
  - f_equal. rewrite Pos2Z.inj_xI. apply Z.div_unique with (r := 1); lia.
  - f_equal. rewrite Pos2Z.inj_xO. apply Z.div_unique with (r := 0); lia.
  - reflexivity.
Qed.

(** The last step of [binary_round_aux] on a mantissa of 53 bits, or
    on [2 ^ 53]. *)
Lemma round_last_step (mr e1 : Z) :
  2 ^ 52 <= mr <= 2 ^ 53 -> -1074 <= e1 <= 960 ->
  exists (m : positive) (k : Z),
    (let '(mrs, e2) := shr_fexp 53 1024 mr e1 loc_Exact in
     match shr_m mrs with
     | Z0 => S754_zero false
     | Zpos m => if e2 <=? 1024 - 53 then S754_finite false m e2 else S754_infinity false
     | Zneg _ => S754_nan
     end) = S754_finite false m (e1 + k)
    /\ 0 <= k <= 1
    /\ Zpos m * 2 ^ k = mr.
Proof.
  intros Hm He.
  destruct (Z.eq_dec mr (2 ^ 53)) as [->|N].
  - rewrite shr_fexp_54 by (cbn; lia). cbn [shr_record_of_loc shr_1 shr_m Z.pow Z.pow_pos Pos.iter Z.mul Pos.mul].
    replace (e1 + 1 <=? 1024 - 53) with true by (symmetry; apply Z.leb_le; lia).
    eexists. exists 1. split; [reflexivity|]. split; [lia|]. reflexivity.
  - rewrite shr_fexp_53 by (cbn in *; lia). cbn [shr_record_of_loc shr_m].
    assert (0 < mr) by (cbn in Hm; lia).
    destruct mr as [|p|p]; try lia.
    replace (e1 <=? 1024 - 53) with true by (symmetry; apply Z.leb_le; lia).
    exists p, 0. rewrite Z.add_0_r. split; [reflexivity|]. split; lia.
Qed.

Lemma round_result (q e : Z) (loc : location) :
  2 ^ 52 <= q < 2 ^ 54 -> -1074 <= e <= 950 ->
  exists (m : positive) (k n mr : Z),
    binary_round_aux 53 1024 false q e loc = S754_finite false m (e + n + k)
    /\ 0 <= k <= 1
    /\ n = (if q <? 2 ^ 53 then 0 else 1)
    /\ Zpos m * 2 ^ k = mr
    /\ (mr = q / 2 ^ n
        \/ (mr = q / 2 ^ n + 1
            /\ ((n = 0 /\ (loc = loc_Inexact Eq \/ loc = loc_Inexact Gt))
                \/ (n = 1 /\ Z.odd q = true)))).
Proof.
  intros Hq He. unfold binary_round_aux.
  destruct (q <? 2 ^ 53) eqn:Lt53.
  - apply Z.ltb_lt in Lt53.
    rewrite shr_fexp_53 by lia.
    assert (Hshr : shr_m (shr_record_of_loc q loc) = q)
      by (destruct loc as [|[| |]]; reflexivity).
    assert (Hloc : loc_of_shr_record (shr_record_of_loc q loc) = loc)
      by (destruct loc as [|[| |]]; reflexivity).
    rewrite Hshr, Hloc.
    set (mr := round_nearest_even q loc).
    assert (Hmr : mr = q \/ (mr = q + 1 /\ (loc = loc_Inexact Eq \/ loc = loc_Inexact Gt))).
    { subst mr. destruct loc as [|[| |]]; cbn [round_nearest_even]; auto.
      destruct (Z.even q); auto. }
    destruct (round_last_step mr e) as [m [k [E [Hk Hm]]]]; [lia | lia |].
    exists m, k, 0, mr. rewrite Z.add_0_r. split; [exact E|].
    split; [exact Hk|]. split; [reflexivity|]. split; [exact Hm|].
    change (2 ^ 0) with 1. rewrite Z.div_1_r.
    destruct Hmr as [->|[-> Hl]]; [left; reflexivity|right; split; [reflexivity|tauto]].
  - apply Z.ltb_ge in Lt53.
    rewrite shr_fexp_54 by lia.
    assert (Hq0 : 0 <= q) by lia.
    assert (Hh : 2 ^ 52 <= q / 2 < 2 ^ 53).
    { split.
      - apply Z.div_le_lower_bound; [lia|]. cbn in *. lia.
      - apply Z.div_lt_upper_bound; [lia|]. cbn in *. lia. }
    set (mrs := shr_1 (shr_record_of_loc q loc)).
    assert (Hm1 : shr_m mrs = q / 2)
      by (subst mrs; destruct loc as [|[| |]]; cbn [shr_record_of_loc];
          rewrite shr_1_spec by exact Hq0; reflexivity).
    assert (Hr1 : shr_r mrs = Z.odd q)
      by (subst mrs; destruct loc as [|[| |]]; cbn [shr_record_of_loc];
          rewrite shr_1_spec by exact Hq0; reflexivity).
    set (mr := round_nearest_even (shr_m mrs) (loc_of_shr_record mrs)).
    assert (Hmr : mr = q / 2 \/ (mr = q / 2 + 1 /\ Z.odd q = true)).
    { subst mr. rewrite <- Hr1, <- Hm1.
      destruct mrs as [m1 [|] [|]]; cbn [loc_of_shr_record round_nearest_even shr_m shr_r]; auto.
      destruct (Z.even m1); auto. }
    destruct (round_last_step mr (e + 1)) as [m [k [E [Hk Hm]]]]; [lia | lia |].
    exists m, k, 1, mr. split; [exact E|].
    split; [exact Hk|]. split; [reflexivity|]. split; [exact Hm|].
    change (2 ^ 1) with 2.
    destruct Hmr as [->|[-> Ho]]; [left; reflexivity|right; split; [reflexivity|tauto]].
Qed.

Lemma new_location_up (b r : Z) :
  0 < b -> 0 <= r < b ->
  new_location b r = loc_Inexact Eq \/ new_location b r = loc_Inexact Gt ->
  b <= 2 * r.
Proof.
  intros Hb Hr. unfold new_location, new_location_even, new_location_odd.
  destruct (Z.even b); destruct (Z.eqb_spec r 0) as [->|N].
  - intros [G|G]; discriminate.
  - destruct (Z.compare_spec (2 * r) b); intros [G|G]; try discriminate; lia.
  - intros [G|G]; discriminate.
  - destruct (Z.compare_spec (2 * r + 1) b); intros [G|G]; try discriminate; lia.
Qed.

Lemma div_succ_same_or_multiple (h P K : Z) :
  0 < P -> h / P = K -> (h + 1) / P = K \/ h + 1 = (K + 1) * P.
Proof.
  intros HP HK.
  pose proof (Z.div_mod h P ltac:(lia)) as E.
  pose proof (Z.mod_pos_bound h P HP) as B.
  rewrite HK in E.
  destruct (Z.eq_dec (h mod P) (P - 1)) as [S|S].
  - right. lia.
  - left. symmetry. apply Z.div_unique with (r := h mod P + 1); lia.
Qed.

(** The quotient of two positive integers, as [SFdiv] prepares it for
    rounding. *)
Lemma SFdiv_core_spec (pa pb : positive) (E : Z) :
  E = 53 - (Zpos (digits2_pos pa) - Zpos (digits2_pos pb)) ->
  0 < E <= 1074 ->
  SFdiv_core_binary 53 1024 (Zpos pa) 0 (Zpos pb) 0
  = ((Zpos pa * 2 ^ E) / Zpos pb, - E,
     new_location (Zpos pb) ((Zpos pa * 2 ^ E) mod Zpos pb)).
Proof.
  intros HE Hb. unfold SFdiv_core_binary, fexp, emin. cbn [Zdigits2].
  set (da := Zpos (digits2_pos pa)) in *. set (db := Zpos (digits2_pos pb)) in *.
  replace (Z.min (Z.max (Z.sub (Z.sub (Z.add da 0) (Z.add db 0)) 53) (Z.sub (Z.sub 3 1024) 53))
             (Z.sub 0 0)) with (- E) by lia.
  replace (Z.sub (Z.sub 0 0) (- E)) with E by lia.
  destruct E as [|pe|pe]; try lia.
  rewrite Z.shiftl_mul_pow2 by lia.
  unfold Z.div, Z.modulo.
  destruct (Z.div_eucl (Zpos pa * 2 ^ Zpos pe) (Zpos pb)) as [q r]. reflexivity.
Qed.

Lemma pow2_pos (n : Z) : 0 <= n -> 0 < 2 ^ n.
Proof. intros. apply Z.pow_pos_nonneg; lia. Qed.

(** Below 16 TiB the float quotient, cut to an integer, is the integer
    quotient. *)
Lemma int_of_truediv (a b : Z) :
  0 < b < 2 ^ 44 -> 0 <= a <= 1000 * b ->
  bind (py_truediv a b) py_int = Ok (a / b).
Proof.
  intros Hb Ha. unfold py_truediv.
  replace (b =? 0) with false by (symmetry; apply Z.eqb_neq; lia).
  destruct a as [|pa|pa]; [| |lia].
  { destruct b as [|pb|pb]; try lia. reflexivity. }
  destruct b as [|pb|pb]; try lia.
  cbn [Z_to_float SFdiv xorb].
  pose proof (digits2_pos_spec pa) as [Al Au].
  pose proof (digits2_pos_spec pb) as [Bl Bu].
  set (da := Zpos (digits2_pos pa)) in *. set (db := Zpos (digits2_pos pb)) in *.
  assert (Hda : 1 <= da) by (subst da; lia).
  assert (Hdb : 1 <= db) by (subst db; lia).
  assert (Hdb44 : db <= 44).
  { destruct (Z_le_gt_dec db 44) as [L|G]; [exact L|].
    assert (2 ^ 44 <= 2 ^ (db - 1)) by (apply Z.pow_le_mono_r; lia). lia. }
  assert (Hda10 : da <= db + 10).
  { destruct (Z_le_gt_dec da (db + 10)) as [L|G]; [exact L|].
    assert (2 ^ (db + 10) <= 2 ^ (da - 1)) by (apply Z.pow_le_mono_r; lia).
    rewrite Z.pow_add_r in H by lia. change (2 ^ 10) with 1024 in H. lia. }
  set (E := 53 - (da - db)).
  assert (HE : 43 <= E <= 1074) by (subst E; lia).
  rewrite (SFdiv_core_spec pa pb E eq_refl) by lia.
  set (a := Zpos pa) in *. set (b := Zpos pb) in *.
  set (X := 2 ^ E).
  assert (HX : 2 ^ 43 <= X) by (subst X; apply Z.pow_le_mono_r; lia).
  assert (HXpos : 0 < X) by (subst X; apply pow2_pos; lia).
  set (q := (a * X) / b). set (r := (a * X) mod b).
  pose proof (Z.div_mod (a * X) b ltac:(lia)) as Hdm. fold q r in Hdm.
  pose proof (Z.mod_pos_bound (a * X) b ltac:(lia)) as Hr. fold r in Hr.
  assert (Hq : 2 ^ 52 <= q < 2 ^ 54).
  { assert (Elow : 2 ^ 52 * 2 ^ db = 2 ^ (da - 1) * X).
    { subst X E. rewrite <- !Z.pow_add_r by lia. f_equal. lia. }
    assert (Eup : 2 ^ 54 * 2 ^ (db - 1) = 2 ^ da * X).
    { subst X E. rewrite <- !Z.pow_add_r by lia. f_equal. lia. }
    split.
    - apply Z.div_le_lower_bound; [lia|]. nia.
    - apply Z.div_lt_upper_bound; [lia|]. nia. }
  destruct (round_result q (- E) (new_location b r) Hq ltac:(lia))
    as [m [k [n [mr [Er [Hk [Hn [Hm Hmr]]]]]]]].
  rewrite Er. cbn [bind py_int].
  assert (Hn01 : 0 <= n <= 1) by (rewrite Hn; destruct (q <? 2 ^ 53); lia).
  replace (0 <=? - E + n + k) with false by (symmetry; apply Z.leb_gt; lia).
  f_equal.
  set (P := 2 ^ (E - n)).
  assert (HP : 0 < P) by (subst P; apply pow2_pos; lia).
  assert (HPX : P * 2 ^ n = X).
  { subst P X. rewrite <- Z.pow_add_r by lia. f_equal. lia. }
  assert (S1 : Z.pos m / 2 ^ (- (- E + n + k)) = mr / P).
  { rewrite <- Hm. subst P.
    replace (E - n) with (- (- E + n + k) + k) by lia.
    rewrite Z.pow_add_r by lia.
    rewrite Z.div_mul_cancel_r; [reflexivity| |];
      pose proof (pow2_pos k ltac:(lia)); pose proof (pow2_pos (- (- E + n + k)) ltac:(lia)); lia. }
  rewrite S1. clear S1.
  set (K := a / b).
  assert (HqK : q / X = K).
  { subst q K. rewrite Z.div_div by lia. rewrite Z.div_mul_cancel_r by lia. reflexivity. }
  set (h := q / 2 ^ n).
  assert (HhK : h / P = K).
  { subst h. rewrite Z.div_div; [|pose proof (pow2_pos n ltac:(lia)); lia | exact HP].
    rewrite (Z.mul_comm (2 ^ n) P), HPX. exact HqK. }
  fold h in Hmr.
  destruct Hmr as [->|[-> Hup]]; [exact HhK|].
  destruct (div_succ_same_or_multiple h P K HP HhK) as [G|G]; [exact G|exfalso].
  pose proof (Z.div_mod a b ltac:(lia)) as Hab. fold K in Hab.
  pose proof (Z.mod_pos_bound a b ltac:(lia)) as Hab'.
  assert (HY : 1 <= (K + 1) * b - a) by nia.
  destruct Hup as [[-> Hloc]|[-> Hodd]].
  - pose proof (new_location_up b r ltac:(lia) Hr Hloc) as Hhalf.
    change (2 ^ 0) with 1 in *. subst h. rewrite Z.div_1_r in G.
    assert (P = X) by lia. subst P.
    assert (X * ((K + 1) * b - a) >= X) by nia.
    nia.
  - change (2 ^ 1) with 2 in *.
    assert (Hq2 : q = 2 * h + 1).
    { subst h. pose proof (Z.div_mod q 2 ltac:(lia)) as D2.
      rewrite Zmod_odd, Hodd in D2. exact D2. }
    assert (Hq53 : 2 ^ 53 <= q) by (destruct (Z.ltb_spec q (2 ^ 53)); [discriminate|assumption]).
    assert (HX44 : 2 ^ 44 <= X).
    { destruct (Z.eq_dec E 43) as [E43|NE].
      - exfalso. assert (X = 2 ^ 43) by (subst X; rewrite E43; reflexivity).
        assert (q <= 1000 * 2 ^ 43).
        { subst q. apply Z.div_le_upper_bound; [lia|]. nia. }
        cbn in *. lia.
      - subst X. apply Z.pow_le_mono_r; lia. }
    assert (X * ((K + 1) * b - a) >= X) by nia.
    nia.
Qed.

Lemma progress_rate_floor (total_size now_size : Z) :
  0 < total_size < 2 ^ 44 -> 0 <= now_size <= total_size ->
  progress_rate total_size now_size = Ok (1000 * now_size / total_size).
Proof.
  intros Ht Hn. unfold progress_rate. apply int_of_truediv; lia.
Qed.

(** C4, as the code has it.  For a total below [2 ^ 44] bytes (16 TiB)
    and [0 <= now_size <= later_size <= total_size], the rate
    [int(1000 * now_size/total_size)] is the floor of
    [1000 * now_size / total_size]; it is 1000 exactly when
    [now_size = total_size]; and the rate of the later sample is not
    below it. *)
Theorem progress_rate_is_floor (total_size now_size later_size : Z) :
  0 < total_size < 2 ^ 44 ->
  0 <= now_size <= later_size ->
  later_size <= total_size ->
  exists rate later_rate,
    progress_rate total_size now_size = Ok rate
    /\ progress_rate total_size later_size = Ok later_rate
    /\ rate = 1000 * now_size / total_size
    /\ (rate = 1000 <-> now_size = total_size)
    /\ rate <= later_rate.
Proof.
  intros Ht Hn Hl.
  exists (1000 * now_size / total_size), (1000 * later_size / total_size).
  split; [apply progress_rate_floor; lia|].
  split; [apply progress_rate_floor; lia|].
  split; [reflexivity|]. split.
  - split.
    + intros H.
      assert (1000 * total_size <= 1000 * now_size).
      { rewrite <- H at 1. rewrite Z.mul_comm. apply Z.mul_div_le. lia. }
      lia.
    + intros ->. apply Z.div_mul. lia.
  - apply Z.div_le_mono; lia.
Qed.

Lemma progress_rate_is_floor_witness :
  exists rate later_rate,
    progress_rate 3 1 = Ok rate
    /\ progress_rate 3 2 = Ok later_rate
    /\ rate = 1000 * 1 / 3
    /\ (rate = 1000 <-> 1 = 3)
    /\ rate <= later_rate.
Proof.
  apply (progress_rate_is_floor 3 1 2); cbn; lia.
Defined.

(** C4 as stated fails on totals of 16 TiB and more, where the float
    quotient can round up to the next integer: at a total just above
    [2 ^ 44] the rate is 999 where the floor is 998, and at a total of
    [2 ^ 60] the rate is 1000 one byte before the end. *)
Lemma progress_rate_rounds_up_on_huge_totals :
  (0 <= 17574593858954 <= 17592186044999
   /\ progress_rate 17592186044999 17574593858954 = Ok 999
   /\ 1000 * 17574593858954 / 17592186044999 = 998)
  /\ (0 <= 2 ^ 60 - 1 <= 2 ^ 60
      /\ progress_rate (2 ^ 60) (2 ^ 60 - 1) = Ok 1000
      /\ 2 ^ 60 - 1 <> 2 ^ 60).
Proof.
  split.
  - split; [lia|]. split; [vm_compute; reflexivity | reflexivity].
  - split; [cbn; lia|]. split; [vm_compute; reflexivity | discriminate].
Qed.

(** C5, at the input where it fails.  With [total_size = 0] both
    [show_progress] and the rate computed by the two [_show_progress]
    callbacks divide by zero: [ZeroDivisionError] is raised, for every
    file name and every [now_size], and no rate is reported. *)
Theorem progress_of_empty_total_raises (file_name : string) (now_size : Z) :
  show_progress file_name 0 now_size = Raise ZeroDivisionError
  /\ progress_rate 0 now_size = Raise ZeroDivisionError.
Proof. split; reflexivity. Qed.

(* ================================================================= *)
(** ** workers.py: UploadWorker *)

(** A pass of the upload loop over a first pending path that does not
    exist changes nothing but the record of signals, so the next pass
    meets the same path. *)
Lemma upload_loop_stalls (fs : FileSystem) (disk : LanZouCloud) (fuel : nat) :
  forall (s : io UploadWorker.t) (furl : string) (task : UpJob.t) (rest : PyDict.t UpJob.t),
    UploadWorker._tasks (self s) = (furl, task) :: rest ->
    exists_ fs furl = false ->
    exists s',
      UploadWorker.run_loop fs disk fuel s = (Ok false, s')
      /\ UploadWorker._tasks (self s') = UploadWorker._tasks (self s)
      /\ UploadWorker._is_work (self s') = UploadWorker._is_work (self s)
      /\ UploadWorker._mutex (self s') = UploadWorker._mutex (self s)
      /\ log s'
         = log s ++ repeat (Emitted "code"
                              [o_str ("<b>ERROR :</b> <font color='red'>文件不存在:"
                                      ++ furl ++ "</font>")%string;
                               o_int 3100]) fuel.
Proof.
  induction fuel as [|n IH]; intros s furl task rest Ht He.
  - exists s. cbn [UploadWorker.run_loop repeat ret]. rewrite app_nil_r. repeat split.
  - cbn [UploadWorker.run_loop repeat].
    unfold bindS at 1. unfold UploadWorker.run_pass at 1.
    unfold bindS at 1. cbn [get_self self fst snd]. rewrite Ht.
    unfold bindS at 1. cbn [set_self modify fst snd self log]. rewrite He. cbn [negb].
    unfold bindS at 1. cbn [emit record modify self log ret].
    set (msg := Emitted "code" _).
    set (s1 := mkIO _ _).
    destruct (IH s1 furl task rest) as [s' [E [T [F [M L]]]]].
    + subst s1. cbn [self UploadWorker.with_current UploadWorker._tasks]. exact Ht.
    + exact He.
    + exists s'. rewrite E. split; [reflexivity|].
      subst s1.
      cbn [self log UploadWorker.with_current UploadWorker._tasks
           UploadWorker._is_work UploadWorker._mutex] in T, F, M, L.
      split; [rewrite T; exact Ht|]. split; [exact F|]. split; [exact M|].
      rewrite L. fold msg. rewrite <- app_assoc. reflexivity.
Qed.

(** C6, at the input where it fails.  Two jobs are pending; the path of
    the first does not exist.  Whatever the number of passes, [run] has
    not come to its end: each pass emits the not-found text and takes the
    [continue] before [del self._tasks[self._furl]], so both jobs stay
    pending with no error in their records, the second is never
    reached, and the flag stays up. *)
Theorem missing_path_stalls_the_upload (disk : LanZouCloud) (fuel : nat) :
  let gone := UpJob.mk "/home/u/gone.txt" (-1) "" None false 0 false "" false "" in
  let here := UpJob.mk "/home/u/a.txt" (-1) "" None false 0 false "" false "" in
  let fs := mkFS (fun p => String.eqb p "/home/u/a.txt") (fun _ => false) in
  let w := UploadWorker.mk [("/home/u/gone.txt", gone); ("/home/u/a.txt", here)]
             false false "" None in
  exists s,
    UploadWorker.run fs disk fuel (mkIO w []) = (Ok false, s)
    /\ UploadWorker._tasks (self s)
       = [("/home/u/gone.txt", gone); ("/home/u/a.txt", here)]
    /\ UploadWorker._is_work (self s) = true
    /\ log s
       = Locked
         :: repeat (Emitted "code"
                      [o_str "<b>ERROR :</b> <font color='red'>文件不存在:/home/u/gone.txt</font>";
                       o_int 3100]) fuel.
Proof.
  intros gone here fs w.
  destruct (upload_loop_stalls fs disk fuel
              (mkIO (UploadWorker.lock_and_flag w) [Locked])
              "/home/u/gone.txt" gone [("/home/u/a.txt", here)] eq_refl eq_refl)
    as [s [E [T [F [_ L]]]]].
  exists s. unfold UploadWorker.run.
  unfold bindS at 1. cbn [get_self self fst snd UploadWorker._is_work w negb].
  unfold bindS at 1. cbn [record modify self log fst snd app].
  unfold bindS at 1. cbn [set_self modify self log fst snd].
  unfold bindS at 1. rewrite E.
  split; [reflexivity|]. split; [exact T|]. split; [exact F|]. exact L.
Qed.

(** C9, at the input where it fails.  The backend declines the upload
    of a single file: [upload_file] returns a status that is not
    [SUCCESS].  No follow-up call is made, but the [info] of the job is
    set to the text of a successful upload, and the record is not
    published. *)
Theorem declined_upload_is_marked_as_success :
  let disk := mkDisk 0 (-1) 6 3 2 7 9
                (fun _ _ => mkReply [] (Ok (a_upload (-1) 0 true))) in
  let job := UpJob.mk "/home/u/a.txt" (-1) "" None false 0 true "1234" true "notes" in
  let fs := mkFS (fun _ => true) (fun _ => false) in
  let w := UploadWorker.mk [("/home/u/a.txt", job)] false false "" None in
  exists s,
    UploadWorker.run fs disk 2 (mkIO w []) = (Ok true, s)
    /\ UploadWorker._task (self s)
       = Some (UpJob.replace_info job (Some (InfoText "上传成功")))
    /\ log s
       = [Locked;
          Emitted "code" [o_str "<b>INFO :</b> <font color='#00CC00'>上传文件:/home/u/a.txt</font>";
                          o_int 20000];
          Called (upload_file "/home/u/a.txt" (-1));
          Unlocked].
Proof. cbv zeta. eexists. split; [reflexivity|]. split; reflexivity. Qed.

(** ** workers.py: what one upload does *)

(** Storing the current job again changes nothing. *)
Lemma with_task_same (w : UploadWorker.t) (j : UpJob.t) :
  UploadWorker._task w = Some j -> UploadWorker.with_task j w = w.
Proof. destruct w. cbn. intros ->. reflexivity. Qed.

(** Jobs that differ in [rate] only: the relation composes. *)
Lemma replace_rate_trans (j j1 j2 : UpJob.t) :
  UpJob.replace_rate j1 (UpJob.rate j) = j ->
  UpJob.replace_rate j2 (UpJob.rate j1) = j1 ->
  UpJob.replace_rate j2 (UpJob.rate j) = j.
Proof.
  destruct j, j1, j2. cbn. intros H1 H2.
  injection H1 as -> -> -> -> -> -> -> -> ->. injection H2 as -> -> -> -> -> -> -> -> ->.
  reflexivity.
Qed.

(** A progress callback changes the rate of the current job and
    nothing else of the worker, and adds signals only. *)
Lemma show_progress_callback (name : string) (total now : Z)
    (s : io UploadWorker.t) (j : UpJob.t) :
  UploadWorker._task (self s) = Some j ->
  exists j' added,
    snd (UploadWorker._show_progress name total now s)
    = mkIO (UploadWorker.with_task j' (self s)) (log s ++ added)
    /\ forallb is_emission added = true
    /\ UpJob.replace_rate j' (UpJob.rate j) = j.
Proof.
  intros Hj.
  assert (Same : s = mkIO (UploadWorker.with_task j (self s)) (log s ++ []))
    by (rewrite with_task_same by exact Hj; rewrite app_nil_r; destruct s; reflexivity).
  assert (Rj : UpJob.replace_rate j (UpJob.rate j) = j) by (destruct j; reflexivity).
  unfold UploadWorker._show_progress, bindS at 1.
  destruct (show_progress name total now) as [msg|e]; cbn [fst snd];
    [|exists j, []; repeat split; assumption].
  unfold bindS at 1.
  destruct (progress_rate total now) as [rate|e]; cbn [fst snd];
    [|exists j, []; repeat split; assumption].
  unfold bindS at 1, UploadWorker.current_task, bindS at 1. cbn [get_self self fst snd].
  rewrite Hj. cbn [ret fst snd].
  unfold UploadWorker.emit_update, UploadWorker.current_task, emit, record, set_self,
    modify, bindS, get_self, ret. cbn.
  eexists (UpJob.replace_rate j rate), _. split; [rewrite <- app_assoc; reflexivity|].
  split; [reflexivity|]. destruct j; reflexivity.
Qed.

(** The same for the whole series of callbacks of one upload. *)
Lemma progress_callbacks (samples : list (string * Z * Z)) :
  forall (s : io UploadWorker.t) (j : UpJob.t),
    UploadWorker._task (self s) = Some j ->
    exists j' added,
      snd (for_in samples
             (fun sample => UploadWorker._show_progress
                              (fst (fst sample)) (snd (fst sample)) (snd sample)) s)
      = mkIO (UploadWorker.with_task j' (self s)) (log s ++ added)
      /\ forallb is_emission added = true
      /\ UpJob.replace_rate j' (UpJob.rate j) = j.
Proof.
  induction samples as [|[[name total] now] samples IH]; intros s j Hj.
  - exists j, []. cbn. rewrite with_task_same by exact Hj. rewrite app_nil_r.
    destruct s, j; repeat split.
  - cbn [for_in fst snd]. unfold bindS.
    destruct (show_progress_callback name total now s j Hj) as [j1 [a1 [E1 [F1 R1]]]].
    destruct (UploadWorker._show_progress name total now s) as [[[]|e] s1];
      cbn [snd] in E1; subst s1.
    + destruct (IH (mkIO (UploadWorker.with_task j1 (self s)) (log s ++ a1)) j1)
        as [j2 [a2 [E2 [F2 R2]]]]; [destruct (self s); reflexivity|].
      exists j2, (a1 ++ a2). rewrite E2. cbn [self log].
      split; [destruct (self s); cbn; rewrite app_assoc; reflexivity|].
      split; [rewrite forallb_app, F1, F2; reflexivity|].
      exact (replace_rate_trans j j1 j2 R1 R2).
    + exists j1, a1. cbn [snd]. repeat split; assumption.
Qed.

(** The call of [upload_file] with its callbacks and the unpacking of
    its result, under [try:]. *)
Lemma upload_attempt (disk : LanZouCloud) (s : io UploadWorker.t) (j : UpJob.t) :
  UploadWorker._task (self s) = Some j ->
  exists j' added r,
    attempt (a <~ ask_with disk UploadWorker._show_progress
                    (upload_file (UpJob.furl j) (UpJob.id j)) ;;
             as_upload a) s
    = (Ok r, mkIO (UploadWorker.with_task j' (self s))
               (log s ++ Called (upload_file (UpJob.furl j) (UpJob.id j)) :: added))
    /\ forallb is_emission added = true
    /\ UpJob.replace_rate j' (UpJob.rate j) = j
    /\ (forall code fid isfile,
          r = Ok (code, fid, isfile) ->
          outcome (respond disk (List.length (calls_in (log s)))
                     (upload_file (UpJob.furl j) (UpJob.id j)))
          = Ok (a_upload code fid isfile)).
Proof.
  intros Hj. set (c := upload_file (UpJob.furl j) (UpJob.id j)).
  unfold attempt, ask_with.
  unfold bindS at 1. unfold bindS at 1. cbn [get_state fst snd].
  set (rep := respond disk (List.length (calls_in (log s))) c).
  unfold bindS at 1. cbn [record modify fst snd self log].
  unfold bindS at 1.
  destruct (progress_callbacks (progress rep) (mkIO (self s) (log s ++ [Called c])) j Hj)
    as [j' [added [E [F R]]]].
  destruct (for_in (progress rep) _ _) as [[[]|e] s1]; cbn [snd self log] in E; subst s1.
  - destruct (outcome rep) as [a|e] eqn:Eo; cbn [ret raise].
    + destruct a; cbn [as_upload ret raise];
        eexists j', added, _; (split; [rewrite <- app_assoc; reflexivity|]);
        (split; [exact F|]); (split; [exact R|]);
        intros code' fid' isfile' Hr; try discriminate.
      injection Hr as -> -> ->. reflexivity.
    + eexists j', added, _. split; [rewrite <- app_assoc; reflexivity|].
      split; [exact F|]. split; [exact R|]. intros ? ? ? Hr. discriminate.
  - eexists j', added, _. split; [rewrite <- app_assoc; reflexivity|].
    split; [exact F|]. split; [exact R|]. intros ? ? ? Hr. discriminate.
Qed.

(** Jobs that differ in [rate] only agree on the password and the
    description, and on the flags that ask for them. *)
Lemma agree_up_to_rate (j j' : UpJob.t) :
  UpJob.replace_rate j' (UpJob.rate j) = j ->
  UpJob.set_pwd j' = UpJob.set_pwd j /\ UpJob.pwd j' = UpJob.pwd j
  /\ UpJob.set_desc j' = UpJob.set_desc j /\ UpJob.desc j' = UpJob.desc j.
Proof.
  destruct j, j'. cbn. intros H.
  injection H as -> -> -> -> -> -> -> -> ->. repeat split.
Qed.

(** A signal at the end of a log is no call of the backend. *)
Lemma calls_in_snoc_emission (l : list item) (signal : string) (args : list pyobj) :
  calls_in (l ++ [Emitted signal args]) = calls_in l.
Proof. rewrite calls_in_app. cbn. apply app_nil_r. Qed.

Ltac run_steps :=
  unfold UploadWorker.set_info, UploadWorker.emit_update, UploadWorker.current_task,
    emit, record, set_self, modify, bindS, get_self, ret, raise;
  cbn [fst snd self log UploadWorker.with_task UploadWorker._task UploadWorker._furl
       UploadWorker._tasks UploadWorker._mutex UploadWorker._is_work].

(** The calls of the backend one upload makes ([UploadWorker.run], the
    branch of a single file): first [upload_file] with the path and the
    folder id of the job; every call after it is [set_passwd] or
    [set_desc] on the uploaded file, made only when [upload_file]
    returned [SUCCESS] and the job has the flag [set_pwd], respectively
    [set_desc]. *)
Theorem upload_one_calls (disk : LanZouCloud) (s : io UploadWorker.t) (j : UpJob.t) :
  UploadWorker._task (self s) = Some j ->
  exists follow,
    calls_in (log (snd (UploadWorker.upload_one disk s)))
    = calls_in (log s) ++ Called (upload_file (UpJob.furl j) (UpJob.id j)) :: follow
    /\ forall c, In c follow ->
         exists fid isfile,
           outcome (respond disk (List.length (calls_in (log s)))
                      (upload_file (UpJob.furl j) (UpJob.id j)))
           = Ok (a_upload (SUCCESS disk) fid isfile)
           /\ ((c = Called (set_passwd fid (UpJob.pwd j) isfile) /\ UpJob.set_pwd j = true)
               \/ (c = Called (set_desc fid (UpJob.desc j) isfile) /\ UpJob.set_desc j = true)).
Proof.
  intros Hj. unfold UploadWorker.upload_one.
  unfold bindS at 1. cbn [get_self fst snd].
  unfold bindS at 1, UploadWorker.current_task at 1. unfold bindS at 1.
  cbn [get_self fst snd]. rewrite Hj. cbn [ret fst snd].
  unfold bindS at 1. cbn [emit record modify fst snd self log].
  set (e0 := Emitted "code" _).
  set (s1 := mkIO (self s) (log s ++ [e0])).
  destruct (upload_attempt disk s1 j Hj) as [j' [added [r [E [F [R Ho]]]]]].
  unfold bindS at 1. rewrite E. clear E.
  subst s1. cbn [self log] in *.
  unfold e0 in Ho. rewrite calls_in_snoc_emission in Ho.
  pose proof (calls_in_emissions added F) as Hz.
  destruct (agree_up_to_rate j j' R) as [P1 [P2 [P3 P4]]].
  set (L := (log s ++ [e0]) ++ Called (upload_file (UpJob.furl j) (UpJob.id j)) :: added).
  assert (Count : forall tail,
             calls_in (L ++ tail)
             = calls_in (log s) ++ Called (upload_file (UpJob.furl j) (UpJob.id j)) :: calls_in tail).
  { intros tail. subst L e0. rewrite !calls_in_app. cbn [calls_in filter is_call app].
    fold (calls_in added). rewrite Hz. cbn [app]. rewrite <- !app_assoc. reflexivity. }
  assert (Count0 : calls_in L
             = calls_in (log s) ++ [Called (upload_file (UpJob.furl j) (UpJob.id j))]).
  { rewrite <- (app_nil_r L). rewrite Count. reflexivity. }
  destruct r as [[[code fid] isfile]|e].
  - specialize (Ho code fid isfile eq_refl).
    run_steps.
    destruct (Z.eqb_spec code (SUCCESS disk)) as [->|Ne].
    + run_steps. cbn [UpJob.replace_info UpJob.set_pwd UpJob.set_desc UpJob.pwd UpJob.desc].
      rewrite ?P1, ?P2, ?P3, ?P4.
      destruct (UpJob.set_pwd j) eqn:Sp.
      * rewrite ask_adds_call. cbn [fst snd self log].
        destruct (outcome (respond disk _ (set_passwd _ _ _))) as [a1|e1]; cbn [fst snd self log].
        -- run_steps.
           cbn [UpJob.replace_info UpJob.set_pwd UpJob.set_desc UpJob.pwd UpJob.desc].
           rewrite ?P1, ?P2, ?P3, ?P4.
           destruct (UpJob.set_desc j) eqn:Sd.
           ++ rewrite ask_adds_call. cbn [fst snd self log].
              exists [Called (set_passwd fid (UpJob.pwd j) isfile);
                      Called (set_desc fid (UpJob.desc j) isfile)].
              split.
              ** destruct (outcome (respond disk _ (set_desc _ _ _)));
                   cbn [snd log]; rewrite <- app_assoc, Count; reflexivity.
              ** intros c [<-|[<-|[]]]; exists fid, isfile; (split; [exact Ho|]); tauto.
           ++ exists [Called (set_passwd fid (UpJob.pwd j) isfile)]. split.
              ** cbn [snd log]. rewrite Count. reflexivity.
              ** intros c [<-|[]]. exists fid, isfile. split; [exact Ho|]. tauto.
        -- exists [Called (set_passwd fid (UpJob.pwd j) isfile)]. split.
           ++ cbn [snd log]. rewrite Count. reflexivity.
           ++ intros c [<-|[]]. exists fid, isfile. split; [exact Ho|]. tauto.
      * run_steps.
        cbn [UpJob.replace_info UpJob.set_pwd UpJob.set_desc UpJob.pwd UpJob.desc].
        rewrite ?P1, ?P2, ?P3, ?P4.
        destruct (UpJob.set_desc j) eqn:Sd.
        -- rewrite ask_adds_call. cbn [fst snd self log].
           exists [Called (set_desc fid (UpJob.desc j) isfile)]. split.
           ++ destruct (outcome (respond disk _ (set_desc _ _ _)));
                cbn [snd log]; rewrite Count; reflexivity.
           ++ intros c [<-|[]]. exists fid, isfile. split; [exact Ho|]. tauto.
        -- exists []. split; [|intros c []].
           cbn [snd log]. rewrite Count0. reflexivity.
    + exists []. split; [|intros c []].
      cbn [snd log]. rewrite Count0. reflexivity.
  - exists []. split; [|intros c []].
    destruct e; run_steps; cbn [snd log]; rewrite <- ?app_assoc; rewrite ?Count;
      rewrite ?Count0; reflexivity.
Qed.

Lemma upload_one_calls_witness :
  let disk := mkDisk 0 (-1) 6 3 2 7 9
                (fun _ c => match c with
                            | upload_file _ _ => mkReply [("a.txt", 10, 10)] (Ok (a_upload 0 42 true))
                            | _ => mkReply [] (Ok (a_code 0))
                            end) in
  let job := UpJob.mk "/home/u/a.txt" (-1) "" None false 0 true "1234" false "" in
  let s := mkIO (UploadWorker.mk [("/home/u/a.txt", job)] true true "/home/u/a.txt" (Some job)) [] in
  exists follow,
    calls_in (log (snd (UploadWorker.upload_one disk s)))
    = Called (upload_file "/home/u/a.txt" (-1)) :: follow.
Proof.
  intros disk job s.
  destruct (upload_one_calls disk s job eq_refl) as [follow [E _]].
  exists follow. exact E.
Defined.

(** When the call of [upload_file] raises ([UploadWorker.run], the two
    [except] branches), be it that the backend raises or that one of the
    progress callbacks does while the call is under way, the upload
    itself returns: the job gets the text of the timeout, for
    [TimeoutError], or of the unknown error, for anything else, as its
    [info]; the record is emitted with [update], the last signal of the
    upload; and no other call of the backend follows. *)
Theorem upload_fault_is_recorded
    (disk : LanZouCloud) (s : io UploadWorker.t) (j : UpJob.t) (e : exn) :
  UploadWorker._task (self s) = Some j ->
  fst (ask_with disk UploadWorker._show_progress
         (upload_file (UpJob.furl j) (UpJob.id j))
         (mkIO (self s)
            (log s ++ [Emitted "code"
                         [o_str ("<b>INFO :</b> <font color='#00CC00'>上传文件:"
                                 ++ UploadWorker._furl (self s) ++ "</font>")%string;
                          o_int 20000]])))
  = Raise e ->
  exists j' before,
    UploadWorker.upload_one disk s
    = (Ok tt,
       mkIO (UploadWorker.with_task j' (self s))
         (before ++ [Emitted "update" [o_upjob (UploadWorker._furl (self s)) j']]))
    /\ UpJob.info j'
       = Some (InfoText match e with
                        | TimeoutError => "网络连接超时"
                        | _ => "未知错误"
                        end%string)
    /\ calls_in (before ++ [Emitted "update" [o_upjob (UploadWorker._furl (self s)) j']])
       = calls_in (log s) ++ [Called (upload_file (UpJob.furl j) (UpJob.id j))].
Proof.
  intros Hj Hraise. unfold UploadWorker.upload_one.
  unfold bindS at 1. cbn [get_self fst snd].
  unfold bindS at 1, UploadWorker.current_task at 1. unfold bindS at 1.
  cbn [get_self fst snd]. rewrite Hj. cbn [ret fst snd].
  unfold bindS at 1. cbn [emit record modify fst snd self log].
  set (e0 := Emitted "code" _) in *.
  set (s1 := mkIO (self s) (log s ++ [e0])) in *.
  destruct (upload_attempt disk s1 j Hj) as [j' [added [r [E [F [R Ho]]]]]].
  assert (Er : r = Raise e).
  { unfold attempt in E. unfold bindS at 1 in E.
    destruct (ask_with disk UploadWorker._show_progress
                (upload_file (UpJob.furl j) (UpJob.id j)) s1) as [[a|e'] s2];
      cbn [fst] in Hraise; [discriminate|].
    injection Hraise as ->. injection E as <- _. reflexivity. }
  unfold bindS at 1. rewrite E. clear E. subst r.
  subst s1. cbn [self log] in *.
  pose proof (calls_in_emissions added F) as Hz.
  set (L := (log s ++ [e0]) ++ Called (upload_file (UpJob.furl j) (UpJob.id j)) :: added).
  assert (Count : forall tail,
             calls_in (L ++ tail)
             = calls_in (log s) ++ Called (upload_file (UpJob.furl j) (UpJob.id j)) :: calls_in tail).
  { intros tail. subst L e0. rewrite !calls_in_app. cbn [calls_in filter is_call app].
    fold (calls_in added). rewrite Hz. cbn [app]. rewrite <- !app_assoc. reflexivity. }
  destruct e; run_steps; eexists _, _;
    (split; [destruct (self s); reflexivity|]); (split; [reflexivity|]);
    rewrite <- ?app_assoc; rewrite Count; reflexivity.
Qed.

Lemma upload_fault_is_recorded_witness :
  let job := UpJob.mk "/home/u/a.txt" (-1) "" None false 0 true "1234" false "" in
  let s := mkIO (UploadWorker.mk [("/home/u/a.txt", job)] true true "/home/u/a.txt" (Some job)) [] in
  let timeout := mkDisk 0 (-1) 6 3 2 7 9 (fun _ _ => mkReply [] (Raise TimeoutError)) in
  let empty := mkDisk 0 (-1) 6 3 2 7 9
                 (fun _ _ => mkReply [("a.txt", 0, 0)] (Ok (a_upload 0 42 true))) in
  (fst (UploadWorker.upload_one timeout s) = Ok tt
   /\ calls_in (log (snd (UploadWorker.upload_one timeout s)))
      = [Called (upload_file "/home/u/a.txt" (-1))])
  /\ (exists j' before,
        UploadWorker.upload_one empty s
        = (Ok tt, mkIO (UploadWorker.with_task j' (self s))
                    (before ++ [Emitted "update" [o_upjob "/home/u/a.txt" j']]))
        /\ UpJob.info j' = Some (InfoText "未知错误")).
Proof.
  intros job s timeout empty. split.
  - destruct (upload_fault_is_recorded timeout s job TimeoutError eq_refl eq_refl)
      as [j' [before [H1 [_ H4]]]].
    rewrite H1. split; [reflexivity | exact H4].
  - destruct (upload_fault_is_recorded empty s job ZeroDivisionError eq_refl eq_refl)
      as [j' [before [H1 [H2 _]]]].
    exists j', before. split; [exact H1 | exact H2].
Defined.

(* ================================================================= *)
(** ** workers.py: what the single-action workers ask of the backend *)

(** One item of [RemoveFilesWorker.run]: the call, and a message when it
    timed out. *)
Lemma RemoveFilesWorker_run_item_eq (disk : LanZouCloud) (i : Infos)
    (s : io RemoveFilesWorker.t) :
  RemoveFilesWorker.run_item disk i s
  = (Ok tt,
     mkIO (self s)
       (log s ++ Called (delete (i_id i) (i_is_file i))
          :: match outcome (respond disk (List.length (calls_in (log s)))
                              (delete (i_id i) (i_is_file i))) with
             | Raise TimeoutError =>
                 [Emitted "msg" [o_str ("删除 " ++ i_name i ++ " 因网络超时失败！")%string;
                                 o_int 3000]]
             | _ => []
             end)).
Proof.
  unfold RemoveFilesWorker.run_item, try_except. unfold bindS at 1.
  rewrite ask_adds_call.
  destruct (outcome _) as [a|e]; cbn [ret fst snd]; [reflexivity|].
  destruct e; cbn; unfold emit, record, modify; cbn; rewrite <- ?app_assoc; reflexivity.
Qed.

(** The emissions of a signal in two records put together. *)
Lemma emitted_app (signal : string) (l1 l2 : list item) :
  emitted signal (l1 ++ l2) = emitted signal l1 ++ emitted signal l2.
Proof. unfold emitted. apply flat_map_app. Qed.

(** The loop of [RemoveFilesWorker.run] over the selection. *)
Lemma RemoveFilesWorker_loop (disk : LanZouCloud) (items : list Infos) :
  forall s : io RemoveFilesWorker.t,
  exists added,
    for_in items (RemoveFilesWorker.run_item disk) s
    = (Ok tt, mkIO (self s) (log s ++ added))
    /\ calls_in added = map (fun i => Called (delete (i_id i) (i_is_file i))) items
    /\ emitted "finished" added = []
    /\ forallb is_work_item added = true
    /\ (forall args,
          In args (emitted "msg" added) <->
          exists k i,
            nth_error items k = Some i
            /\ outcome (respond disk (List.length (calls_in (log s)) + k)
                          (delete (i_id i) (i_is_file i))) = Raise TimeoutError
            /\ args = [o_str ("删除 " ++ i_name i ++ " 因网络超时失败！")%string; o_int 3000]).
Proof.
  induction items as [|i items IH]; intros s.
  - exists []. cbn. rewrite app_nil_r. destruct s. repeat split; try reflexivity.
    + intros [].
    + intros [k [i [H _]]]. destruct k; discriminate.
  - cbn [for_in]. unfold bindS. rewrite RemoveFilesWorker_run_item_eq.
    set (c := delete (i_id i) (i_is_file i)).
    set (o := outcome (respond disk (List.length (calls_in (log s))) c)).
    set (extra := match o with Raise TimeoutError => _ | _ => [] end).
    destruct (IH (mkIO (self s) (log s ++ Called c :: extra)))
      as [added [E [C [Fin [Wk M]]]]].
    cbn [self log] in E, M.
    assert (Cx : calls_in extra = []) by (subst extra; destruct o as [?|[]]; reflexivity).
    assert (Fx : emitted "finished" extra = []) by (subst extra; destruct o as [?|[]]; reflexivity).
    assert (Wx : forallb is_work_item extra = true) by (subst extra; destruct o as [?|[]]; reflexivity).
    assert (Len : List.length (calls_in (log s ++ Called c :: extra))
                  = S (List.length (calls_in (log s)))).
    { rewrite calls_in_app. cbn [calls_in filter is_call]. fold (calls_in extra).
      rewrite Cx, length_app. cbn. lia. }
    exists (Called c :: extra ++ added). rewrite E.
    split; [rewrite <- app_assoc; reflexivity|].
    split; [cbn [calls_in filter is_call map]; fold (calls_in (extra ++ added));
            rewrite calls_in_app, Cx, C; reflexivity|].
    split; [change (Called c :: extra ++ added) with ([Called c] ++ extra ++ added);
            rewrite !emitted_app, Fx, Fin; reflexivity|].
    split; [cbn [forallb]; rewrite forallb_app, Wx, Wk; reflexivity|].
    intros args.
    change (Called c :: extra ++ added) with ([Called c] ++ extra ++ added).
    rewrite !emitted_app. cbn [emitted flat_map app]. rewrite in_app_iff, M. split.
    + intros [Hx|[k [i' [Hn [Ho Ha]]]]].
      * exists O, i. cbn [nth_error]. rewrite Nat.add_0_r. fold c o.
        subst extra. destruct o as [?|[]]; cbn in Hx; try contradiction.
        destruct Hx as [<-|[]]. repeat split.
      * exists (S k), i'. cbn [nth_error]. rewrite Len in Ho.
        replace (List.length (calls_in (log s)) + S k)%nat
          with (S (List.length (calls_in (log s))) + k)%nat by lia.
        repeat split; assumption.
    + intros [k [i' [Hn [Ho Ha]]]]. destruct k as [|k].
      * cbn [nth_error] in Hn. injection Hn as <-. rewrite Nat.add_0_r in Ho.
        fold c o in Ho. left. subst extra. rewrite Ho. cbn. left. symmetry. exact Ha.
      * right. exists k, i'. cbn [nth_error] in Hn. rewrite Len.
        replace (S (List.length (calls_in (log s))) + k)%nat
          with (List.length (calls_in (log s)) + S k)%nat by lia.
        repeat split; assumption.
Qed.

(** [RemoveFilesWorker.run]: one [delete] per selected item, in the order
    of the selection, whatever the earlier ones did; a message for each
    that timed out; [finished] once, unless nothing was selected. *)
Theorem remove_deletes_each_item_once
    (disk : LanZouCloud) (w : RemoveFilesWorker.t) (l : list item) :
  RemoveFilesWorker._is_work w = false ->
  exists w' added,
    RemoveFilesWorker.run disk (mkIO w l) = (Ok tt, mkIO w' (l ++ added))
    /\ calls_in added
       = map (fun i => Called (delete (i_id i) (i_is_file i))) (RemoveFilesWorker.infos w)
    /\ emitted "finished" added
       = match RemoveFilesWorker.infos w with [] => [] | _ => [[]] end
    /\ (forall args,
          In args (emitted "msg" added) <->
          exists k i,
            nth_error (RemoveFilesWorker.infos w) k = Some i
            /\ outcome (respond disk (List.length (calls_in l) + k)
                          (delete (i_id i) (i_is_file i))) = Raise TimeoutError
            /\ args = [o_str ("删除 " ++ i_name i ++ " 因网络超时失败！")%string; o_int 3000]).
Proof.
  intros Hf.
  unfold RemoveFilesWorker.run, bindS at 1. cbn [get_self self]. rewrite Hf. cbn [negb].
  destruct (RemoveFilesWorker.infos w) as [|i0 rest] eqn:Ei.
  - eexists _, [Locked; Unlocked]. unfold record, set_self, modify, bindS. cbn.
    rewrite <- !app_assoc. split; [reflexivity|]. split; [reflexivity|].
    split; [reflexivity|]. intros args. split; [intros []|].
    intros [k [i [H _]]]. destruct k; discriminate.
  - set (s1 := mkIO (RemoveFilesWorker.lock_and_flag w) (l ++ [Locked])).
    destruct (RemoveFilesWorker_loop disk (i0 :: rest) s1) as [added [E [C [Fin [Wk M]]]]].
    unfold bindS at 1. cbn [record modify self log].
    unfold bindS at 1. cbn [set_self modify self log]. fold s1.
    unfold bindS at 1. rewrite E.
    unfold emit, record, set_self, modify, bindS. cbn [fst snd self log].
    eexists _, (Locked :: added ++ [Emitted "finished" []; Unlocked]).
    split; [subst s1; cbn [self log]; rewrite <- !app_assoc; reflexivity|].
    assert (Cl : calls_in (log s1) = calls_in l)
      by (subst s1; cbn [log]; rewrite calls_in_app; cbn; apply app_nil_r).
    rewrite Cl in M.
    split; [cbn [calls_in filter is_call]; fold (calls_in (added ++ [Emitted "finished" []; Unlocked]));
            rewrite calls_in_app, C; cbn; rewrite app_nil_r; reflexivity|].
    change (Locked :: added ++ [Emitted "finished" []; Unlocked])
      with ([Locked] ++ added ++ [Emitted "finished" []; Unlocked]).
    rewrite !emitted_app, Fin. split; [reflexivity|].
    intros args. cbn [emitted flat_map app String.eqb]. rewrite <- M.
    cbn. rewrite app_nil_r. tauto.
Qed.

Lemma remove_deletes_each_item_once_witness :
  let disk := mkDisk 0 (-1) 6 3 2 7 9
                (fun n _ => mkReply [] (if Nat.eqb n 0 then Raise TimeoutError
                                        else Ok (a_code 0))) in
  let w := RemoveFilesWorker.mk [mkInfos "a.zip" true 11 ""; mkInfos "docs" false 12 ""]
             false false in
  exists w' added,
    RemoveFilesWorker.run disk (mkIO w []) = (Ok tt, mkIO w' added)
    /\ calls_in added = [Called (delete 11 true); Called (delete 12 false)]
    /\ emitted "finished" added = [[]].
Proof.
  intros disk w.
  destruct (remove_deletes_each_item_once disk w [] eq_refl)
    as [w' [added [E [C [F _]]]]].
  exists w', added. split; [exact E|]. split; [exact C | exact F].
Defined.

(** One item of [SetPwdWorker.run]: a password of a length it refuses
    gives the message and [UserWarning]; any other is sent. *)
Lemma SetPwdWorker_run_item_eq (disk : LanZouCloud) (v : SetPwdWorker.locals)
    (i : Infos) (s : io SetPwdWorker.t) :
  SetPwdWorker.run_item disk v i s
  = if SetPwdWorker.bad_length (i_new_pwd i) (if i_is_file i then 6 else 12)
    then (Raise UserWarning,
          mkIO (self s)
            (log s ++ [Emitted "msg"
                         [o_str (if i_is_file i
                                 then "文件提取码为2-6位字符,关闭请留空！"
                                 else "文件夹提取码为0-12位字符,关闭请留空！")%string;
                          o_int 4000]]))
    else (match outcome (respond disk (List.length (calls_in (log s)))
                           (set_passwd (i_id i) (i_new_pwd i) (i_is_file i))) with
          | Ok r =>
              Ok (SetPwdWorker.mkLocals
                    (if i_is_file i then true else SetPwdWorker.has_file v)
                    (if i_is_file i then SetPwdWorker.has_folder v else true)
                    (if negb (answer_is r (SUCCESS disk)) then true
                     else SetPwdWorker.failed v)
                    (Some r))
          | Raise e => Raise e
          end,
          mkIO (self s)
            (log s ++ [Called (set_passwd (i_id i) (i_new_pwd i) (i_is_file i))])).
Proof.
  unfold SetPwdWorker.run_item. unfold bindS at 1.
  destruct (i_is_file i).
  - destruct (SetPwdWorker.bad_length (i_new_pwd i) 6).
    + unfold emit, record, modify, bindS, raise. cbn. reflexivity.
    + cbn [ret]. unfold bindS. rewrite ask_adds_call. cbn [self log].
      destruct (outcome _); reflexivity.
  - destruct (SetPwdWorker.bad_length (i_new_pwd i) 12).
    + unfold emit, record, modify, bindS, raise. cbn. reflexivity.
    + cbn [ret]. unfold bindS. rewrite ask_adds_call. cbn [self log].
      destruct (outcome _); reflexivity.
Qed.

(** The loop of [SetPwdWorker.run]: what was sent is a prefix of the
    selection, every item of it of an accepted length. *)
Lemma SetPwdWorker_loop (disk : LanZouCloud) (items : list Infos) :
  forall (v : SetPwdWorker.locals) (s : io SetPwdWorker.t),
  exists r added n,
    SetPwdWorker.run_items disk items v s = (r, mkIO (self s) (log s ++ added))
    /\ calls_in added
       = map (fun i => Called (set_passwd (i_id i) (i_new_pwd i) (i_is_file i)))
           (firstn n items)
    /\ forallb (fun i => negb (SetPwdWorker.bad_length (i_new_pwd i) (if i_is_file i then 6 else 12)))
         (firstn n items) = true
    /\ emitted "update" added = []
    /\ match r with
       | Ok v' =>
           items = firstn n items
           /\ emitted "msg" added = []
           /\ SetPwdWorker.has_file v'
              = (SetPwdWorker.has_file v || existsb i_is_file items)
           /\ SetPwdWorker.has_folder v'
              = (SetPwdWorker.has_folder v || existsb (fun i => negb (i_is_file i)) items)
           /\ (SetPwdWorker.failed v' = true <->
               SetPwdWorker.failed v = true
               \/ exists k i a,
                    nth_error items k = Some i
                    /\ outcome (respond disk (List.length (calls_in (log s)) + k)
                                  (set_passwd (i_id i) (i_new_pwd i) (i_is_file i))) = Ok a
                    /\ answer_is a (SUCCESS disk) = false)
           /\ (items <> [] -> SetPwdWorker.res v' <> None)
       | Raise e =>
           (e = UserWarning
            /\ exists i, nth_error items n = Some i
                 /\ SetPwdWorker.bad_length (i_new_pwd i) (if i_is_file i then 6 else 12) = true)
           \/ (emitted "msg" added = []
               /\ exists k i,
                    nth_error items k = Some i
                    /\ outcome (respond disk (List.length (calls_in (log s)) + k)
                                  (set_passwd (i_id i) (i_new_pwd i) (i_is_file i)))
                       = Raise e)
       end.
Proof.
  induction items as [|i items IH]; intros v s.
  - exists (Ok v), [], O. cbn. rewrite app_nil_r, !orb_false_r. destruct s.
    repeat split; try reflexivity; try tauto.
    all: try (intros [H|[k [i [a [H _]]]]]; [exact H|]; destruct k; discriminate).
    all: try (intros H; contradiction).
  - cbn [SetPwdWorker.run_items]. unfold bindS. rewrite SetPwdWorker_run_item_eq.
    set (lim := if i_is_file i then 6 else 12).
    destruct (SetPwdWorker.bad_length (i_new_pwd i) lim) eqn:Bad; subst lim.
    + eexists _, _, O. split; [reflexivity|]. cbn [firstn map forallb].
      split; [reflexivity|]. split; [reflexivity|]. split; [reflexivity|].
      left. split; [reflexivity|]. exists i. split; [reflexivity | exact Bad].
    + set (c := set_passwd (i_id i) (i_new_pwd i) (i_is_file i)).
      destruct (outcome (respond disk (List.length (calls_in (log s))) c)) as [a|e] eqn:Eo.
      * set (v1 := SetPwdWorker.mkLocals _ _ _ _).
        destruct (IH v1 (mkIO (self s) (log s ++ [Called c])))
          as [r [added [n [E [C [V [U R]]]]]]].
        cbn [self log] in E, R.
        assert (Len : List.length (calls_in (log s ++ [Called c]))
                      = S (List.length (calls_in (log s))))
          by (rewrite calls_in_app, length_app; cbn; lia).
        rewrite Len in R.
        exists r, (Called c :: added), (S n). rewrite E.
        split; [rewrite <- app_assoc; reflexivity|].
        split; [cbn [firstn map calls_in filter is_call]; fold (calls_in added);
                rewrite C; reflexivity|].
        split; [cbn [firstn forallb]; rewrite Bad, V; reflexivity|].
        split; [exact U|].
        destruct r as [v'|e].
        -- destruct R as [R1 [R2 [R3 [R4 [R5 R6]]]]].
           split; [cbn [firstn]; rewrite <- R1; reflexivity|].
           split; [exact R2|].
           split; [rewrite R3; subst v1; cbn [SetPwdWorker.has_file existsb];
                   destruct (i_is_file i), (SetPwdWorker.has_file v); reflexivity|].
           split; [rewrite R4; subst v1; cbn [SetPwdWorker.has_folder existsb];
                   destruct (i_is_file i), (SetPwdWorker.has_folder v); reflexivity|].
           split.
           ++ rewrite R5. subst v1. cbn [SetPwdWorker.failed]. split.
              ** intros [H|[k [i' [a' [Hn [Ho Ha]]]]]].
                 --- destruct (answer_is a (SUCCESS disk)) eqn:Ea; cbn [negb] in H.
                     +++ left. exact H.
                     +++ right. exists O, i, a. cbn [nth_error]. rewrite Nat.add_0_r.
                         fold c. repeat split; assumption.
                 --- right. exists (S k), i', a'. cbn [nth_error].
                     replace (List.length (calls_in (log s)) + S k)%nat
                       with (S (List.length (calls_in (log s))) + k)%nat by lia.
                     repeat split; assumption.
              ** intros [H|[k [i' [a' [Hn [Ho Ha]]]]]].
                 --- left. rewrite H. destruct (negb _); reflexivity.
                 --- destruct k as [|k].
                     +++ cbn [nth_error] in Hn. injection Hn as <-.
                         rewrite Nat.add_0_r in Ho. fold c in Ho. rewrite Eo in Ho.
                         injection Ho as <-. left. rewrite Ha. reflexivity.
                     +++ right. exists k, i', a'. cbn [nth_error] in Hn.
                         replace (S (List.length (calls_in (log s))) + k)%nat
                           with (List.length (calls_in (log s)) + S k)%nat by lia.
                         repeat split; assumption.
           ++ intros _. destruct items as [|i2 items2].
              ** cbn in E. injection E as <- _. subst v1. cbn. discriminate.
              ** apply R6. discriminate.
        -- destruct R as [[R1 [i' [Hn Hb]]]|[Rm [k [i' [Hn Ho]]]]].
           ++ left. split; [exact R1|]. exists i'. split; assumption.
           ++ right. split; [exact Rm|]. exists (S k), i'. cbn [nth_error].
              replace (List.length (calls_in (log s)) + S k)%nat
                with (S (List.length (calls_in (log s))) + k)%nat by lia.
              split; assumption.
      * exists (Raise e), [Called c], 1%nat.
        split; [reflexivity|]. cbn [firstn map forallb]. rewrite Bad.
        split; [reflexivity|]. split; [reflexivity|]. split; [reflexivity|].
        right. split; [reflexivity|]. exists O, i. cbn [nth_error]. rewrite Nat.add_0_r.
        split; [reflexivity | exact Eo].
Qed.

(** The loop of [SetPwdWorker.run] on a selection whose item [k] is the
    first of a refused length, the calls before it being answered: they
    are made, in order, and the loop is left with the message about the
    length. *)
Lemma SetPwdWorker_loop_until (disk : LanZouCloud) (k : nat) :
  forall (items : list Infos) (bad : Infos) (v : SetPwdWorker.locals)
         (s : io SetPwdWorker.t),
    nth_error items k = Some bad ->
    SetPwdWorker.bad_length (i_new_pwd bad) (if i_is_file bad then 6 else 12) = true ->
    forallb (fun i => negb (SetPwdWorker.bad_length (i_new_pwd i)
                              (if i_is_file i then 6 else 12)))
      (firstn k items) = true ->
    (forall n i, (n < k)%nat -> nth_error items n = Some i ->
       exists a, outcome (respond disk (List.length (calls_in (log s)) + n)
                            (set_passwd (i_id i) (i_new_pwd i) (i_is_file i))) = Ok a) ->
    SetPwdWorker.run_items disk items v s
    = (Raise UserWarning,
       mkIO (self s)
         (log s
          ++ map (fun i => Called (set_passwd (i_id i) (i_new_pwd i) (i_is_file i)))
               (firstn k items)
          ++ [Emitted "msg"
                [o_str (if i_is_file bad
                        then "文件提取码为2-6位字符,关闭请留空！"
                        else "文件夹提取码为0-12位字符,关闭请留空！")%string;
                 o_int 4000]])).
Proof.
  induction k as [|k IH]; intros items bad v s Hn Hb Hok Hans.
  - destruct items as [|i items]; [discriminate|]. cbn [nth_error] in Hn.
    injection Hn as ->. cbn [SetPwdWorker.run_items firstn map app].
    unfold bindS. rewrite SetPwdWorker_run_item_eq, Hb. reflexivity.
  - destruct items as [|i items]; [discriminate|]. cbn [nth_error] in Hn.
    cbn [firstn forallb] in Hok. apply andb_true_iff in Hok. destruct Hok as [Hi Hok].
    apply negb_true_iff in Hi.
    cbn [SetPwdWorker.run_items firstn map]. unfold bindS.
    rewrite SetPwdWorker_run_item_eq, Hi.
    destruct (Hans O i ltac:(lia) eq_refl) as [a Ha]. rewrite Nat.add_0_r in Ha.
    rewrite Ha.
    rewrite (IH items bad _ _ Hn Hb Hok).
    + cbn [self log]. rewrite <- app_assoc. reflexivity.
    + intros n i' Hlt Hn'. cbn [log].
      destruct (Hans (S n) i' ltac:(lia) Hn') as [a' Ha']. exists a'.
      rewrite calls_in_app, length_app. cbn [calls_in filter is_call List.length].
      replace (List.length (calls_in (log s)) + 1 + n)%nat
        with (List.length (calls_in (log s)) + S n)%nat by lia.
      exact Ha'.
Qed.

(** [SetPwdWorker.run] sends the new passwords in the order of the
    selection and stops at the first one whose length it refuses.  When
    item [k] is the first such item and the backend answers the calls
    before it, the run is this and no more: the mutex is taken, the
    passwords of the [k] items before are sent, in order, the message
    about the length is emitted, and the mutex is released, the flag
    down.  What was sent stays sent, the refused item and the items after
    it are not sent, and [update] is not emitted. *)
Theorem pwd_change_stops_at_first_invalid
    (disk : LanZouCloud) (w : SetPwdWorker.t) (l : list item) (k : nat) (bad : Infos) :
  SetPwdWorker._is_work w = false ->
  nth_error (SetPwdWorker.infos w) k = Some bad ->
  SetPwdWorker.bad_length (i_new_pwd bad) (if i_is_file bad then 6 else 12) = true ->
  forallb (fun i => negb (SetPwdWorker.bad_length (i_new_pwd i)
                            (if i_is_file i then 6 else 12)))
    (firstn k (SetPwdWorker.infos w)) = true ->
  (forall n i, (n < k)%nat -> nth_error (SetPwdWorker.infos w) n = Some i ->
     exists a, outcome (respond disk (List.length (calls_in l) + n)
                          (set_passwd (i_id i) (i_new_pwd i) (i_is_file i))) = Ok a) ->
  SetPwdWorker.run disk (mkIO w l)
  = (Ok tt,
     mkIO (SetPwdWorker.mk (SetPwdWorker.infos w) (SetPwdWorker._work_id w) false false)
       (l ++ Locked
          :: map (fun i => Called (set_passwd (i_id i) (i_new_pwd i) (i_is_file i)))
               (firstn k (SetPwdWorker.infos w))
          ++ [Emitted "msg"
                [o_str (if i_is_file bad
                        then "文件提取码为2-6位字符,关闭请留空！"
                        else "文件夹提取码为0-12位字符,关闭请留空！")%string;
                 o_int 4000];
              Unlocked])).
Proof.
  intros Hf Hn Hb Hok Hans.
  unfold SetPwdWorker.run, bindS at 1. cbn [get_self self]. rewrite Hf. cbn [negb].
  unfold bindS at 1. cbn [record modify self log].
  unfold bindS at 1. cbn [set_self modify self log].
  set (s1 := mkIO (SetPwdWorker.lock_and_flag w) (l ++ [Locked])).
  unfold bindS at 1, try_except, SetPwdWorker.run_try.
  unfold bindS at 1. cbn [get_self self s1 fst snd SetPwdWorker.lock_and_flag SetPwdWorker.infos].
  unfold bindS at 1. fold s1.
  rewrite (SetPwdWorker_loop_until disk k (SetPwdWorker.infos w) bad _ s1 Hn Hb Hok).
  - cbn [SetPwdWorker.run_except ret fst snd].
    unfold set_self, record, modify, bindS. cbn [fst snd self log s1].
    unfold SetPwdWorker.unflag_and_unlock, SetPwdWorker.lock_and_flag.
    cbn [SetPwdWorker.infos SetPwdWorker._work_id].
    rewrite <- !app_assoc. reflexivity.
  - intros n i Hlt Hi. subst s1. cbn [log].
    rewrite calls_in_app. cbn [calls_in filter is_call]. rewrite app_nil_r.
    exact (Hans n i Hlt Hi).
Qed.

Lemma pwd_change_stops_at_first_invalid_witness :
  let disk := mkDisk 0 (-1) 6 3 2 7 9 (fun _ _ => mkReply [] (Ok (a_code 0))) in
  let items := [mkInfos "a.zip" true 11 "abcd"; mkInfos "b.zip" true 12 "x";
                mkInfos "docs" false 13 "secret"] in
  SetPwdWorker.run disk (mkIO (SetPwdWorker.mk items 5 false false) [])
  = (Ok tt,
     mkIO (SetPwdWorker.mk items 5 false false)
       [Locked; Called (set_passwd 11 "abcd" true);
        Emitted "msg" [o_str "文件提取码为2-6位字符,关闭请留空！"; o_int 4000];
        Unlocked]).
Proof.
  intros disk items.
  apply (pwd_change_stops_at_first_invalid disk (SetPwdWorker.mk items 5 false false) []
           1 (mkInfos "b.zip" true 12 "x")).
  - reflexivity.
  - reflexivity.
  - reflexivity.
  - reflexivity.
  - intros n i _ _. exists (a_code 0). reflexivity.
Defined.

(** [SetPwdWorker.run], when every new password has a length it accepts
    and the backend answers each call: every item is sent, in order; one
    message follows, of success exactly when every answer was [SUCCESS];
    and [update] is emitted once, telling whether files and whether
    folders were among the items. *)
Theorem pwd_change_reports_once
    (disk : LanZouCloud) (w : SetPwdWorker.t) (l : list item) :
  SetPwdWorker._is_work w = false ->
  forallb (fun i => negb (SetPwdWorker.bad_length (i_new_pwd i)
                            (if i_is_file i then 6 else 12)))
    (SetPwdWorker.infos w) = true ->
  (forall k c, exists a, outcome (respond disk k c) = Ok a) ->
  exists w' added,
    SetPwdWorker.run disk (mkIO w l) = (Ok tt, mkIO w' (l ++ added))
    /\ calls_in added
       = map (fun i => Called (set_passwd (i_id i) (i_new_pwd i) (i_is_file i)))
           (SetPwdWorker.infos w)
    /\ emitted "update" added
       = [[o_int (SetPwdWorker._work_id w);
           o_bool (existsb i_is_file (SetPwdWorker.infos w));
           o_bool (existsb (fun i => negb (i_is_file i)) (SetPwdWorker.infos w));
           o_bool false]]
    /\ (exists args, emitted "msg" added = [args])
    /\ (emitted "msg" added = [[o_str "提取码变更成功！♬"; o_int 3000]] <->
        forall k i a,
          nth_error (SetPwdWorker.infos w) k = Some i ->
          outcome (respond disk (List.length (calls_in l) + k)
                     (set_passwd (i_id i) (i_new_pwd i) (i_is_file i))) = Ok a ->
          answer_is a (SUCCESS disk) = true).
Proof.
  intros Hf Valid Answers.
  unfold SetPwdWorker.run, bindS at 1. cbn [get_self self]. rewrite Hf. cbn [negb].
  unfold bindS at 1. cbn [record modify self log].
  unfold bindS at 1. cbn [set_self modify self log].
  set (s1 := mkIO (SetPwdWorker.lock_and_flag w) (l ++ [Locked])).
  destruct (SetPwdWorker_loop disk (SetPwdWorker.infos w)
              (SetPwdWorker.mkLocals false false false None) s1)
    as [r [added [n [E [C [V [U R]]]]]]].
  unfold bindS at 1, try_except, SetPwdWorker.run_try.
  unfold bindS at 1. cbn [get_self self s1 fst snd SetPwdWorker.lock_and_flag SetPwdWorker.infos].
  unfold bindS at 1. fold s1. rewrite E.
  assert (Cl : calls_in (log s1) = calls_in l)
    by (subst s1; cbn [log]; rewrite calls_in_app; cbn; apply app_nil_r).
  rewrite Cl in R.
  destruct r as [v'|e].
  2:{ exfalso. destruct R as [[_ [i [Hn Hb]]]|[_ [k [i [Hn Ho]]]]].
      - rewrite forallb_forall in Valid. apply nth_error_In in Hn.
        specialize (Valid i Hn). rewrite Hb in Valid. discriminate.
      - destruct (Answers (List.length (calls_in l) + k)%nat
                    (set_passwd (i_id i) (i_new_pwd i) (i_is_file i))) as [a Ha].
        rewrite Ha in Ho. discriminate. }
  destruct R as [R1 [R2 [R3 [R4 [R5 R6]]]]].
  cbn [SetPwdWorker.has_file SetPwdWorker.has_folder SetPwdWorker.failed orb] in R3, R4, R5.
  rewrite <- R1 in C.
  assert (Fail : SetPwdWorker.failed v' = false <->
                 forall k i a,
                   nth_error (SetPwdWorker.infos w) k = Some i ->
                   outcome (respond disk (List.length (calls_in l) + k)
                              (set_passwd (i_id i) (i_new_pwd i) (i_is_file i))) = Ok a ->
                   answer_is a (SUCCESS disk) = true).
  { split.
    - intros Hv k i a Hn Ho. destruct (answer_is a (SUCCESS disk)) eqn:Ea; [reflexivity|].
      assert (T : SetPwdWorker.failed v' = true)
        by (apply R5; right; exists k, i, a; repeat split; assumption).
      rewrite T in Hv. discriminate.
    - intros H. destruct (SetPwdWorker.failed v') eqn:Ef; [|reflexivity].
      destruct (proj1 R5 eq_refl) as [D|[k [i [a [Hn [Ho Ha]]]]]]; [discriminate|].
      rewrite (H k i a Hn Ho) in Ha. discriminate. }
  destruct (SetPwdWorker.failed v') eqn:Ef.
  - destruct (SetPwdWorker.res v') as [a|] eqn:Er.
    + unfold emit, record, set_self, modify, bindS, raise, SetPwdWorker.run_except, ret.
      cbn [fst snd self log]. subst s1. cbn [self log]. rewrite <- !app_assoc.
      eexists _, _. split; [reflexivity|].
      split; [rewrite !calls_in_app, C; cbn; rewrite ?app_nil_r; reflexivity|].
      rewrite !emitted_app, U, R2, R3, R4.
      split; [reflexivity|]. split; [eexists; reflexivity|].
      split; [intros H; discriminate|].
      intros H. apply Fail in H. discriminate.
    + exfalso. destruct (SetPwdWorker.infos w) as [|i0 rest] eqn:Ei.
      * destruct (proj1 R5 eq_refl) as [D|[k [i [a [Hn _]]]]]; [discriminate|].
        destruct k; discriminate.
      * apply R6; [discriminate | reflexivity].
  - unfold emit, record, set_self, modify, bindS, raise, SetPwdWorker.run_except, ret.
    cbn [fst snd self log]. subst s1. cbn [self log]. rewrite <- !app_assoc.
    eexists _, _. split; [reflexivity|].
    split; [rewrite !calls_in_app, C; cbn; rewrite ?app_nil_r; reflexivity|].
    rewrite !emitted_app, U, R2, R3, R4.
    split; [reflexivity|]. split; [eexists; reflexivity|].
    split; [intros _; apply Fail; reflexivity | reflexivity].
Qed.

Lemma pwd_change_reports_once_witness :
  let disk := mkDisk 0 (-1) 6 3 2 7 9 (fun _ _ => mkReply [] (Ok (a_code 0))) in
  let w := SetPwdWorker.mk [mkInfos "a.zip" true 11 "abcd"; mkInfos "docs" false 13 ""]
             5 false false in
  exists w' added,
    SetPwdWorker.run disk (mkIO w []) = (Ok tt, mkIO w' added)
    /\ calls_in added = [Called (set_passwd 11 "abcd" true); Called (set_passwd 13 "" false)]
    /\ emitted "update" added = [[o_int 5; o_bool true; o_bool true; o_bool false]].
Proof.
  intros disk w.
  destruct (pwd_change_reports_once disk w [] eq_refl eq_refl
              (fun _ _ => ex_intro _ (a_code 0) eq_refl))
    as [w' [added [E [C [U _]]]]].
  exists w', added. split; [exact E|]. split; [exact C | exact U].
Defined.

(** A string that counts as true is not empty. *)
Lemma truthy_str (s : string) : truthy (PyStr s) = true -> s <> "".
Proof. cbn. intros H ->. discriminate. Qed.

Ltac login_leaf bl bg :=
  eexists _, bl, bg;
  split; [rewrite <- ?app_assoc; reflexivity|];
  split; [rewrite ?calls_in_app; reflexivity|];
  split; [|split]; try (intros; discriminate); intros _.

(** [LoginLuncher.run] never raises and leaves the object as it was.  Of
    the backend it asks at most this, in this order: the login by cookie,
    when there is a cookie; the login by name and password, when the
    cookie was refused, or when there is none and both name and password
    are given; the cookie of the new session, when that login
    succeeded. *)
Theorem login_tries_cookie_first
    (disk : LanZouCloud) (w : LoginLuncher.t) (l : list item) :
  let n := List.length (calls_in l) in
  let n' := if truthy (LoginLuncher.cookie w) then S n else n in
  exists added b_login b_get,
    LoginLuncher.run disk (mkIO w l) = (Ok tt, mkIO w (l ++ added))
    /\ calls_in added
       = (if truthy (LoginLuncher.cookie w)
          then [Called (login_by_cookie (LoginLuncher.cookie w))] else [])
         ++ (if b_login : bool
             then [Called (login (LoginLuncher.username w) (LoginLuncher.password w))]
             else [])
         ++ (if b_get : bool then [Called get_cookie] else [])
    /\ (b_login = true ->
        if truthy (LoginLuncher.cookie w)
        then exists a,
               outcome (respond disk n (login_by_cookie (LoginLuncher.cookie w))) = Ok a
               /\ answer_is a (SUCCESS disk) = false
        else LoginLuncher.username w <> "" /\ LoginLuncher.password w <> "")
    /\ (b_get = true ->
        b_login = true
        /\ exists a,
             outcome (respond disk n'
                        (login (LoginLuncher.username w) (LoginLuncher.password w))) = Ok a
             /\ answer_is a (SUCCESS disk) = true)
    /\ (b_login = false -> emitted "update_cookie" added = []).
Proof.
  intros n n'. subst n n'.
  unfold LoginLuncher.run, try_except, LoginLuncher.run_try.
  unfold bindS at 1. cbn [get_self self fst snd].
  unfold bindS at 1.
  destruct (truthy (LoginLuncher.cookie w)) eqn:Tc.
  - unfold bindS at 1. rewrite ask_adds_call. cbn [self log].
    destruct (outcome (respond disk _ (login_by_cookie _))) as [a|e] eqn:Oc.
    + destruct (answer_is a (SUCCESS disk)) eqn:Ac.
      * unfold emit, record, modify, bindS, ret. cbn [fst snd self log].
        login_leaf false false. reflexivity.
      * cbn [ret fst snd]. rewrite andb_false_r.
        unfold bindS at 1. rewrite ask_adds_call. cbn [self log].
        assert (Len : List.length (calls_in (l ++ [Called (login_by_cookie (LoginLuncher.cookie w))]))
                      = S (List.length (calls_in l)))
          by (rewrite calls_in_app, length_app; cbn; lia).
        rewrite Len.
        destruct (outcome (respond disk _ (login _ _))) as [a2|e2] eqn:Ol.
        -- destruct (answer_is a2 (SUCCESS disk)) eqn:Al.
           ++ unfold emit, record, modify. unfold bindS at 1. cbn [fst snd self log].
              unfold bindS at 1. rewrite ask_adds_call. cbn [self log].
              destruct (outcome (respond disk _ get_cookie)) as [a3|e3].
              ** cbn [fst snd self log]. login_leaf true true.
                 --- exists a. split; [reflexivity | exact Ac].
                 --- split; [reflexivity|]. exists a2. split; [reflexivity | exact Al].
              ** destruct e3; unfold LoginLuncher.run_except, emit, record, modify, ret;
                   cbn [fst snd self log]; login_leaf true true;
                   solve [ exists a; split; [reflexivity | exact Ac]
                         | split; [reflexivity|]; exists a2; split; [reflexivity | exact Al] ].
           ++ unfold emit, record, modify, bindS. cbn [fst snd self log].
              login_leaf true false. exists a. split; [reflexivity | exact Ac].
        -- destruct e2; unfold LoginLuncher.run_except, emit, record, modify, ret;
             cbn [fst snd self log]; login_leaf true false;
             exists a; (split; [reflexivity | exact Ac]).
    + destruct e; unfold LoginLuncher.run_except, emit, record, modify, ret;
        cbn [fst snd self log]; login_leaf false false; reflexivity.
  - cbn [ret fst snd]. rewrite andb_true_r.
    destruct (truthy (PyStr (LoginLuncher.username w))) eqn:Tu;
      [destruct (truthy (PyStr (LoginLuncher.password w))) eqn:Tp|]; cbn [negb orb].
    + unfold bindS at 1. rewrite ask_adds_call. cbn [self log].
      destruct (outcome (respond disk _ (login _ _))) as [a2|e2] eqn:Ol.
      * destruct (answer_is a2 (SUCCESS disk)) eqn:Al.
        -- unfold emit, record, modify. unfold bindS at 1. cbn [fst snd self log].
           unfold bindS at 1. rewrite ask_adds_call. cbn [self log].
           destruct (outcome (respond disk _ get_cookie)) as [a3|e3].
           ++ cbn [fst snd self log]. login_leaf true true.
              ** split; apply truthy_str; assumption.
              ** split; [reflexivity|]. exists a2. split; [reflexivity | exact Al].
           ++ destruct e3; unfold LoginLuncher.run_except, emit, record, modify, ret;
                cbn [fst snd self log]; login_leaf true true;
                solve [ split; apply truthy_str; assumption
                      | split; [reflexivity|]; exists a2; split; [reflexivity | exact Al] ].
        -- unfold emit, record, modify, bindS. cbn [fst snd self log].
           login_leaf true false. split; apply truthy_str; assumption.
      * destruct e2; unfold LoginLuncher.run_except, emit, record, modify, ret;
          cbn [fst snd self log]; login_leaf true false;
          (split; apply truthy_str; assumption).
    + unfold emit, record, modify. cbn [fst snd self log]. login_leaf false false. reflexivity.
    + unfold emit, record, modify. cbn [fst snd self log]. login_leaf false false. reflexivity.
Qed.

(* ================================================================= *)
(** ** workers.py: the whole of [UploadWorker.run] *)

(** Signals are no uploads. *)
Lemma uploads_of_emissions (l : list item) :
  forallb is_emission l = true -> filter is_upload l = [].
Proof.
  induction l as [|i l IH]; [reflexivity|]. cbn [forallb filter].
  intros H. apply andb_true_iff in H as [Hi Hl]. destruct i; try discriminate.
  cbn. apply IH, Hl.
Qed.

(** When no follow-up call raises, the upload of one file returns, with
    one call of [upload_file]. *)
Lemma upload_one_runs (disk : LanZouCloud) (s : io UploadWorker.t) (j : UpJob.t) :
  UploadWorker._task (self s) = Some j ->
  (forall n fid pwd isfile,
      exists a, outcome (respond disk n (set_passwd fid pwd isfile)) = Ok a) ->
  (forall n fid desc isfile,
      exists a, outcome (respond disk n (set_desc fid desc isfile)) = Ok a) ->
  exists j' added,
    UploadWorker.upload_one disk s
    = (Ok tt, mkIO (UploadWorker.with_task j' (self s)) (log s ++ added))
    /\ filter is_upload added = [Called (upload_file (UpJob.furl j) (UpJob.id j))].
Proof.
  intros Hj Hp Hd. unfold UploadWorker.upload_one.
  unfold bindS at 1. cbn [get_self fst snd].
  unfold bindS at 1, UploadWorker.current_task at 1. unfold bindS at 1.
  cbn [get_self fst snd]. rewrite Hj. cbn [ret fst snd].
  unfold bindS at 1. cbn [emit record modify fst snd self log].
  set (e0 := Emitted "code" _).
  set (s1 := mkIO (self s) (log s ++ [e0])).
  destruct (upload_attempt disk s1 j Hj) as [j' [added [r [E [F [R Ho]]]]]].
  unfold bindS at 1. rewrite E. clear E Ho.
  subst s1. cbn [self log] in *.
  pose proof (uploads_of_emissions added F) as Hz.
  set (up := Called (upload_file (UpJob.furl j) (UpJob.id j))).
  assert (Same : forall x, UploadWorker.with_task x (UploadWorker.with_task j' (self s))
                           = UploadWorker.with_task x (self s))
    by (intros x; destruct (self s); reflexivity).
  assert (Count : forall tail, filter is_upload tail = [] ->
             filter is_upload ((e0 :: up :: added) ++ tail) = [up]).
  { intros tail Ht. rewrite filter_app, Ht. cbn [filter is_upload e0 up].
    rewrite Hz. reflexivity. }
  assert (Shape : forall tail,
             ((log s ++ [e0]) ++ up :: added) ++ tail
             = log s ++ (e0 :: up :: added) ++ tail)
    by (intros tail; rewrite <- !app_assoc; reflexivity).
  destruct r as [[[code fid] isfile]|e].
  - run_steps.
    destruct (Z.eqb_spec code (SUCCESS disk)) as [->|Ne].
    + run_steps. cbn [UpJob.replace_info UpJob.set_pwd UpJob.set_desc UpJob.pwd UpJob.desc].
      destruct (UpJob.set_pwd j') eqn:Sp.
      * rewrite ask_adds_call. cbn [fst snd self log].
        match goal with
        | |- context [outcome (respond disk ?n (set_passwd ?f ?p ?i))] =>
            destruct (Hp n f p i) as [a1 Ha1]; rewrite Ha1
        end.
        cbn [fst snd self log]. run_steps.
        cbn [UpJob.replace_info UpJob.set_pwd UpJob.set_desc UpJob.pwd UpJob.desc].
        destruct (UpJob.set_desc j') eqn:Sd.
        -- rewrite ask_adds_call. cbn [fst snd self log].
           match goal with
           | |- context [outcome (respond disk ?n (set_desc ?f ?p ?i))] =>
               destruct (Hd n f p i) as [a2 Ha2]
           end.
           rewrite Ha2. cbn [fst snd self log].
           eexists _, _. rewrite Same, <- app_assoc, Shape. split; [reflexivity|].
           apply Count. reflexivity.
        -- eexists _, _. rewrite Same, Shape. split; [reflexivity|].
           apply Count. reflexivity.
      * run_steps.
        cbn [UpJob.replace_info UpJob.set_pwd UpJob.set_desc UpJob.pwd UpJob.desc].
        destruct (UpJob.set_desc j') eqn:Sd.
        -- rewrite ask_adds_call. cbn [fst snd self log].
           match goal with
           | |- context [outcome (respond disk ?n (set_desc ?f ?p ?i))] =>
               destruct (Hd n f p i) as [a2 Ha2]
           end.
           rewrite Ha2. cbn [fst snd self log].
           eexists _, _. rewrite Same, Shape. split; [reflexivity|].
           apply Count. reflexivity.
        -- eexists _, _. rewrite Same, <- (app_nil_r (_ ++ up :: added)), Shape.
           split; [reflexivity|]. apply Count. reflexivity.
    + eexists _, _. rewrite Same, <- (app_nil_r (_ ++ up :: added)), Shape.
      split; [reflexivity|]. apply Count. reflexivity.
  - destruct e; run_steps; eexists _, _; rewrite Same, <- ?app_assoc;
      (split; [reflexivity|]);
      cbn [app filter is_upload e0 up]; rewrite filter_app, Hz; reflexivity.
Qed.

(** The loop of [run] over pending files that exist: one pass per job,
    and one more that finds nothing pending. *)
Lemma upload_loop_drains (fs : FileSystem) (disk : LanZouCloud)
    (tasks : PyDict.t UpJob.t) :
  (forall n fid pwd isfile,
      exists a, outcome (respond disk n (set_passwd fid pwd isfile)) = Ok a) ->
  (forall n fid desc isfile,
      exists a, outcome (respond disk n (set_desc fid desc isfile)) = Ok a) ->
  (forall furl, In furl (PyDict.keys tasks) ->
                exists_ fs furl = true /\ isdir fs furl = false) ->
  forall s : io UploadWorker.t,
    UploadWorker._tasks (self s) = tasks ->
    exists s',
      UploadWorker.run_loop fs disk (S (List.length tasks)) s = (Ok true, s')
      /\ UploadWorker._tasks (self s') = []
      /\ UploadWorker._is_work (self s') = UploadWorker._is_work (self s)
      /\ UploadWorker._mutex (self s') = UploadWorker._mutex (self s)
      /\ filter is_upload (log s')
         = filter is_upload (log s)
           ++ map (fun kv => Called (upload_file (UpJob.furl (snd kv)) (UpJob.id (snd kv))))
                tasks.
Proof.
  intros Hp Hd. induction tasks as [|[furl task] rest IH]; intros Hfs s Ht.
  - exists s. cbn [List.length UploadWorker.run_loop].
    unfold bindS at 1, UploadWorker.run_pass at 1, bindS at 1.
    cbn [get_self self fst snd]. rewrite Ht. cbn [ret fst snd map].
    rewrite app_nil_r. repeat split; try exact Ht.
  - cbn [List.length]. set (n := S (List.length rest)).
    cbn [UploadWorker.run_loop]. fold n.
    destruct (Hfs furl (or_introl eq_refl)) as [Ex Nd].
    unfold bindS at 1. unfold UploadWorker.run_pass at 1.
    unfold bindS at 1. cbn [get_self self fst snd]. rewrite Ht.
    unfold bindS at 1. cbn [set_self modify fst snd self log]. rewrite Ex, Nd. cbn [negb].
    unfold bindS at 1.
    set (s1 := mkIO (UploadWorker.with_current furl task (self s)) (log s)).
    destruct (upload_one_runs disk s1 task eq_refl Hp Hd) as [j' [added [E U]]].
    rewrite E. subst s1. cbn [self log].
    unfold bindS at 1. cbn [get_self self fst snd].
    cbn [UploadWorker.with_task UploadWorker.with_current UploadWorker._tasks
         UploadWorker._furl UploadWorker._mutex UploadWorker._is_work].
    rewrite Ht. rewrite mem_cons, String.eqb_refl. cbn [orb].
    unfold bindS at 1. cbn [set_self modify fst snd self log].
    cbn [UploadWorker.with_tasks UploadWorker._tasks UploadWorker._furl
         UploadWorker._mutex UploadWorker._is_work UploadWorker._task PyDict.remove].
    unfold UploadWorker.with_tasks, UploadWorker.with_task, UploadWorker.with_current.
    cbn [UploadWorker._tasks UploadWorker._furl UploadWorker._mutex
         UploadWorker._is_work UploadWorker._task].
    rewrite Ht. cbn [PyDict.remove]. rewrite String.eqb_refl. cbn [ret].
    set (s2 := mkIO _ _).
    destruct (IH (fun f Hf => Hfs f (or_intror Hf)) s2 eq_refl)
      as [s' [E' [T' [F' [M' L']]]]].
    exists s'. subst n. cbn [fst snd]. rewrite E'. split; [reflexivity|]. split; [exact T'|].
    subst s2. cbn [self log UploadWorker._is_work UploadWorker._mutex] in F', M', L'.
    split; [exact F'|]. split; [exact M'|].
    rewrite L', filter_app, U. cbn [map snd]. rewrite <- app_assoc. reflexivity.
Qed.

(** [UploadWorker.run], when every pending path is a file that exists and
    no follow-up call raises: the loop ends after one pass per job, each
    job has been handed to [upload_file] once, in the order of
    submission, with the [furl] and the folder of its record; nothing is
    pending, the flag is down and the mutex free. *)
Theorem upload_run_drains
    (fs : FileSystem) (disk : LanZouCloud) (w : UploadWorker.t) (l : list item) :
  UploadWorker._is_work w = false ->
  (forall furl, In furl (PyDict.keys (UploadWorker._tasks w)) ->
                exists_ fs furl = true /\ isdir fs furl = false) ->
  (forall n fid pwd isfile,
      exists a, outcome (respond disk n (set_passwd fid pwd isfile)) = Ok a) ->
  (forall n fid desc isfile,
      exists a, outcome (respond disk n (set_desc fid desc isfile)) = Ok a) ->
  exists s',
    UploadWorker.run fs disk (S (List.length (UploadWorker._tasks w))) (mkIO w l)
    = (Ok true, s')
    /\ UploadWorker._tasks (self s') = []
    /\ UploadWorker._is_work (self s') = false
    /\ UploadWorker._mutex (self s') = false
    /\ filter is_upload (log s')
       = filter is_upload l
         ++ map (fun kv => Called (upload_file (UpJob.furl (snd kv)) (UpJob.id (snd kv))))
              (UploadWorker._tasks w).
Proof.
  intros Hf Hfs Hp Hd.
  unfold UploadWorker.run.
  unfold bindS at 1. cbn [get_self self fst snd]. rewrite Hf. cbn [negb].
  unfold bindS at 1. cbn [record modify self log fst snd].
  unfold bindS at 1. cbn [set_self modify self log fst snd].
  set (s1 := mkIO (UploadWorker.lock_and_flag w) (l ++ [Locked])).
  destruct (upload_loop_drains fs disk (UploadWorker._tasks w) Hp Hd Hfs s1 eq_refl)
    as [s' [E [T [F [M L]]]]].
  unfold bindS at 1. rewrite E.
  unfold bindS, set_self, record, modify, ret. cbn [fst snd self log].
  eexists. split; [reflexivity|]. cbn [self log].
  split; [destruct (self s'); exact T|].
  split; [destruct (self s'); reflexivity|].
  split; [destruct (self s'); reflexivity|].
  rewrite filter_app, L. subst s1. cbn [log]. rewrite filter_app. cbn.
  rewrite !app_nil_r. reflexivity.
Qed.

Lemma upload_run_drains_witness :
  let disk := mkDisk 0 (-1) 6 3 2 7 9
                (fun _ c => match c with
                            | upload_file _ _ => mkReply [("a.txt", 10, 10)] (Ok (a_upload 0 42 true))
                            | _ => mkReply [] (Ok (a_code 0))
                            end) in
  let a := UpJob.mk "/home/u/a.txt" (-1) "" None false 0 true "1234" false "" in
  let b := UpJob.mk "/home/u/b.txt" 7 "" None false 0 false "" false "" in
  let fs := mkFS (fun _ => true) (fun _ => false) in
  let w := UploadWorker.mk [("/home/u/a.txt", a); ("/home/u/b.txt", b)] false false "" None in
  exists s',
    UploadWorker.run fs disk 3 (mkIO w []) = (Ok true, s')
    /\ UploadWorker._tasks (self s') = []
    /\ filter is_upload (log s')
       = [Called (upload_file "/home/u/a.txt" (-1)); Called (upload_file "/home/u/b.txt" 7)].
Proof.
  intros disk a b fs w.
  destruct (upload_run_drains fs disk w [] eq_refl
              (fun _ _ => conj eq_refl eq_refl)
              (fun _ _ _ _ => ex_intro _ (a_code 0) eq_refl)
              (fun _ _ _ _ => ex_intro _ (a_code 0) eq_refl))
    as [s' [E [T [_ [_ U]]]]].
  exists s'. split; [exact E|]. split; [exact T | exact U].
Defined.

(** What keeps the guard: the steps a method is made of. *)
Lemma keeps_ret {A : Type} (a : A) : keeps_guard (ret a).
Proof. intros s. split; reflexivity. Qed.

Lemma keeps_raise {A : Type} (e : exn) : keeps_guard (raise e : St _ A).
Proof. intros s. split; reflexivity. Qed.

Lemma keeps_get_self : keeps_guard get_self.
Proof. intros s. split; reflexivity. Qed.

Lemma keeps_get_state : keeps_guard get_state.
Proof. intros s. split; reflexivity. Qed.

Lemma keeps_lift {A : Type} (r : result A) : keeps_guard (fun s => (r, s)).
Proof. intros s. split; reflexivity. Qed.

Lemma keeps_record (i : item) : keeps_guard (record i).
Proof. intros s. split; reflexivity. Qed.

Lemma keeps_set_self (f : UploadWorker.t -> UploadWorker.t) :
  (forall w, UploadWorker._is_work (f w) = UploadWorker._is_work w
             /\ UploadWorker._mutex (f w) = UploadWorker._mutex w) ->
  keeps_guard (set_self f).
Proof. intros H s. cbn. apply H. Qed.

Lemma keeps_bind {A B : Type} (c : St (io UploadWorker.t) A)
    (k : A -> St (io UploadWorker.t) B) :
  keeps_guard c -> (forall a, keeps_guard (k a)) -> keeps_guard (bindS c k).
Proof.
  intros Hc Hk s. unfold bindS. specialize (Hc s).
  destruct (c s) as [[a|e] s1]; cbn [snd] in *; [|exact Hc].
  destruct (Hk a s1) as [H1 H2]. destruct Hc as [H3 H4].
  split; congruence.
Qed.

Lemma keeps_for_in {X : Type} (l : list X) (body : X -> St (io UploadWorker.t) unit) :
  (forall x, keeps_guard (body x)) -> keeps_guard (for_in l body).
Proof.
  intros H. induction l as [|x l IH]; cbn [for_in]; [apply keeps_ret|].
  apply keeps_bind; [apply H | intros _; exact IH].
Qed.

Lemma keeps_attempt {A : Type} (c : St (io UploadWorker.t) A) :
  keeps_guard c -> keeps_guard (attempt c).
Proof. intros H s. unfold attempt. specialize (H s). destruct (c s). exact H. Qed.

Lemma keeps_as_upload (a : answer) : keeps_guard (as_upload a).
Proof. intros s. destruct a; split; reflexivity. Qed.

(** The steps, one after the other. *)
Ltac keeps_tac :=
  repeat first
    [ apply keeps_as_upload | apply keeps_ret | apply keeps_raise | apply keeps_get_self | apply keeps_get_state
    | apply keeps_record | apply keeps_lift
    | apply keeps_set_self; intros []; split; reflexivity
    | apply keeps_attempt
    | apply keeps_for_in; intros ?
    | apply keeps_bind; [|intros ?]
    | match goal with
      | |- keeps_guard (match ?x with _ => _ end) => destruct x
      | |- keeps_guard (let '(_, _) := ?x in _) => destruct x
      end ].

Lemma keeps_show_progress (name : string) (total now : Z) :
  keeps_guard (UploadWorker._show_progress name total now).
Proof.
  unfold UploadWorker._show_progress, UploadWorker.current_task,
    UploadWorker.emit_update, UploadWorker.current_task, emit.
  keeps_tac.
Qed.

Lemma keeps_ask_with (disk : LanZouCloud) (c : call) :
  keeps_guard (ask_with disk UploadWorker._show_progress c).
Proof.
  unfold ask_with. keeps_tac; try apply keeps_show_progress.
Qed.

Lemma keeps_ask (disk : LanZouCloud) (c : call) :
  keeps_guard (ask disk c : St (io UploadWorker.t) answer).
Proof. unfold ask, ask_with. keeps_tac. Qed.

Lemma keeps_upload_one (disk : LanZouCloud) : keeps_guard (UploadWorker.upload_one disk).
Proof.
  unfold UploadWorker.upload_one, UploadWorker.set_info, UploadWorker.emit_update,
    UploadWorker.current_task, emit, as_upload.
  keeps_tac; try apply keeps_ask_with; try apply keeps_ask.
Qed.

Lemma keeps_run_pass (fs : FileSystem) (disk : LanZouCloud) :
  keeps_guard (UploadWorker.run_pass fs disk).
Proof.
  unfold UploadWorker.run_pass, emit.
  keeps_tac; try apply keeps_ask_with; try apply keeps_upload_one.
Qed.

Lemma keeps_run_loop (fs : FileSystem) (disk : LanZouCloud) (fuel : nat) :
  keeps_guard (UploadWorker.run_loop fs disk fuel).
Proof.
  induction fuel as [|n IH]; cbn [UploadWorker.run_loop]; [apply keeps_ret|].
  apply keeps_bind; [apply keeps_run_pass|]. intros []; [apply keeps_ret | exact IH | exact IH].
Qed.

(** An exception that escapes [UploadWorker.run] leaves the worker
    locked for good: the flag [_is_work] is up and the mutex taken when
    [run] raises, and from then on every [run] returns at once, doing
    nothing. *)
Theorem escaped_fault_locks_the_upload_worker
    (fs : FileSystem) (disk : LanZouCloud) (fuel : nat)
    (w : UploadWorker.t) (l : list item) (e : exn) (s' : io UploadWorker.t) :
  UploadWorker._is_work w = false ->
  UploadWorker.run fs disk fuel (mkIO w l) = (Raise e, s') ->
  UploadWorker._is_work (self s') = true
  /\ UploadWorker._mutex (self s') = true
  /\ forall (fs' : FileSystem) (disk' : LanZouCloud) (fuel' : nat),
       UploadWorker.run fs' disk' fuel' s' = (Ok true, s').
Proof.
  intros Hf Hr.
  assert (G : UploadWorker._is_work (self s') = true /\ UploadWorker._mutex (self s') = true).
  { revert Hr. unfold UploadWorker.run.
    unfold bindS at 1. cbn [get_self self fst snd]. rewrite Hf. cbn [negb].
    unfold bindS at 1. cbn [record modify self log fst snd].
    unfold bindS at 1. cbn [set_self modify self log fst snd].
    set (s1 := mkIO (UploadWorker.lock_and_flag w) (l ++ [Locked])).
    pose proof (keeps_run_loop fs disk fuel s1) as K.
    unfold bindS at 1.
    destruct (UploadWorker.run_loop fs disk fuel s1) as [[[]|e1] s2]; cbn [snd] in K.
    - unfold bindS, set_self, record, modify, ret. cbn. discriminate.
    - cbn. discriminate.
    - intros H. injection H as _ <-. exact K. }
  destruct G as [G1 G2]. split; [exact G1|]. split; [exact G2|].
  intros fs' disk' fuel'. unfold UploadWorker.run.
  unfold bindS at 1. cbn [get_self self fst snd]. rewrite G1. reflexivity.
Qed.

Lemma escaped_fault_locks_the_upload_worker_witness :
  let disk := mkDisk 0 (-1) 6 3 2 7 9 (fun _ _ => mkReply [] (Raise OtherError)) in
  let job := UpJob.mk "/home/u/photos" (-1) "" None false 0 false "" false "" in
  let fs := mkFS (fun _ => true) (fun _ => true) in
  let w := UploadWorker.mk [("/home/u/photos", job)] false false "" None in
  exists s',
    UploadWorker.run fs disk 3 (mkIO w []) = (Raise OtherError, s')
    /\ UploadWorker._tasks (self s') = [("/home/u/photos", job)]
    /\ UploadWorker.run fs disk 3 s' = (Ok true, s').
Proof.
  intros disk job fs w.
  eexists. split; [reflexivity|]. split; [reflexivity|].
  apply (escaped_fault_locks_the_upload_worker fs disk 3 w [] OtherError _ eq_refl eq_refl).
Defined.

(* ================================================================= *)
(** ** workers.py: the order of dispatch, and deleted tasks *)

(** A new key goes to the end of a dictionary. *)
Lemma set_absent {V : Type} (d : PyDict.t V) (k : string) (v : V) :
  ~ In k (PyDict.keys d) -> PyDict.set d k v = d ++ [(k, v)].
Proof.
  induction d as [|[k' v'] d IH]; cbn; intros H; [reflexivity|].
  destruct (String.eqb_spec k k') as [->|Ne]; [exfalso; apply H; left; reflexivity|].
  rewrite IH; [reflexivity|]. intros Hin. apply H. right. exact Hin.
Qed.

(** [update] with keys that are all new appends the items. *)
Lemma update_disjoint {V : Type} (o d : PyDict.t V) :
  NoDup (PyDict.keys (d ++ o)) -> PyDict.update d o = d ++ o.
Proof.
  revert d. induction o as [|[k v] o IH]; intros d H.
  - cbn. rewrite app_nil_r. reflexivity.
  - unfold PyDict.update. cbn [fold_left fst snd].
    unfold PyDict.keys in H. rewrite map_app in H. cbn [map fst] in H.
    pose proof (NoDup_remove_2 _ _ _ H) as Hk.
    rewrite set_absent.
    + fold (PyDict.update (d ++ [(k, v)]) o). rewrite IH; rewrite <- app_assoc; [reflexivity|].
      unfold PyDict.keys. rewrite map_app. exact H.
    + intros Hin. apply Hk. apply in_or_app. left. exact Hin.
Qed.

Lemma skipn_step {X : Type} (j : nat) (d : list X) (x : X) (rest : list X) :
  skipn j d = x :: rest ->
  firstn (S j) d = firstn j d ++ [x] /\ skipn (S j) d = rest /\ (j < List.length d)%nat.
Proof.
  revert d. induction j as [|j IH]; intros d H.
  - cbn in H. subst d. cbn. repeat split. lia.
  - destruct d as [|y d]; [discriminate|]. cbn [skipn] in H.
    destruct (IH d H) as [A [B C]].
    split; [change (y :: firstn (S j) d = y :: (firstn j d ++ [x])); f_equal; exact A|].
    split; [exact B | cbn; lia].
Qed.

Lemma head_not_before {V : Type} (j : nat) (d : PyDict.t V) (k : string) (v : V)
    (rest : PyDict.t V) :
  PyDict.wf d -> skipn j d = (k, v) :: rest -> ~ In k (PyDict.keys (firstn j d)).
Proof.
  unfold PyDict.wf, PyDict.keys. intros W H Hin.
  rewrite <- (firstn_skipn j d), H, map_app in W. cbn [map fst] in W.
  apply NoDup_remove_2 in W. apply W. apply in_or_app. left. exact Hin.
Qed.

Lemma combine_snoc {A B : Type} (l1 : list A) (l2 : list B) (a : A) (b : B) :
  List.length l1 = List.length l2 ->
  combine (l1 ++ [a]) (l2 ++ [b]) = combine l1 l2 ++ [(a, b)].
Proof.
  revert l2. induction l1 as [|x l1 IH]; intros [|y l2] H; try discriminate; cbn.
  - reflexivity.
  - rewrite IH; [reflexivity|]. cbn in H. lia.
Qed.

Lemma nth_error_skipn_head {X : Type} (j : nat) (d : list X) (x : X) (rest : list X) :
  skipn j d = x :: rest -> nth_error d j = Some x.
Proof.
  revert d. induction j as [|j IH]; intros d H.
  - cbn in H. subst d. reflexivity.
  - destruct d as [|y d]; [discriminate|]. cbn. apply IH. exact H.
Qed.

Lemma list_update_snoc {X : Type} (l : list X) (x : X) (f : X -> X) :
  list_update (l ++ [x]) (List.length l) f = l ++ [f x].
Proof. induction l as [|y l IH]; cbn; [reflexivity|]. rewrite IH. reflexivity. Qed.

(** A pass below the ceiling hands out the first pending job. *)
Lemma run_pass_dispatches (d : PyDict.t DlJob.t) (threads : Z) (j : nat) :
  PyDict.wf d ->
  (j < List.length d)%nat -> Z.of_nat j < threads ->
  after run_pass (dispatched d threads j true) = dispatched d threads (S j) true.
Proof.
  intros W Hj Ht.
  destruct (skipn j d) as [|[url task] rest] eqn:Sk.
  { exfalso. apply (f_equal (@List.length _)) in Sk. rewrite length_skipn in Sk.
    cbn in Sk. lia. }
  destruct (skipn_step j d _ _ Sk) as [F [S' _]].
  pose proof (head_not_before j d url task rest W Sk) as Fresh.
  pose proof (nth_error_skipn_head j d _ _ Sk) as Nth.
  unfold after, run_pass, dispatched.
  unfold bindS at 1. cbn [get_state fst snd _is_work negb _tasks].
  rewrite Sk. cbn [_thread _count].
  destruct (Z.leb_spec threads (Z.of_nat j)) as [Le|_]; [lia|].
  unfold Downloader_set_values, Downloader_start, update_object.
  unfold with_count, with_frames, with_objects, with_downloaders, with_dl_ing, with_tasks.
  repeat (unfold bindS at 1, modify at 1;
          cbn [fst snd _tasks _thread _count _is_work _mutex _dl_ing downloaders
               objects frames List.length Nat.pred list_update]).
  unfold modify.
  cbn [fst snd _tasks _thread _count _is_work _mutex _dl_ing downloaders
       objects frames PyDict.remove].
  rewrite String.eqb_refl, !list_update_snoc.
  unfold started_object.
  cbn [d_name d_url d_pwd d_save_path d_stopped d_running d_pending d_frame].
  rewrite F, S'.
  f_equal.
  - lia.
  - rewrite map_app. cbn [map fst snd]. apply set_absent.
    unfold PyDict.keys. rewrite map_map. cbn [fst]. exact Fresh.
  - unfold PyDict.keys at 2. rewrite map_app. cbn [map fst].
    rewrite seq_S, combine_snoc.
    2:{ unfold PyDict.keys. rewrite length_map, length_seq, length_firstn. lia. }
    rewrite length_map. rewrite length_firstn. replace (Nat.min j (List.length d)) with j by lia.
    apply set_absent. unfold PyDict.keys.
    intros Hin. apply Fresh.
    rewrite in_map_iff in Hin. destruct Hin as [[k a] [<- Hin]]. cbn [fst].
    apply in_combine_l in Hin. exact Hin.
  - rewrite map_app. reflexivity.
  - rewrite Nth. reflexivity.
Qed.

(** A pass at the ceiling changes nothing. *)
Lemma run_pass_waits (d : PyDict.t DlJob.t) (threads : Z) (j : nat) :
  (j < List.length d)%nat -> threads <= Z.of_nat j ->
  after run_pass (dispatched d threads j true) = dispatched d threads j true.
Proof.
  intros Hj Ht.
  destruct (skipn j d) as [|[url task] rest] eqn:Sk.
  { exfalso. apply (f_equal (@List.length _)) in Sk. rewrite length_skipn in Sk.
    cbn in Sk. lia. }
  unfold after, run_pass, dispatched.
  unfold bindS at 1. cbn [get_state fst snd _is_work negb _tasks].
  rewrite Sk. cbn [_thread _count].
  destruct (Z.leb_spec threads (Z.of_nat j)) as [_|Lt]; [|lia].
  cbn [ret snd]. reflexivity.
Qed.

(** A pass that finds nothing pending ends [run]. *)
Lemma run_pass_ends (d : PyDict.t DlJob.t) (threads : Z) (j : nat) :
  (List.length d <= j)%nat ->
  after run_pass (dispatched d threads j true) = dispatched d threads j false.
Proof.
  intros Hj.
  assert (Sk : skipn j d = []) by (apply skipn_all2; exact Hj).
  unfold after, run_pass, dispatched.
  unfold bindS at 1. cbn [get_state fst snd _is_work negb _tasks].
  rewrite Sk. unfold modify, with_work. cbn. reflexivity.
Qed.

Lemma run_pass_idle (d : PyDict.t DlJob.t) (threads : Z) (j : nat) :
  after run_pass (dispatched d threads j false) = dispatched d threads j false.
Proof. reflexivity. Qed.

Lemma play_app (es1 es2 : list event) (m : t) :
  play (es1 ++ es2) m = play es2 (play es1 m).
Proof. unfold play. apply fold_left_app. Qed.

(** Any number of passes after one submission. *)
Lemma play_passes (d : PyDict.t DlJob.t) (threads : Z) (k : nat) :
  PyDict.wf d -> 0 <= threads ->
  play (repeat RunPass k) (dispatched d threads 0 true)
  = dispatched d threads
      (Nat.min k (Nat.min (List.length d) (Z.to_nat threads)))
      (negb ((List.length d <? k)%nat && (List.length d <=? Z.to_nat threads)%nat)).
Proof.
  intros W Ht. induction k as [|k IH].
  - cbn [repeat play fold_left Nat.min Nat.ltb Nat.leb andb negb]. reflexivity.
  - change (repeat RunPass (S k)) with (RunPass :: repeat RunPass k).
    rewrite repeat_cons, play_app, IH. clear IH.
    change (play [RunPass] ?m) with (after run_pass m).
    set (n := List.length d). set (T := Z.to_nat threads).
    destruct (Nat.ltb_spec n k) as [Lk|Lk]; destruct (Nat.leb_spec n T) as [LT|LT];
      cbn [andb negb].
    + rewrite run_pass_idle.
      replace (Nat.min (S k) (Nat.min n T)) with (Nat.min k (Nat.min n T)) by lia.
      destruct (Nat.ltb_spec n (S k)); [reflexivity | lia].
    + replace (Nat.min k (Nat.min n T)) with T by lia.
      replace (Nat.min (S k) (Nat.min n T)) with T by lia.
      rewrite run_pass_waits by (subst n T; lia).
      rewrite andb_false_r. reflexivity.
    + destruct (Nat.eq_dec k n) as [->|Ne].
      * replace (Nat.min n (Nat.min n T)) with n by lia.
        replace (Nat.min (S n) (Nat.min n T)) with n by lia.
        rewrite run_pass_ends by (subst n; lia).
        destruct (Nat.ltb_spec n (S n)); [reflexivity | lia].
      * replace (Nat.min k (Nat.min n T)) with k by lia.
        replace (Nat.min (S k) (Nat.min n T)) with (S k) by lia.
        rewrite run_pass_dispatches by (try exact W; subst n T; lia).
        destruct (Nat.ltb_spec n (S k)); [lia | reflexivity].
    + rewrite andb_false_r.
      destruct (Nat.lt_ge_cases k T) as [Lt|Ge].
      * replace (Nat.min k (Nat.min n T)) with k by lia.
        replace (Nat.min (S k) (Nat.min n T)) with (S k) by lia.
        rewrite run_pass_dispatches by (try exact W; subst n T; lia). reflexivity.
      * replace (Nat.min k (Nat.min n T)) with T by lia.
        replace (Nat.min (S k) (Nat.min n T)) with T by lia.
        rewrite run_pass_waits by (subst n T; lia). reflexivity.
Qed.

Lemma add_tasks_fresh (d : PyDict.t DlJob.t) (threads : Z) :
  PyDict.wf d ->
  after (add_tasks d) (init threads) = dispatched d threads 0 true.
Proof.
  intros W. unfold after, add_tasks, init, manager_start, bindS, modify, with_tasks,
    with_frames, with_work, dispatched.
  cbn. rewrite (update_disjoint d []) by exact W. reflexivity.
Qed.

(** The loop of [DownloadManager.run] hands the pending jobs to new
    [Downloader] threads in the order of their submission, one per pass,
    up to the ceiling; what is over the ceiling stays pending, in order;
    and [run] ends in the pass that finds nothing pending. *)
Theorem jobs_are_dispatched_in_order (d : PyDict.t DlJob.t) (threads : Z) (k : nat) :
  PyDict.wf d -> 0 <= threads ->
  let m := play (AddTasks d :: repeat RunPass k) (init threads) in
  let j := Nat.min k (Nat.min (List.length d) (Z.to_nat threads)) in
  _tasks m = skipn j d
  /\ _count m = Z.of_nat j
  /\ objects m
     = map (fun kv => mkDownloader (DlJob.name (snd kv)) (DlJob.url (snd kv))
                        (DlJob.pwd (snd kv)) (DlJob.path (snd kv)) true true O O)
         (firstn j d)
  /\ _dl_ing m = map (fun kv => (fst kv, DlJob.replace_run (snd kv) true)) (firstn j d)
  /\ downloaders m = combine (PyDict.keys (firstn j d)) (seq 0 j)
  /\ (_is_work m = false <->
      (List.length d < k)%nat /\ (List.length d <= Z.to_nat threads)%nat).
Proof.
  intros W Ht m j. subst m j.
  change (play (AddTasks d :: repeat RunPass k) (init threads))
    with (play (repeat RunPass k) (after (add_tasks d) (init threads))).
  rewrite add_tasks_fresh by exact W. rewrite play_passes by assumption.
  unfold dispatched.
  cbn [_tasks _count objects _dl_ing downloaders _is_work].
  repeat split; try reflexivity.
  - destruct (Nat.ltb_spec (List.length d) k); [assumption|discriminate].
  - destruct (Nat.ltb_spec (List.length d) k) as [_|]; [|discriminate].
    destruct (Nat.leb_spec (List.length d) (Z.to_nat threads)); [assumption|discriminate].
  - intros [H1 H2].
    destruct (Nat.ltb_spec (List.length d) k); [|lia].
    destruct (Nat.leb_spec (List.length d) (Z.to_nat threads)); [reflexivity|lia].
Qed.

Lemma jobs_are_dispatched_in_order_witness :
  let job := fun u : string => DlJob.mk u u "" "/tmp" None false 0 in
  let u1 := "https://www.lanzous.com/i1" in
  let u2 := "https://www.lanzous.com/i2" in
  let u3 := "https://www.lanzous.com/i3" in
  let m := play (AddTasks [(u1, job u1); (u2, job u2); (u3, job u3)] :: repeat RunPass 5)
             (init 2) in
  _tasks m = [(u3, job u3)] /\ _count m = 2.
Proof.
  intros job u1 u2 u3 m.
  assert (W : PyDict.wf [(u1, job u1); (u2, job u2); (u3, job u3)]).
  { unfold PyDict.wf. cbn. repeat constructor; cbn; intuition discriminate. }
  destruct (jobs_are_dispatched_in_order [(u1, job u1); (u2, job u2); (u3, job u3)] 2 5
              W ltac:(lia)) as [T [C _]].
  split; [exact T | exact C].
Defined.

(** Dictionaries: a key that is not there, and one that was deleted. *)
Lemma get_absent {V : Type} (d : PyDict.t V) (k : string) :
  ~ In k (PyDict.keys d) -> PyDict.get d k = None.
Proof.
  induction d as [|[k' v] d IH]; cbn; intros H; [reflexivity|].
  destruct (String.eqb_spec k k') as [->|Ne]; [exfalso; apply H; left; reflexivity|].
  apply IH. intros Hin. apply H. right. exact Hin.
Qed.

Lemma get_remove_same {V : Type} (d : PyDict.t V) (k : string) :
  PyDict.wf d -> PyDict.get (PyDict.remove d k) k = None.
Proof.
  unfold PyDict.wf. induction d as [|[k' v] d IH]; cbn; intros W; [reflexivity|].
  inversion W as [|? ? Hk Hd]; subst.
  destruct (String.eqb_spec k k') as [->|Ne].
  - apply get_absent. exact Hk.
  - cbn. destruct (String.eqb_spec k k') as [E|_]; [contradiction|]. apply IH, Hd.
Qed.

Lemma mem_remove_same {V : Type} (d : PyDict.t V) (k : string) :
  PyDict.wf d -> PyDict.mem (PyDict.remove d k) k = false.
Proof. intros W. unfold PyDict.mem. rewrite get_remove_same by exact W. reflexivity. Qed.

Lemma mem_false_get {V : Type} (d : PyDict.t V) (k : string) :
  PyDict.mem d k = false -> PyDict.get d k = None.
Proof. unfold PyDict.mem. destruct (PyDict.get d k); [discriminate | reflexivity]. Qed.

(** [del_task] forgets a download without ending it: the thread, the
    counter and the pending jobs are as before.  From then on the url is
    unknown to the manager, so that every slot that looks it up raises
    [KeyError]: [stop_task], the slots of the rate and of the error
    signal, and [_add_thread] when the thread ends, which lowers the
    counter before it raises.  [start_task] takes the job for a new
    one. *)
Theorem deleted_task_is_out_of_reach (m : t) (task : DlJob.t) :
  PyDict.wf (downloaders m) -> PyDict.wf (_dl_ing m) ->
  let url := DlJob.url task in
  let m' := after (del_task url) m in
  (objects m' = objects m /\ _count m' = _count m /\ _tasks m' = _tasks m
   /\ running_workers m' = running_workers m)
  /\ PyDict.mem (downloaders m') url = false
  /\ PyDict.mem (_dl_ing m') url = false
  /\ stop_task task m' = (Raise KeyError, m')
  /\ (forall rate, _ahead_rate url rate m' = (Raise KeyError, m'))
  /\ (forall error, _ahead_error url error m' = (Raise KeyError, m'))
  /\ _add_thread url m' = (Raise KeyError, with_count m' (_count m - 1))
  /\ start_task task m' = add_task task m'.
Proof.
  intros Wd Wi url m'.
  assert (Md : PyDict.mem (downloaders m') url = false).
  { subst m'. unfold after, del_task, modify. cbn [snd].
    destruct (PyDict.mem (_dl_ing m) url);
      cbn [downloaders with_dl_ing];
      (destruct (PyDict.mem (downloaders m) url) eqn:Ed;
       [cbn [downloaders with_downloaders with_dl_ing]; apply mem_remove_same; exact Wd
       | cbn [downloaders with_dl_ing]; exact Ed]). }
  assert (Mi : PyDict.mem (_dl_ing m') url = false).
  { subst m'. unfold after, del_task, modify. cbn [snd].
    destruct (PyDict.mem (_dl_ing m) url) eqn:Ei;
      cbn [downloaders with_dl_ing];
      (destruct (PyDict.mem (downloaders m) url);
       cbn [_dl_ing with_downloaders with_dl_ing];
       [try (apply mem_remove_same; exact Wi); try exact Ei ..]). }
  assert (Same : objects m' = objects m /\ _count m' = _count m /\ _tasks m' = _tasks m).
  { subst m'. unfold after, del_task, modify. cbn [snd].
    destruct (PyDict.mem (_dl_ing m) url); cbn [downloaders with_dl_ing];
      destruct (PyDict.mem (downloaders m) url); repeat split. }
  destruct Same as [So [Sc St]].
  split; [repeat split; try assumption; unfold running_workers; rewrite So; reflexivity|].
  split; [exact Md|]. split; [exact Mi|].
  pose proof (mem_false_get _ _ Md) as Gd. pose proof (mem_false_get _ _ Mi) as Gi.
  split; [unfold stop_task, bindS, subscript; cbn [get_state fst snd]; fold url;
          rewrite Gd; reflexivity|].
  split; [intros rate; unfold _ahead_rate, bindS, subscript; cbn [get_state fst snd];
          rewrite Gi; reflexivity|].
  split; [intros error; unfold _ahead_error, bindS, subscript; cbn [get_state fst snd];
          rewrite Gi; reflexivity|].
  split.
  - unfold _add_thread, bindS, modify. cbn [get_state fst snd with_count downloaders].
    rewrite Md. rewrite Sc. reflexivity.
  - unfold start_task, bindS. cbn [get_state fst snd]. fold url. rewrite Md. reflexivity.
Qed.

Lemma deleted_task_is_out_of_reach_witness :
  let job := DlJob.mk "a.zip" "https://www.lanzous.com/i1" "" "/tmp" None false 0 in
  let m := play [AddTask job; RunPass] (init 3) in
  let m' := after (del_task "https://www.lanzous.com/i1") m in
  running_workers m' = 1
  /\ fst (stop_task job m') = Raise KeyError
  /\ fst (finished_delivered 0 (after (worker_returns 0) m')) = Raise KeyError.
Proof.
  intros job m m'.
  assert (W1 : PyDict.wf (downloaders m)) by (repeat constructor; intros []).
  assert (W2 : PyDict.wf (_dl_ing m)) by (repeat constructor; intros []).
  destruct (deleted_task_is_out_of_reach m job W1 W2) as [[_ [_ [_ R]]] [_ [_ [S _]]]].
  split; [exact R|]. split; [exact (f_equal fst S) | reflexivity].
Defined.

(* ================================================================= *)
(** ** tools.py: the key, and the objects [UserInfo] shares *)

(** The loop of [decrypt] with a key [ksa] on what [encrypt] made with a
    key [key]: each byte comes back changed by both. *)
Lemma decrypt_loop_two_keys (key ksa : Z) (r : list Z) :
  0 <= key < 256 -> 0 <= ksa < 256 ->
  Forall (fun v => 0 <= v < 256) r ->
  forall (cpre bpre zs : list Z) (i j : nat),
    i = List.length bpre ->
    j = List.length cpre ->
    List.length zs = List.length r ->
    for_each (decrypt_step ksa (cpre ++ enc_bytes key r)) (seq i (List.length r))
      (bpre ++ zs, j)
    = Ok (bpre ++ map (fun x => Z.lxor (Z.lxor x key) ksa) r,
          (j + List.length r * 2)%nat).
Proof.
  intros Hk Hs Hr. induction Hr as [|x r Hx Hr IH]; intros cpre bpre zs i j Hi Hj Hlen.
  - destruct zs; [|discriminate]. cbn. rewrite Nat.add_0_r. reflexivity.
  - destruct zs as [|z0 zs]; [discriminate|].
    cbn [List.length seq for_each enc_bytes decrypt_step map].
    unfold bytearray_get.
    rewrite (nth_error_at cpre _ _ j Hj). cbn [bind].
    change (cpre ++ (Z.lxor x key mod 19 + 46) :: (Z.lxor x key / 19 + 46) :: enc_bytes key r)
      with (cpre ++ [Z.lxor x key mod 19 + 46] ++ (Z.lxor x key / 19 + 46) :: enc_bytes key r).
    rewrite app_assoc.
    rewrite (nth_error_at _ _ _ (j + 1)%nat) by (rewrite length_app; cbn; lia).
    cbn [bind].
    replace ((Z.lxor x key / 19 + 46 - 46) * 19 + (Z.lxor x key mod 19 + 46 - 46))
      with (Z.lxor x key)
      by (pose proof (Z.div_mod (Z.lxor x key) 19 ltac:(lia)); lia).
    assert (Hb : 0 <= Z.lxor (Z.lxor x key) ksa < 256)
      by (apply lxor_byte; [apply lxor_byte; assumption | assumption]).
    rewrite (bytearray_set_at bpre zs z0 _ i Hi Hb). cbn [bind].
    change (bpre ++ Z.lxor (Z.lxor x key) ksa :: zs)
      with (bpre ++ [Z.lxor (Z.lxor x key) ksa] ++ zs).
    rewrite app_assoc.
    replace ((cpre ++ [Z.lxor x key mod 19 + 46]) ++ (Z.lxor x key / 19 + 46) :: enc_bytes key r)
      with ((cpre ++ [Z.lxor x key mod 19 + 46; Z.lxor x key / 19 + 46]) ++ enc_bytes key r)
      by (rewrite <- !app_assoc; reflexivity).
    rewrite (IH _ _ zs (S i) (j + 2)%nat)
      by (rewrite ?length_app; cbn in *; lia).
    rewrite <- app_assoc. cbn [app]. f_equal. f_equal. lia.
Qed.

(** [encrypt] with any key of one byte returns the text of [enc_bytes]. *)
Lemma encrypt_any_key (key : Z) (s : string) :
  0 <= key < 256 ->
  exists c, encrypt key s = Ok c /\ encode_utf8 c = enc_bytes key (encode_utf8 s).
Proof.
  intros Hk. unfold encrypt.
  pose proof (encrypt_loop key (encode_utf8 s) Hk (encode_utf8_in_range s)
                [] (bytearray (List.length (encode_utf8 s) * 2)) O eq_refl) as H.
  cbn [app] in H. rewrite H by (unfold bytearray; apply repeat_length).
  cbn [bind fst app].
  pose proof (enc_bytes_range key (encode_utf8 s) Hk (encode_utf8_in_range s)) as Hr.
  unfold decode_utf8. rewrite ascii_bytes_valid.
  - eexists. split; [reflexivity|]. apply encode_decode_bytes.
    eapply Forall_impl; [|exact Hr]. cbn. intros; lia.
  - eapply Forall_impl; [|exact Hr]. cbn. intros; lia.
Qed.

(** Two keys that leave a byte as it was are the same key. *)
Lemma lxor_other_key (x key ksa : Z) :
  Z.lxor (Z.lxor x key) ksa = x -> key = ksa.
Proof.
  intros H. rewrite Z.lxor_assoc in H.
  assert (Z0' : Z.lxor key ksa = 0).
  { apply (f_equal (Z.lxor x)) in H. rewrite <- (Z.lxor_assoc x x) in H.
    rewrite Z.lxor_nilpotent, Z.lxor_0_l in H. exact H. }
  apply Z.lxor_eq. exact Z0'.
Qed.

(** [decrypt] with the key of [encrypt], whatever byte it is, gives the
    text back; with another key it either raises or gives a text every
    byte of which differs from the original's, never the text itself
    unless that is empty. *)
Theorem decrypt_needs_the_key (key ksa : Z) (s c : string) :
  0 <= key < 256 -> 0 <= ksa < 256 ->
  is_str s -> encrypt key s = Ok c ->
  (ksa = key -> decrypt ksa c = Ok s)
  /\ (decrypt ksa c = Raise UnicodeDecodeError
      \/ exists s',
           decrypt ksa c = Ok s'
           /\ encode_utf8 s' = map (fun x => Z.lxor (Z.lxor x key) ksa) (encode_utf8 s))
  /\ (ksa <> key -> s <> "" -> decrypt ksa c <> Ok s).
Proof.
  intros Hk Hs Hstr He. destruct (encrypt_any_key key s Hk) as [c' [He' Hc]].
  rewrite He in He'. injection He' as <-.
  assert (D : decrypt ksa c
              = decode_utf8 (map (fun x => Z.lxor (Z.lxor x key) ksa) (encode_utf8 s))).
  { unfold decrypt. rewrite Hc, enc_bytes_length.
    rewrite Nat.Div0.mod_mul. cbn [Nat.eqb negb].
    rewrite Nat.div_mul by lia.
    pose proof (decrypt_loop_two_keys key ksa (encode_utf8 s) Hk Hs (encode_utf8_in_range s)
                  [] [] (bytearray (List.length (encode_utf8 s))) O O eq_refl eq_refl) as H.
    cbn [app] in H. rewrite H by (unfold bytearray; apply repeat_length).
    reflexivity. }
  assert (Range : Forall (fun v => 0 <= v < 256)
                    (map (fun x => Z.lxor (Z.lxor x key) ksa) (encode_utf8 s))).
  { apply Forall_map. eapply Forall_impl; [|apply encode_utf8_in_range].
    cbn. intros x Hx. apply lxor_byte; [apply lxor_byte; assumption | assumption]. }
  split; [|split].
  - intros ->. rewrite D.
    replace (map (fun x => Z.lxor (Z.lxor x key) key) (encode_utf8 s)) with (encode_utf8 s).
    + unfold decode_utf8. rewrite Hstr, decode_encode_bytes. reflexivity.
    + rewrite <- (map_id (encode_utf8 s)) at 1. apply map_ext. intros x.
      symmetry. apply lxor_twice.
  - rewrite D. unfold decode_utf8.
    destruct (utf8_valid _); [right | left; reflexivity].
    eexists. split; [reflexivity|]. apply encode_decode_bytes. exact Range.
  - intros Ne Hne. rewrite D. unfold decode_utf8.
    destruct (utf8_valid _); [|discriminate].
    intros H. injection H as H.
    apply (f_equal encode_utf8) in H. rewrite encode_decode_bytes in H by exact Range.
    destruct s as [|a s]; [apply Hne; reflexivity|].
    cbn in H. injection H as H _. apply Ne. symmetry. apply (lxor_other_key _ _ _ H).
Qed.

Lemma decrypt_needs_the_key_witness :
  (exists c, encrypt 7 "pass" = Ok c /\ decrypt 7 c = Ok "pass" /\ decrypt 8 c <> Ok "pass").
Proof.
  destruct (encrypt_any_key 7 "pass" ltac:(lia)) as [c [E _]].
  assert (S : is_str "pass") by reflexivity.
  destruct (decrypt_needs_the_key 7 7 "pass" c ltac:(lia) ltac:(lia) S E) as [A _].
  destruct (decrypt_needs_the_key 7 8 "pass" c ltac:(lia) ltac:(lia) S E) as [_ [_ B]].
  exists c. split; [exact E|]. split; [apply A; reflexivity|].
  apply B; [lia | discriminate].
Defined.

(** Lists and dictionaries updated at one place. *)
Lemma set_middle {V : Type} (pre rest : PyDict.t V) (k : string) (v c : V) :
  ~ In k (PyDict.keys pre) ->
  PyDict.set (pre ++ (k, v) :: rest) k c = pre ++ (k, c) :: rest.
Proof.
  induction pre as [|[k' v'] pre IH]; cbn; intros H.
  - rewrite String.eqb_refl. reflexivity.
  - destruct (String.eqb_spec k k') as [->|Ne]; [exfalso; apply H; left; reflexivity|].
    rewrite IH; [reflexivity|]. intros Hin. apply H. right. exact Hin.
Qed.

Lemma list_update_at {X : Type} (l : list X) (i : nat) (f g : X -> X) (x : X) :
  nth_error l i = Some x -> f x = g x -> list_update l i f = list_update l i g.
Proof.
  revert i. induction l as [|y l IH]; intros [|i] H E; cbn in *; try discriminate.
  - injection H as ->. rewrite E. reflexivity.
  - rewrite (IH i H E). reflexivity.
Qed.

Lemma list_update_same {X : Type} (l : list X) (i : nat) (x : X) :
  nth_error l i = Some x -> list_update l i (fun _ => x) = l.
Proof.
  revert i. induction l as [|y l IH]; intros [|i] H; cbn in *; try discriminate.
  - injection H as ->. reflexivity.
  - rewrite (IH i H). reflexivity.
Qed.

Lemma length_list_update {X : Type} (l : list X) (i : nat) (f : X -> X) :
  List.length (list_update l i f) = List.length l.
Proof.
  revert i. induction l as [|y l IH]; intros [|i]; cbn; try reflexivity.
  rewrite IH. reflexivity.
Qed.

(** The loop of [encode] over the items that are left, on the
    dictionary at [a]. *)
Lemma encode_loop (a : nat) (rest : PyDict.t string) :
  forall (pre : PyDict.t string) (h : Shared.store),
    nth_error h a = Some (pre ++ rest) ->
    NoDup (PyDict.keys (pre ++ rest)) ->
    exists rest',
      for_in rest (fun kv => c <~ Shared.pure (encrypt KEY (snd kv)) ;;
                             Shared.assign a (fst kv) c) h
      = (Ok tt, list_update h a (fun _ => pre ++ rest'))
      /\ Forall2 (fun kv kv' => fst kv' = fst kv /\ encrypt KEY (snd kv) = Ok (snd kv'))
           rest rest'.
Proof.
  induction rest as [|[k v] rest IH]; intros pre h Hh Nd.
  - exists []. cbn [for_in ret]. rewrite (list_update_same h a _ Hh). split; constructor.
  - destruct (encrypt_spec v) as [c [Ec _]].
    assert (Fresh : ~ In k (PyDict.keys pre)).
    { unfold PyDict.keys in Nd. rewrite map_app in Nd. cbn [map fst] in Nd.
      apply NoDup_remove_2 in Nd. intros Hin. apply Nd. apply in_or_app. left. exact Hin. }
    cbn [for_in fst snd]. unfold bindS at 1. unfold bindS at 1.
    unfold Shared.pure at 1. rewrite Ec. unfold Shared.assign at 1, modify.
    set (h1 := list_update h a (fun d => PyDict.set d k c)).
    assert (E1 : h1 = list_update h a (fun _ => (pre ++ [(k, c)]) ++ rest)).
    { subst h1. apply (list_update_at h a _ _ _ Hh).
      rewrite set_middle by exact Fresh. rewrite <- app_assoc. reflexivity. }
    destruct (IH (pre ++ [(k, c)]) h1) as [rest' [E R]].
    + rewrite E1.
      exact (nth_error_list_update h a (fun _ => (pre ++ [(k, c)]) ++ rest) _ Hh).
    + unfold PyDict.keys in *. rewrite <- app_assoc. rewrite !map_app in *. exact Nd.
    + exists ((k, c) :: rest'). rewrite E. split.
      * rewrite E1, list_update_twice. rewrite <- app_assoc. reflexivity.
      * constructor; [split; [reflexivity | exact Ec] | exact R].
Qed.

(** The loop of [decode] over items that [encode] made, into the
    dictionary at [b]. *)
Lemma decode_loop (b : nat) (rest rest' : PyDict.t string) :
  Forall2 (fun kv kv' => fst kv' = fst kv /\ encrypt KEY (snd kv) = Ok (snd kv'))
    rest rest' ->
  Forall (fun kv => is_str (snd kv)) rest ->
  forall (acc : PyDict.t string) (h : Shared.store),
    nth_error h b = Some acc ->
    NoDup (PyDict.keys (acc ++ rest)) ->
    for_in rest' (fun kv => p <~ Shared.pure (decrypt KEY (snd kv)) ;;
                            Shared.assign b (fst kv) p) h
    = (Ok tt, list_update h b (fun _ => acc ++ rest)).
Proof.
  induction 1 as [|[k v] [k' c] rest rest' [Hk Hc] R IH]; intros Hs acc h Hh Nd.
  - cbn [for_in ret]. rewrite app_nil_r. rewrite (list_update_same h b _ Hh). reflexivity.
  - cbn [fst snd] in Hk, Hc. subst k'.
    inversion Hs as [|? ? Hv Hs']; subst. cbn [snd] in Hv.
    assert (Fresh : ~ In k (PyDict.keys acc)).
    { unfold PyDict.keys in Nd. rewrite map_app in Nd. cbn [map fst] in Nd.
      apply NoDup_remove_2 in Nd. intros Hin. apply Nd. apply in_or_app. left. exact Hin. }
    cbn [for_in fst snd]. unfold bindS at 1. unfold bindS at 1.
    unfold Shared.pure at 1. rewrite (decrypt_encrypt v c Hv Hc).
    unfold Shared.assign at 1, modify.
    set (h1 := list_update h b (fun d => PyDict.set d k v)).
    assert (E1 : h1 = list_update h b (fun _ => acc ++ [(k, v)])).
    { subst h1. apply (list_update_at h b _ _ _ Hh). apply set_absent. exact Fresh. }
    rewrite (IH Hs' (acc ++ [(k, v)]) h1).
    + rewrite E1, list_update_twice, <- app_assoc. reflexivity.
    + rewrite E1.
      exact (nth_error_list_update h b (fun _ => acc ++ [(k, v)]) _ Hh).
    + unfold PyDict.keys in *. rewrite <- app_assoc. rewrite !map_app in *. exact Nd.
Qed.

(** [UserInfo.encode] on a dictionary returns the dictionary it was
    given, with every value replaced by its cipher: the caller's object
    no longer holds the plain values.  [decode] on it returns a new
    dictionary with the plain items, in their order, and leaves the
    encrypted one as it is. *)
Theorem encode_overwrites_the_callers_dict
    (h : Shared.store) (a : nat) (d : PyDict.t string) :
  nth_error h a = Some d ->
  PyDict.wf d ->
  Forall (fun kv => is_str (snd kv)) d ->
  exists d',
    Shared.encode (Shared.RDict a) h
    = (Ok (Shared.RDict a), list_update h a (fun _ => d'))
    /\ Forall2 (fun kv kv' => fst kv' = fst kv /\ encrypt KEY (snd kv) = Ok (snd kv')) d d'
    /\ Shared.decode (Shared.RDict a) (list_update h a (fun _ => d'))
       = (Ok (Shared.RDict (List.length h)), list_update h a (fun _ => d') ++ [d]).
Proof.
  intros Hh W Hs.
  destruct (encode_loop a d [] h Hh W) as [d' [E R]]. cbn [app] in E.
  exists d'. split; [|split; [exact R|]].
  - unfold Shared.encode. unfold bindS at 1. unfold Shared.deref at 1. rewrite Hh.
    unfold bindS at 1. rewrite E. reflexivity.
  - set (h1 := list_update h a (fun _ => d')).
    assert (L1 : List.length h1 = List.length h) by apply length_list_update.
    assert (Lt : (a < List.length h)%nat) by (apply nth_error_Some; rewrite Hh; discriminate).
    unfold Shared.decode, try_except.
    unfold bindS at 1. unfold Shared.new_dict at 1. rewrite L1.
    unfold bindS at 1. unfold Shared.deref at 1.
    assert (Lt1 : (a < List.length h1)%nat)
      by (unfold h1; rewrite length_list_update; exact Lt).
    rewrite nth_error_app1 by exact Lt1.
    clear Lt1. subst h1. rewrite (nth_error_list_update h a (fun _ => d') _ Hh).
    set (h1 := list_update h a (fun _ => d')).
    unfold bindS at 1.
    rewrite (decode_loop (List.length h) d d' R Hs [] (h1 ++ [[]])).
    + cbn [ret app]. f_equal. rewrite <- L1. rewrite list_update_snoc. reflexivity.
    + assert (L2 : List.length h1 = List.length h)
        by (unfold h1; apply length_list_update).
      rewrite nth_error_app2 by (rewrite L2; apply Nat.le_refl).
      rewrite L2, Nat.sub_diag. reflexivity.
    + exact W.
Qed.

Lemma encode_overwrites_the_callers_dict_witness :
  exists d',
    Shared.encode (Shared.RDict 0) [[("ylogin", "1"); ("phpdisk_info", "abc")]]
    = (Ok (Shared.RDict 0), [d'])
    /\ Shared.decode (Shared.RDict 0) [d']
       = (Ok (Shared.RDict 1), [d'; [("ylogin", "1"); ("phpdisk_info", "abc")]]).
Proof.
  assert (W : PyDict.wf [("ylogin", "1"); ("phpdisk_info", "abc")])
    by (repeat constructor; cbn; intuition discriminate).
  assert (S : Forall (fun kv : string * string => is_str (snd kv))
                [("ylogin", "1"); ("phpdisk_info", "abc")])
    by (repeat constructor).
  destruct (encode_overwrites_the_callers_dict
              [[("ylogin", "1"); ("phpdisk_info", "abc")]] 0 _ eq_refl W S)
    as [d' [E [_ D]]].
  exists d'. split; [exact E | exact D].
Defined.

(** A string or [None] that [encode] has stored reads back as itself,
    but the empty string as [None]; no object is touched. *)
Lemma encode_plain_value (v : Shared.ref) (h : Shared.store) :
  match v with
  | Shared.RDict _ => False
  | Shared.RStr s => is_str s
  | Shared.RNone => True
  end ->
  exists e,
    Shared.encode v h = (Ok e, h)
    /\ Shared.decode e h
       = (Ok match v with
             | Shared.RStr s => if String.eqb s "" then Shared.RNone else v
             | _ => v
             end, h).
Proof.
  destruct v as [|s|a]; intros Hv; [| |contradiction].
  - exists Shared.RNone. split; reflexivity.
  - cbn [Shared.encode]. destruct (String.eqb s "") eqn:Es; cbn [negb].
    + exists (Shared.RStr s). split; [reflexivity|].
      unfold Shared.decode, try_except. rewrite Es. reflexivity.
    + destruct (encrypt_spec s) as [c [Ec _]].
      exists (Shared.RStr c). unfold bindS, Shared.pure. rewrite Ec. split; [reflexivity|].
      unfold Shared.decode, try_except. rewrite (encrypt_nonempty s c Ec Es). cbn [negb].
      unfold bindS, Shared.pure. rewrite (decrypt_encrypt s c Hv Ec). reflexivity.
Qed.

(** [UserInfo.set_infos] with strings and [None]s: the fields that
    [infos] names are replaced and read back as what was given ([None]
    for the empty string); the fields it does not name, and the settings,
    are left as they are. *)
Theorem set_infos_replaces_the_named_fields
    (u : Shared.t) (infos : PyDict.t Shared.ref) (h : Shared.store) :
  (forall k v, PyDict.get infos k = Some v ->
               match v with
               | Shared.RDict _ => False
               | Shared.RStr s => is_str s
               | Shared.RNone => True
               end) ->
  let given := fun v : Shared.ref =>
                 match v with
                 | Shared.RStr s => if String.eqb s "" then Shared.RNone else v
                 | _ => v
                 end in
  exists u',
    Shared.set_infos u infos h = (Ok u', h)
    /\ match PyDict.get infos "name" with
       | Some v => Shared.name u' h = (Ok (given v), h)
       | None => Shared._username u' = Shared._username u
       end
    /\ match PyDict.get infos "pwd" with
       | Some v => Shared.pwd u' h = (Ok (given v), h)
       | None => Shared._pwd u' = Shared._pwd u
       end
    /\ match PyDict.get infos "cookie" with
       | Some v => Shared.cookie u' h = (Ok (given v), h)
       | None => Shared._cookie u' = Shared._cookie u
       end
    /\ Shared.settings u' = Shared.settings u.
Proof.
  intros Hv given. unfold Shared.set_infos, Shared.name, Shared.pwd, Shared.cookie.
  pose proof (Hv "name") as Hn. pose proof (Hv "pwd") as Hp. pose proof (Hv "cookie") as Hc.
  destruct (PyDict.get infos "name") as [vn|];
    [destruct (encode_plain_value vn h (Hn _ eq_refl)) as [en [En Dn]]|];
    (destruct (PyDict.get infos "pwd") as [vp|];
     [destruct (encode_plain_value vp h (Hp _ eq_refl)) as [ep [Ep Dp]]|]);
    (destruct (PyDict.get infos "cookie") as [vc|];
     [destruct (encode_plain_value vc h (Hc _ eq_refl)) as [ec [Ec Dc]]|]);
    unfold bindS; rewrite ?En; cbn [ret fst snd];
    rewrite ?Ep; cbn [ret fst snd]; rewrite ?Ec; cbn [ret fst snd];
    eexists; (split; [reflexivity|]);
    cbn [Shared._username Shared._pwd Shared._cookie Shared._settings Shared.settings];
    repeat split; assumption.
Qed.

Lemma set_infos_replaces_the_named_fields_witness :
  let u := Shared.mk Shared.RNone Shared.RNone Shared.RNone (Shared.RDict 0) in
  exists u',
    Shared.set_infos u [("name", Shared.RStr "user"); ("pwd", Shared.RStr "")] [[]]
    = (Ok u', [[]])
    /\ Shared.name u' [[]] = (Ok (Shared.RStr "user"), [[]])
    /\ Shared.pwd u' [[]] = (Ok Shared.RNone, [[]])
    /\ Shared._cookie u' = Shared.RNone.
Proof.
  intros u.
  assert (Hv : forall k v,
             PyDict.get [("name", Shared.RStr "user"); ("pwd", Shared.RStr "")] k = Some v ->
             match v with
             | Shared.RDict _ => False
             | Shared.RStr s => is_str s
             | Shared.RNone => True
             end).
  { intros k v. cbn. destruct (String.eqb k "name"); [intros H; injection H as <-; reflexivity|].
    destruct (String.eqb k "pwd"); [intros H; injection H as <-; reflexivity|discriminate]. }
  destruct (set_infos_replaces_the_named_fields u _ [[]] Hv) as [u' [E [N [P [C _]]]]].
  exists u'. split; [exact E|]. split; [exact N|]. split; [exact P | exact C].
Defined.

(* ================================================================= *)
(** ** workers.py: Downloader *)

Section DownloaderFacts.
Import Api.

Lemma api_calls_in_app (l1 l2 : list item) :
  calls_in (l1 ++ l2) = calls_in l1 ++ calls_in l2.
Proof. unfold calls_in. apply filter_app. Qed.

Lemma api_calls_in_emissions (l : list item) :
  forallb is_emission l = true -> calls_in l = [].
Proof.
  induction l as [|i l IH]; [reflexivity|]. cbn [forallb]. intros H.
  apply andb_true_iff in H as [Hi Hl]. destruct i; try discriminate.
  cbn. apply IH, Hl.
Qed.

(** The callbacks of one download, up to the first that raises. *)
Lemma Downloader_callbacks_forwarded (folder : bool)
    (on_failed : option (Z -> entry -> St (io Downloader.t) unit)) (cs : list callback) :
  on_failed = (if folder then Some Downloader._down_failed else None) ->
  forall s : io Downloader.t,
  exists r n,
    for_in cs
      (fun c => match c with
                | Progress file_name total_size now_size =>
                    Downloader._show_progress file_name total_size now_size
                | Failed code file =>
                    match on_failed with
                    | Some f => f code file
                    | None => ret tt
                    end
                end) s
    = (r, mkIO (self s)
            (log s ++ flat_map (Downloader.forwarded (Downloader.url (self s)) folder)
                        (firstn n cs)))
    /\ forallb (fun c => match Downloader.raised c with None => true | Some _ => false end)
         (firstn n cs) = true
    /\ ((n = List.length cs /\ r = Ok tt)
        \/ exists c e, nth_error cs n = Some c /\ Downloader.raised c = Some e /\ r = Raise e).
Proof.
  intros Hf. induction cs as [|c cs IH]; intros s.
  - exists (Ok tt), O. cbn. rewrite app_nil_r. destruct s. split; [reflexivity|].
    split; [reflexivity|]. left. split; reflexivity.
  - cbn [for_in]. unfold bindS.
    destruct (Downloader.raised c) as [e|] eqn:Er.
    + exists (Raise e), O. cbn [firstn flat_map forallb]. rewrite app_nil_r.
      split.
      * destruct c as [fn t nw|code file]; [|discriminate]. cbn [Downloader.raised] in Er.
        unfold Downloader._show_progress, bindS.
        destruct (show_progress fn t nw) as [m|e1].
        -- cbn [get_self fst snd]. destruct (progress_rate t nw) as [rate|e2]; [discriminate|].
           injection Er as ->. destruct s; reflexivity.
        -- injection Er as ->. destruct s; reflexivity.
      * split; [reflexivity|]. right. exists c, e. repeat split. exact Er.
    + assert (Step : match c with
                     | Progress file_name total_size now_size =>
                         Downloader._show_progress file_name total_size now_size
                     | Failed code file =>
                         match on_failed with
                         | Some f => f code file
                         | None => ret tt
                         end
                     end s
                     = (Ok tt, mkIO (self s)
                                 (log s ++ Downloader.forwarded (Downloader.url (self s))
                                             folder c))).
      { destruct c as [fn t nw|code file].
        - cbn [Downloader.raised] in Er. cbn [Downloader.forwarded].
          unfold Downloader._show_progress, bindS.
          destruct (show_progress fn t nw) as [m|e1]; [|discriminate].
          cbn [get_self fst snd]. destruct (progress_rate t nw) as [rate|e2]; [|discriminate].
          unfold emit, record, modify. cbn [fst snd self log].
          rewrite <- app_assoc. reflexivity.
        - subst on_failed. cbn [Downloader.forwarded]. destruct folder.
          + reflexivity.
          + cbn. rewrite app_nil_r. destruct s; reflexivity. }
      rewrite Step.
      destruct (IH (mkIO (self s)
                      (log s ++ Downloader.forwarded (Downloader.url (self s)) folder c)))
        as [r [n [E [F D]]]].
      cbn [self log] in E. rewrite E.
      exists r, (S n). cbn [firstn flat_map forallb]. rewrite Er, F.
      split; [rewrite <- app_assoc; reflexivity|]. split; [reflexivity|].
      destruct D as [[-> ->]|[c' [e [Hn [Hr ->]]]]].
      * left. split; reflexivity.
      * right. exists c', e. repeat split; assumption.
Qed.

(** [Downloader.run] never raises and leaves the object as it is.  On a
    url that is neither of a file nor of a folder it does nothing at all.
    On any other it makes one call of the backend, [down_file_by_url]
    for the url of a file and [down_dir_by_url] otherwise, and passes on
    what the callbacks report, in their order, up to the first that
    raises: for a progress sample the rate, then the message; for a file
    of a folder that failed, [folder_file_failed].  It ends with one
    verdict.  When every callback has returned, the verdict is the full
    rate when the call returned [0], [download_failed] with what it
    returned otherwise, and [download_failed] with a text when the call
    raised.  When a callback has raised, the later ones are not called
    and the verdict is [download_failed] with the text for what was
    raised. *)
Theorem download_ends_with_one_verdict
    (utils : Utils) (disk : LanZouCloud) (w : Downloader.t) (l : list item) :
  let u := Downloader.url w in
  let folder := negb (is_file_url utils u) in
  let r := if is_file_url utils u
           then down_file_by_url u (Downloader.pwd w) (Downloader.save_path w)
           else down_dir_by_url u (Downloader.pwd w) (Downloader.save_path w) in
  let rep := respond disk (List.length (calls_in l)) r in
  let failed := fun e : exn =>
                  Emitted "download_failed"
                    [g_str u;
                     match e with
                     | TimeoutError => g_str "网络连接错误！"
                     | _ => g_fmt "未知错误！{}" (g_exn e)
                     end] in
  if is_file_url utils u || is_folder_url utils u
  then exists n verdict,
         Downloader.run utils disk (mkIO w l)
         = (Ok tt,
            mkIO w (l ++ Called r
                      :: flat_map (Downloader.forwarded u folder) (firstn n (callbacks rep))
                      ++ [verdict]))
         /\ forallb (fun c => match Downloader.raised c with None => true | Some _ => false end)
              (firstn n (callbacks rep)) = true
         /\ ((n = List.length (callbacks rep)
              /\ verdict = match outcome rep with
                           | Ok res =>
                               if answer_is res 0
                               then Emitted "download_rate" [g_str u; g_int 1000]
                               else Emitted "download_failed" [g_str u; g_answer res]
                           | Raise e => failed e
                           end)
             \/ exists c e,
                  nth_error (callbacks rep) n = Some c
                  /\ Downloader.raised c = Some e
                  /\ verdict = failed e)
  else Downloader.run utils disk (mkIO w l) = (Ok tt, mkIO w l).
Proof.
  intros u folder r rep failed.
  assert (Call : forall (on_failed : option (Z -> entry -> St (io Downloader.t) unit)),
             on_failed = (if folder then Some Downloader._down_failed else None) ->
             exists n verdict,
               try_except
                 (res <~ (r0 <~ ask_with disk Downloader._show_progress on_failed r ;;
                          ret (Some r0)) ;;
                  match res with
                  | None => ret tt
                  | Some res =>
                      if answer_is res 0
                      then emit "download_rate" [g_str u; g_int 1000]
                      else emit "download_failed" [g_str u; g_answer res]
                  end)
                 Downloader.run_except (mkIO w l)
               = (Ok tt,
                  mkIO w (l ++ Called r
                            :: flat_map (Downloader.forwarded u folder)
                                 (firstn n (callbacks rep))
                            ++ [verdict]))
               /\ forallb (fun c => match Downloader.raised c with
                                    | None => true
                                    | Some _ => false
                                    end)
                    (firstn n (callbacks rep)) = true
               /\ ((n = List.length (callbacks rep)
                    /\ verdict = match outcome rep with
                                 | Ok res =>
                                     if answer_is res 0
                                     then Emitted "download_rate" [g_str u; g_int 1000]
                                     else Emitted "download_failed" [g_str u; g_answer res]
                                 | Raise e => failed e
                                 end)
                   \/ exists c e,
                        nth_error (callbacks rep) n = Some c
                        /\ Downloader.raised c = Some e
                        /\ verdict = failed e)).
  { intros on_failed Hf. unfold try_except, ask_with.
    unfold bindS at 1. unfold bindS at 1. unfold bindS at 1.
    cbn [get_state fst snd log]. fold rep.
    unfold bindS at 1. cbn [record modify fst snd self log].
    destruct (Downloader_callbacks_forwarded folder on_failed (callbacks rep) Hf
                (mkIO w (l ++ [Called r]))) as [r1 [n [E [F D]]]].
    cbn [self log] in E. fold u in E.
    unfold bindS at 1. rewrite E.
    assert (Tail : forall e,
               Downloader.run_except e
                 (mkIO w ((l ++ [Called r])
                          ++ flat_map (Downloader.forwarded u folder)
                               (firstn n (callbacks rep))))
               = (Ok tt,
                  mkIO w (l ++ Called r
                            :: flat_map (Downloader.forwarded u folder)
                                 (firstn n (callbacks rep))
                            ++ [failed e]))).
    { intros e. unfold Downloader.run_except, bindS. cbn [get_self fst snd self].
      fold u. destruct e; unfold emit, record, modify; cbn [fst snd self log];
        rewrite <- !app_assoc; reflexivity. }
    destruct D as [[Hn ->]|[c [e [Hc [Hr ->]]]]].
    - destruct (outcome rep) as [res|e] eqn:Eo.
      + cbn [ret fst snd]. exists n. eexists.
        split; [|split; [exact F|left; split; [exact Hn|reflexivity]]].
        destruct (answer_is res 0); unfold emit, record, modify; cbn [fst snd self log];
          rewrite <- !app_assoc; reflexivity.
      + cbn [raise fst snd]. exists n, (failed e).
        split; [apply Tail|]. split; [exact F|]. left. split; [exact Hn | reflexivity].
    - exists n, (failed e). split; [apply Tail|]. split; [exact F|].
      right. exists c, e. repeat split; assumption. }
  unfold Downloader.run, Downloader.run_try.
  destruct (is_file_url utils u) eqn:Ef; cbn [orb].
  - destruct (Call None eq_refl) as [n [verdict [E D]]].
    exists n, verdict. split; [|exact D]. rewrite <- E.
    unfold try_except. unfold bindS at 1. cbn [get_self self fst snd]. fold u.
    rewrite Ef. reflexivity.
  - destruct (is_folder_url utils u) eqn:Ed.
    + destruct (Call (Some Downloader._down_failed) eq_refl) as [n [verdict [E D]]].
      exists n, verdict. split; [|exact D]. rewrite <- E.
      unfold try_except. unfold bindS at 1. cbn [get_self self fst snd]. fold u.
      rewrite Ef, Ed. reflexivity.
    + unfold try_except, bindS. cbn [get_self self fst snd]. fold u. rewrite Ef, Ed.
      reflexivity.
Qed.

End DownloaderFacts.

(* ================================================================= *)
(** ** workers.py: the recycle bin *)

Section RecycleFacts.
Import Api.

(** A call without callback: what it returns is the reply of the
    backend, and the call is added to the record. *)
Lemma api_ask_eq {W : Type} (disk : LanZouCloud) (r : request) (s : io W) :
  ask disk r s
  = (outcome (respond disk (List.length (calls_in (log s))) r),
     mkIO (self s) (log s ++ [Called r])).
Proof.
  unfold ask, bindS, get_state, record, modify. cbn [fst snd self log].
  destruct (outcome _); reflexivity.
Qed.

Lemma api_calls_snoc (l : list item) (r : request) :
  List.length (calls_in (l ++ [Called r])) = S (List.length (calls_in l)).
Proof. rewrite api_calls_in_app, length_app. cbn. lia. Qed.

Lemma api_emitted_app (signal : string) (l1 l2 : list item) :
  emitted signal (l1 ++ l2) = emitted signal l1 ++ emitted signal l2.
Proof. unfold emitted. apply flat_map_app. Qed.

(** The guard of these workers: the mutex is taken, the body runs under
    [try:], a timeout is reported with [msg], any other exception is
    dropped, and the last lines release the guard. *)
Lemma api_guarded {W : Type} (lockf unflagf : W -> W)
    (body : St (io W) unit) (handler : exn -> St (io W) unit) (timeout : list arg)
    (w w1 : W) (l added : list item) (r : result unit) :
  body (mkIO (lockf w) (l ++ [Locked])) = (r, mkIO w1 ((l ++ [Locked]) ++ added)) ->
  (forall e s,
      handler e s
      = (Ok tt, mkIO (self s)
                  (log s ++ match e with
                            | TimeoutError => [Emitted "msg" timeout]
                            | _ => []
                            end))) ->
  (record Locked ;;; set_self lockf ;;; try_except body handler ;;;
   set_self unflagf ;;; record Unlocked) (mkIO w l)
  = (Ok tt,
     mkIO (unflagf w1)
       (l ++ Locked :: added
          ++ match r with
             | Raise TimeoutError => [Emitted "msg" timeout]
             | _ => []
             end ++ [Unlocked])).
Proof.
  intros E H.
  unfold bindS at 1. cbn [record modify fst snd self log].
  unfold bindS at 1. cbn [set_self modify fst snd self log].
  unfold bindS at 1, try_except. rewrite E.
  destruct r as [[]|e].
  - unfold bindS, set_self, record, modify. cbn [fst snd self log].
    rewrite <- !app_assoc. reflexivity.
  - rewrite H. unfold bindS, set_self, record, modify. cbn [fst snd self log].
    rewrite <- !app_assoc. reflexivity.
Qed.

(** What the guard adds to the record is no call, and no signal but
    [msg]. *)
Lemma api_guard_calls (added : list item) (r : result unit) (timeout : list arg) :
  calls_in (Locked :: added
              ++ match r with
                 | Raise TimeoutError => [Emitted "msg" timeout]
                 | _ => []
                 end ++ [Unlocked])
  = calls_in added.
Proof.
  change (Locked :: ?x) with ([Locked] ++ x).
  rewrite !api_calls_in_app. destruct r as [|[]]; cbn; rewrite ?app_nil_r; reflexivity.
Qed.

Lemma api_guard_emitted (signal : string) (added : list item) (r : result unit)
    (timeout : list arg) :
  String.eqb "msg" signal = false ->
  emitted signal (Locked :: added
                    ++ match r with
                       | Raise TimeoutError => [Emitted "msg" timeout]
                       | _ => []
                       end ++ [Unlocked])
  = emitted signal added.
Proof.
  intros H. change (Locked :: ?x) with ([Locked] ++ x).
  rewrite !api_emitted_app.
  destruct r as [|[]]; cbn [emitted flat_map app]; rewrite ?H; cbn [app];
    rewrite ?app_nil_r; reflexivity.
Qed.

(** The lines of [GetRecListsWorker.run] under [try:]. *)
Lemma GetRecListsWorker_run_try (disk : LanZouCloud) (w : GetRecListsWorker.t)
    (l : list item) :
  let n := List.length (calls_in l) in
  let folder := match GetRecListsWorker._folder_id w with
                | Some f => if f =? 0 then None else Some f
                | None => None
                end in
  exists r w1 added,
    GetRecListsWorker.run_try disk (mkIO w l) = (r, mkIO w1 (l ++ added))
    /\ GetRecListsWorker._is_work w1 = GetRecListsWorker._is_work w
    /\ GetRecListsWorker._mutex w1 = GetRecListsWorker._mutex w
    /\ match folder with
       | Some f =>
           calls_in added = [Called (get_rec_file_list f)]
           /\ emitted "infos" added = []
           /\ match outcome (respond disk n (get_rec_file_list f)) with
              | Ok a =>
                  emitted "folders" added = [[g_answer a]]
                  /\ GetRecListsWorker._folder_id w1 = None
              | Raise _ =>
                  emitted "folders" added = []
                  /\ GetRecListsWorker._folder_id w1 = GetRecListsWorker._folder_id w
              end
       | None =>
           emitted "folders" added = []
           /\ GetRecListsWorker._folder_id w1 = GetRecListsWorker._folder_id w
           /\ match outcome (respond disk n get_rec_dir_list) with
              | Ok d =>
                  calls_in added
                  = [Called get_rec_dir_list; Called (get_rec_file_list (-1))]
                  /\ emitted "infos" added
                     = match outcome (respond disk (S n) (get_rec_file_list (-1))) with
                       | Ok f => [[g_answer d; g_answer f]]
                       | Raise _ => []
                       end
              | Raise _ =>
                  calls_in added = [Called get_rec_dir_list]
                  /\ emitted "infos" added = []
              end
       end.
Proof.
  intros n folder.
  assert (Bin : exists r added,
             (dir_lists <~ ask disk get_rec_dir_list ;;
              file_lists <~ ask disk (get_rec_file_list (-1)) ;;
              emit "infos" [g_answer dir_lists; g_answer file_lists] ;;;
              emit "msg" [g_str "刷新列表成功！"; g_int 2000]) (mkIO w l)
             = (r, mkIO w (l ++ added))
             /\ emitted "folders" added = []
             /\ match outcome (respond disk n get_rec_dir_list) with
                | Ok d =>
                    calls_in added
                    = [Called get_rec_dir_list; Called (get_rec_file_list (-1))]
                    /\ emitted "infos" added
                       = match outcome (respond disk (S n) (get_rec_file_list (-1))) with
                         | Ok f => [[g_answer d; g_answer f]]
                         | Raise _ => []
                         end
                | Raise _ =>
                    calls_in added = [Called get_rec_dir_list]
                    /\ emitted "infos" added = []
                end).
  { unfold bindS at 1. rewrite api_ask_eq. cbn [self log]. fold n.
    destruct (outcome (respond disk n get_rec_dir_list)) as [d|e].
    - unfold bindS at 1. rewrite api_ask_eq. cbn [self log].
      rewrite api_calls_snoc. fold n.
      destruct (outcome (respond disk (S n) (get_rec_file_list (-1)))) as [f|e].
      + unfold emit, record, set_self, modify, bindS. cbn [fst snd self log].
        eexists _, _. rewrite <- !app_assoc. split; [reflexivity|]. repeat split.
      + eexists _, _. rewrite <- !app_assoc. split; [reflexivity|]. repeat split.
    - eexists _, _. split; [reflexivity|]. repeat split. }
  unfold GetRecListsWorker.run_try.
  unfold bindS at 1. cbn [get_self self fst snd]. subst folder.
  destruct (GetRecListsWorker._folder_id w) as [f|] eqn:Ef.
  - destruct (Z.eqb_spec f 0) as [->|Ne]; cbn [negb].
    + unfold bindS at 1. cbn [ret fst snd].
      destruct Bin as [r [added [E [Fo R]]]]. rewrite E.
      exists r, w, added. split; [reflexivity|]. repeat split; try assumption.
    + unfold bindS at 1. unfold bindS at 1. rewrite api_ask_eq. cbn [self log]. fold n.
      destruct (outcome (respond disk n (get_rec_file_list f))) as [a|e].
      * unfold emit, record, set_self, modify, bindS, raise.
        cbn [fst snd self log]. eexists _, _, _. rewrite <- !app_assoc.
        split; [reflexivity|]. repeat split.
      * eexists _, _, _. split; [reflexivity|]. repeat split. exact Ef.
  - unfold bindS at 1. cbn [ret fst snd].
    destruct Bin as [r [added [E [Fo R]]]]. rewrite E.
    exists r, w, added. split; [reflexivity|]. repeat split; try assumption.
Qed.

Lemma GetRecListsWorker_run_except (e : exn) (s : io GetRecListsWorker.t) :
  GetRecListsWorker.run_except e s
  = (Ok tt, mkIO (self s)
              (log s ++ match e with
                        | TimeoutError => [Emitted "msg" [g_str "网络超时，请稍后重试！"; g_int 6000]]
                        | _ => []
                        end)).
Proof. destruct e, s; cbn; rewrite ?app_nil_r; reflexivity. Qed.

(** [GetRecListsWorker.run], started with its flag down, does one of two
    things and releases its guard.  With a folder set it asks for the
    files of that folder only, passes them on with [folders] and forgets
    the folder; when that call raises, the folder stays set.  With none
    it asks for the folders of the bin and then for its files, and
    passes both on with [infos] when both calls returned. *)
Theorem rec_lists_one_folder_or_the_bin
    (disk : LanZouCloud) (w : GetRecListsWorker.t) (l : list item) :
  GetRecListsWorker._is_work w = false ->
  let n := List.length (calls_in l) in
  let folder := match GetRecListsWorker._folder_id w with
                | Some f => if f =? 0 then None else Some f
                | None => None
                end in
  exists w' added,
    GetRecListsWorker.run disk (mkIO w l) = (Ok tt, mkIO w' (l ++ added))
    /\ GetRecListsWorker._is_work w' = false
    /\ GetRecListsWorker._mutex w' = false
    /\ match folder with
       | Some f =>
           calls_in added = [Called (get_rec_file_list f)]
           /\ emitted "infos" added = []
           /\ match outcome (respond disk n (get_rec_file_list f)) with
              | Ok a =>
                  emitted "folders" added = [[g_answer a]]
                  /\ GetRecListsWorker._folder_id w' = None
              | Raise _ =>
                  emitted "folders" added = []
                  /\ GetRecListsWorker._folder_id w' = GetRecListsWorker._folder_id w
              end
       | None =>
           emitted "folders" added = []
           /\ GetRecListsWorker._folder_id w' = GetRecListsWorker._folder_id w
           /\ match outcome (respond disk n get_rec_dir_list) with
              | Ok d =>
                  calls_in added
                  = [Called get_rec_dir_list; Called (get_rec_file_list (-1))]
                  /\ emitted "infos" added
                     = match outcome (respond disk (S n) (get_rec_file_list (-1))) with
                       | Ok f => [[g_answer d; g_answer f]]
                       | Raise _ => []
                       end
              | Raise _ =>
                  calls_in added = [Called get_rec_dir_list]
                  /\ emitted "infos" added = []
              end
       end.
Proof.
  intros Hf n folder.
  unfold GetRecListsWorker.run. unfold bindS at 1. cbn [get_self self fst snd].
  rewrite Hf. cbn [negb].
  destruct (GetRecListsWorker_run_try disk (GetRecListsWorker.lock_and_flag w) (l ++ [Locked]))
    as [r [w1 [added [E [_ [_ R]]]]]].
  rewrite (api_guarded _ _ _ _ _ w w1 l added r E GetRecListsWorker_run_except).
  assert (N : List.length (calls_in (l ++ [Locked])) = n)
    by (rewrite api_calls_in_app; cbn; rewrite app_nil_r; reflexivity).
  rewrite N in R. cbn [GetRecListsWorker.lock_and_flag GetRecListsWorker._folder_id] in R.
  fold folder in R.
  eexists _, _. split; [reflexivity|].
  split; [reflexivity|]. split; [reflexivity|].
  rewrite api_guard_calls, !api_guard_emitted by reflexivity.
  cbn [GetRecListsWorker.unflag_and_unlock GetRecListsWorker._folder_id].
  exact R.
Qed.

Lemma rec_lists_one_folder_or_the_bin_witness :
  let disk := mkDisk 0 (-1) 9 5 (fun _ _ => mkReply [] (Ok (a_list [mkEntry "a.zip" 11]))) in
  exists w' added,
    GetRecListsWorker.run disk (mkIO (GetRecListsWorker.mk (Some 7) false false) [])
    = (Ok tt, mkIO w' added)
    /\ calls_in added = [Called (get_rec_file_list 7)]
    /\ GetRecListsWorker._folder_id w' = None.
Proof.
  intros disk.
  destruct (rec_lists_one_folder_or_the_bin disk (GetRecListsWorker.mk (Some 7) false false)
              [] eq_refl) as [w' [added [E [_ [_ [C [_ [_ F]]]]]]]].
  exists w', added. split; [exact E|]. split; [exact C | exact F].
Defined.


(* ----------------------------------------------------------------- *)
(** *** RecManipulator *)

Lemma RecManipulator_run_except (e : exn) (s : io RecManipulator.t) :
  RecManipulator.run_except e s
  = (Ok tt, mkIO (self s)
              (log s ++ match e with
                        | TimeoutError => [Emitted "msg" [g_str "网络超时，请稍后重试！"; g_int 6000]]
                        | _ => []
                        end)).
Proof. destruct e, s; cbn; rewrite ?app_nil_r; reflexivity. Qed.

(** A branch of [RecManipulator.run] that calls the backend, with the
    lines that follow the branches. *)
Lemma RecManipulator_after_call (disk : LanZouCloud) (req : request) (text : string)
    (w : RecManipulator.t) (l : list item) :
  exists r added,
    (res <~ RecManipulator.call_and_report disk req text ;;
     match res with
     | None => raise UnboundLocalError
     | Some res =>
         if is_int res then
           if answer_is res (FAILED disk) then
             emit "msg" [g_str "失败，请重试！"; g_int 4500]
           else if answer_is res (NETWORK_ERROR disk) then
             emit "msg" [g_str "网络错误，请稍后重试！"; g_int 4500]
           else
             sleep 2600 ;;;
             emit "successed" []
         else ret tt
     end) (mkIO w l)
    = (r, mkIO w (l ++ added))
    /\ calls_in added = [Called req]
    /\ (emitted "successed" added = [[]] \/ emitted "successed" added = [])
    /\ (emitted "successed" added = [[]] <->
        exists c, outcome (respond disk (List.length (calls_in l)) req) = Ok (a_code c)
                  /\ c <> FAILED disk /\ c <> NETWORK_ERROR disk).
Proof.
  unfold bindS at 1, RecManipulator.call_and_report. unfold bindS at 1.
  rewrite api_ask_eq. cbn [self log].
  destruct (outcome (respond disk (List.length (calls_in l)) req)) as [a|e].
  2:{ eexists _, _. split; [reflexivity|]. split; [reflexivity|].
      split; [right; reflexivity|]. split; [discriminate|].
      intros [c [H _]]. discriminate. }
  assert (Rep : exists report,
             ((if answer_is a (SUCCESS disk)
               then emit "msg" [g_str text; g_int 2500] else ret tt) ;;; ret (Some a))
               (mkIO w (l ++ [Called req]))
             = (Ok (Some a), mkIO w ((l ++ [Called req]) ++ report))
             /\ calls_in report = [] /\ emitted "successed" report = []).
  { destruct (answer_is a (SUCCESS disk)); unfold bindS, emit, record, modify, ret;
      cbn [fst snd self log]; eexists.
    - split; [reflexivity|]. split; reflexivity.
    - rewrite app_nil_r. split; [reflexivity|]. split; reflexivity. }
  destruct Rep as [report [E [Cr Sr]]]. rewrite E.
  assert (Leaf : forall tail,
             calls_in tail = [] ->
             calls_in ([Called req] ++ report ++ tail) = [Called req]
             /\ emitted "successed" ([Called req] ++ report ++ tail)
                = emitted "successed" tail).
  { intros tail Ct. rewrite !api_calls_in_app, !api_emitted_app, Cr, Sr, Ct.
    split; reflexivity. }
  destruct a as [c| | | | | |]; cbn [is_int answer_is].
  1:{ destruct (Z.eqb_spec c (FAILED disk)) as [Ef|Nf];
      [|destruct (Z.eqb_spec c (NETWORK_ERROR disk)) as [En|Nn]].
    + unfold emit, record, modify. cbn [fst snd self log].
      eexists _, ([Called req] ++ report ++ [_]).
      split; [rewrite <- !app_assoc; reflexivity|].
      destruct (Leaf [Emitted "msg" [g_str "失败，请重试！"; g_int 4500]] eq_refl) as [L1 L2].
      rewrite L1, L2. split; [reflexivity|].
      split; [right; reflexivity|]. split; [discriminate|].
      intros [c' [H [H1 _]]]. injection H as <-. contradiction.
    + unfold emit, record, modify. cbn [fst snd self log].
      eexists _, ([Called req] ++ report ++ [_]).
      split; [rewrite <- !app_assoc; reflexivity|].
      destruct (Leaf [Emitted "msg" [g_str "网络错误，请稍后重试！"; g_int 4500]] eq_refl)
        as [L1 L2].
      rewrite L1, L2. split; [reflexivity|].
      split; [right; reflexivity|]. split; [discriminate|].
      intros [c' [H [_ H2]]]. injection H as <-. contradiction.
    + unfold sleep, emit, record, modify, bindS. cbn [fst snd self log].
      eexists _, ([Called req] ++ report ++ [_; _]).
      split; [rewrite <- !app_assoc; reflexivity|].
      destruct (Leaf [Slept 2600; Emitted "successed" []] eq_refl) as [L1 L2].
      rewrite L1, L2. split; [reflexivity|].
      split; [left; reflexivity|]. split; [|reflexivity].
      intros _. exists c. repeat split; assumption. }
  all: cbn [ret]; eexists _, ([Called req] ++ report ++ []);
      (split; [rewrite <- !app_assoc, app_nil_r; reflexivity|]);
      destruct (Leaf [] eq_refl) as [L1 L2]; rewrite L1, L2;
      (split; [reflexivity|]); (split; [right; reflexivity|]);
      (split; [discriminate|]); intros [c' [H _]]; discriminate.
Qed.

(** The lines of [RecManipulator.run] under [try:]. *)
Lemma RecManipulator_run_try (disk : LanZouCloud) (w : RecManipulator.t) (l : list item) :
  exists r added,
    RecManipulator.run_try disk (mkIO w l) = (r, mkIO w (l ++ added))
    /\ ((added = [] /\ r = Raise UnboundLocalError
         /\ match RecManipulator._action w with
            | Some a =>
                ((a = "recovery" \/ a = "delete") /\ RecManipulator.selected w = false)
                \/ (a <> "recovery" /\ a <> "delete" /\ a <> "clean" /\ a <> "recovery_all")
            | None => True
            end)
        \/ exists req,
             calls_in added = [Called req]
             /\ ((RecManipulator._action w = Some "recovery"
                  /\ RecManipulator.selected w = true
                  /\ req = recovery_multi (RecManipulator._files w) (RecManipulator._folders w))
                 \/ (RecManipulator._action w = Some "delete"
                     /\ RecManipulator.selected w = true
                     /\ req = delete_rec_multi (RecManipulator._files w)
                                (RecManipulator._folders w))
                 \/ (RecManipulator._action w = Some "clean" /\ req = clean_rec)
                 \/ (RecManipulator._action w = Some "recovery_all" /\ req = recovery_all))
             /\ (emitted "successed" added = [[]] \/ emitted "successed" added = [])
             /\ (emitted "successed" added = [[]] <->
                 exists c, outcome (respond disk (List.length (calls_in l)) req) = Ok (a_code c)
                           /\ c <> FAILED disk /\ c <> NETWORK_ERROR disk)).
Proof.
  unfold RecManipulator.run_try. unfold bindS at 1. cbn [get_self self fst snd].
  assert (Nothing : forall P : Prop, P ->
            exists r added,
              (res <~ ret None ;;
               match res with
               | None => raise UnboundLocalError
               | Some res =>
                   if is_int res then
                     if answer_is res (FAILED disk) then
                       emit "msg" [g_str "失败，请重试！"; g_int 4500]
                     else if answer_is res (NETWORK_ERROR disk) then
                       emit "msg" [g_str "网络错误，请稍后重试！"; g_int 4500]
                     else
                       sleep 2600 ;;;
                       emit "successed" []
                   else ret tt
               end) (mkIO w l) = (r, mkIO w (l ++ added))
              /\ added = [] /\ r = Raise UnboundLocalError /\ P).
  { intros P HP. exists (Raise UnboundLocalError), []. rewrite app_nil_r.
    repeat split. exact HP. }
  destruct (RecManipulator._action w) as [a|] eqn:Ea.
  2:{ destruct (Nothing True I) as [r [added [E [A [R _]]]]].
      exists r, added. split; [exact E|]. left. repeat split; assumption. }
  destruct (String.eqb_spec a "recovery") as [->|N1].
  { destruct (RecManipulator.selected w) eqn:Sel.
    - destruct (RecManipulator_after_call disk
                  (recovery_multi (RecManipulator._files w) (RecManipulator._folders w))
                  "选定文件(夹)恢复成功，即将刷新列表" w l) as [r [added [E [C [S1 S2]]]]].
      exists r, added. split; [exact E|]. right. eexists. split; [exact C|].
      split; [left; repeat split|]. split; assumption.
    - destruct (Nothing True I) as [r [added [E [A [R _]]]]].
      exists r, added. split; [exact E|]. left. repeat split; try assumption.
      left. split; [left; reflexivity | reflexivity]. }
  destruct (String.eqb_spec a "delete") as [->|N2].
  { destruct (RecManipulator.selected w) eqn:Sel.
    - destruct (RecManipulator_after_call disk
                  (delete_rec_multi (RecManipulator._files w) (RecManipulator._folders w))
                  "选定文件(夹)彻底删除成功，即将刷新列表" w l) as [r [added [E [C [S1 S2]]]]].
      exists r, added. split; [exact E|]. right. eexists. split; [exact C|].
      split; [right; left; repeat split|]. split; assumption.
    - destruct (Nothing True I) as [r [added [E [A [R _]]]]].
      exists r, added. split; [exact E|]. left. repeat split; try assumption.
      left. split; [right; reflexivity | reflexivity]. }
  destruct (String.eqb_spec a "clean") as [->|N3].
  { destruct (RecManipulator_after_call disk clean_rec "清空回收站成功，即将刷新列表" w l)
      as [r [added [E [C [S1 S2]]]]].
    exists r, added. split; [exact E|]. right. eexists. split; [exact C|].
    split; [right; right; left; repeat split|]. split; assumption. }
  destruct (String.eqb_spec a "recovery_all") as [->|N4].
  { destruct (RecManipulator_after_call disk recovery_all
                "文件(夹)全部还原成功，即将刷新列表" w l) as [r [added [E [C [S1 S2]]]]].
    exists r, added. split; [exact E|]. right. eexists. split; [exact C|].
    split; [right; right; right; repeat split|]. split; assumption. }
  destruct (Nothing True I) as [r [added [E [A [R _]]]]].
  exists r, added. split; [exact E|]. left. repeat split; try assumption.
  right. repeat split; assumption.
Qed.

(** [RecManipulator.set_values] sorts the selection by kind. *)
Lemma RecManipulator_set_values (infos : list RecManipulator.rec_item)
    (action : option string) (w : RecManipulator.t) (l : list item) :
  RecManipulator.set_values infos action (mkIO w l)
  = (Ok tt,
     mkIO (RecManipulator.mk action
             (flat_map (fun i => match i with
                                 | RecManipulator.RecFolder id => [id]
                                 | _ => []
                                 end) infos)
             (flat_map (fun i => match i with
                                 | RecManipulator.RecFile id => [id]
                                 | _ => []
                                 end) infos)
             (RecManipulator._mutex w) (RecManipulator._is_work w)) l).
Proof.
  unfold RecManipulator.set_values.
  unfold bindS at 1. cbn [set_self modify fst snd self log].
  assert (Loop : forall (items : list RecManipulator.rec_item) (a : option string)
                        (fo fi : list Z) (m k : bool),
             for_in items
               (fun item =>
                  match item with
                  | RecManipulator.RecFile id =>
                      set_self (fun w =>
                        RecManipulator.mk (RecManipulator._action w) (RecManipulator._folders w)
                          (RecManipulator._files w ++ [id])
                          (RecManipulator._mutex w) (RecManipulator._is_work w))
                  | RecManipulator.RecFolder id =>
                      set_self (fun w =>
                        RecManipulator.mk (RecManipulator._action w)
                          (RecManipulator._folders w ++ [id]) (RecManipulator._files w)
                          (RecManipulator._mutex w) (RecManipulator._is_work w))
                  | RecManipulator.Other => ret tt
                  end) (mkIO (RecManipulator.mk a fo fi m k) l)
             = (Ok tt,
                mkIO (RecManipulator.mk a
                        (fo ++ flat_map (fun i => match i with
                                                  | RecManipulator.RecFolder id => [id]
                                                  | _ => []
                                                  end) items)
                        (fi ++ flat_map (fun i => match i with
                                                  | RecManipulator.RecFile id => [id]
                                                  | _ => []
                                                  end) items) m k) l)).
  { induction items as [|i items IH]; intros a fo fi m k.
    - cbn. rewrite !app_nil_r. reflexivity.
    - cbn [for_in flat_map]. unfold bindS.
      destruct i as [id|id|]; cbn [set_self modify ret fst snd self log
                                   RecManipulator._action RecManipulator._folders
                                   RecManipulator._files RecManipulator._mutex
                                   RecManipulator._is_work];
        rewrite IH; rewrite <- ?app_assoc; reflexivity. }
  unfold bindS at 1. rewrite Loop. cbn [app].
  unfold set_self, modify. cbn. reflexivity.
Qed.

(** A selection in the recycle bin and an action, handed to
    [RecManipulator] and run with the flag down.  The backend is asked at
    most once: for [recovery] and [delete] with the ids of the selected
    files and of the selected folders, each in the order of the
    selection, and not at all when nothing of either kind is selected;
    for [clean] and [recovery_all] whatever is selected; for any other
    action not at all.  [successed] is emitted, once, exactly when the
    call returned a status that is neither [FAILED] nor [NETWORK_ERROR].
    Whatever happens, the action and the selection are forgotten and the
    guard is released. *)
Theorem rec_action_asks_once_and_resets
    (disk : LanZouCloud) (infos : list RecManipulator.rec_item) (action : option string)
    (w : RecManipulator.t) (l : list item) :
  RecManipulator._is_work w = false ->
  let files := flat_map (fun i => match i with
                                  | RecManipulator.RecFile id => [id]
                                  | _ => []
                                  end) infos in
  let folders := flat_map (fun i => match i with
                                    | RecManipulator.RecFolder id => [id]
                                    | _ => []
                                    end) infos in
  let nothing := match files, folders with [], [] => true | _, _ => false end in
  exists added,
    (RecManipulator.set_values infos action ;;; RecManipulator.run disk) (mkIO w l)
    = (Ok tt, mkIO (RecManipulator.mk None [] [] false false) (l ++ added))
    /\ ((added = [Locked; Unlocked]
         /\ match action with
            | Some a =>
                ((a = "recovery" \/ a = "delete") /\ nothing = true)
                \/ (a <> "recovery" /\ a <> "delete" /\ a <> "clean" /\ a <> "recovery_all")
            | None => True
            end)
        \/ exists req,
             calls_in added = [Called req]
             /\ ((action = Some "recovery" /\ nothing = false
                  /\ req = recovery_multi files folders)
                 \/ (action = Some "delete" /\ nothing = false
                     /\ req = delete_rec_multi files folders)
                 \/ (action = Some "clean" /\ req = clean_rec)
                 \/ (action = Some "recovery_all" /\ req = recovery_all))
             /\ (emitted "successed" added = [[]] \/ emitted "successed" added = [])
             /\ (emitted "successed" added = [[]] <->
                 exists c, outcome (respond disk (List.length (calls_in l)) req) = Ok (a_code c)
                           /\ c <> FAILED disk /\ c <> NETWORK_ERROR disk)).
Proof.
  intros Hf files folders nothing.
  unfold bindS at 1. rewrite RecManipulator_set_values. fold files folders.
  set (w0 := RecManipulator.mk action folders files
               (RecManipulator._mutex w) (RecManipulator._is_work w)).
  assert (Sel : RecManipulator.selected w0 = negb nothing).
  { subst w0 nothing. unfold RecManipulator.selected.
    cbn [RecManipulator._files RecManipulator._folders].
    destruct files, folders; reflexivity. }
  unfold RecManipulator.run. unfold bindS at 1. cbn [get_self self fst snd].
  replace (RecManipulator._is_work w0) with false by (symmetry; exact Hf). cbn [negb].
  destruct (RecManipulator_run_try disk (RecManipulator.lock_and_flag w0) (l ++ [Locked]))
    as [r [added [E D]]].
  rewrite (api_guarded _ _ _ _ _ w0 _ l added r E RecManipulator_run_except).
  assert (N : List.length (calls_in (l ++ [Locked])) = List.length (calls_in l))
    by (rewrite api_calls_in_app; cbn; rewrite app_nil_r; reflexivity).
  rewrite N in D.
  assert (Sel' : RecManipulator.selected (RecManipulator.lock_and_flag w0) = negb nothing).
  { rewrite <- Sel. reflexivity. }
  rewrite Sel' in D.
  replace (RecManipulator._action (RecManipulator.lock_and_flag w0)) with action in D
    by reflexivity.
  replace (RecManipulator._files (RecManipulator.lock_and_flag w0)) with files in D
    by reflexivity.
  replace (RecManipulator._folders (RecManipulator.lock_and_flag w0)) with folders in D
    by reflexivity.
  eexists. split; [reflexivity|].
  destruct D as [[A [R Cond]]|[req [C [Which [S1 S2]]]]].
  - left. subst added r. split; [reflexivity|].
    destruct action as [a|]; [|exact I].
    destruct Cond as [[Ha Hs]|Hn]; [left | right; exact Hn].
    split; [exact Ha|]. destruct nothing; [reflexivity | discriminate].
  - right. exists req. rewrite api_guard_calls, !api_guard_emitted by reflexivity.
    split; [exact C|]. split; [|split; assumption].
    destruct Which as [[Ha [Hs Hr]]|[[Ha [Hs Hr]]|[[Ha Hr]|[Ha Hr]]]].
    + left. repeat split; try assumption. destruct nothing; [discriminate | reflexivity].
    + right; left. repeat split; try assumption.
      destruct nothing; [discriminate | reflexivity].
    + right; right; left. split; assumption.
    + right; right; right. split; assumption.
Qed.

Lemma rec_action_asks_once_and_resets_witness :
  let disk := mkDisk 0 (-1) 9 5 (fun _ _ => mkReply [] (Ok (a_code 0))) in
  let w := RecManipulator.mk None [] [] false false in
  exists added,
    (RecManipulator.set_values
       [RecManipulator.RecFile 11; RecManipulator.RecFolder 3; RecManipulator.RecFile 12]
       (Some "recovery") ;;; RecManipulator.run disk) (mkIO w [])
    = (Ok tt, mkIO w added)
    /\ calls_in added = [Called (recovery_multi [11; 12] [3])]
    /\ emitted "successed" added = [[]].
Proof.
  intros disk w.
  destruct (rec_action_asks_once_and_resets disk
              [RecManipulator.RecFile 11; RecManipulator.RecFolder 3; RecManipulator.RecFile 12]
              (Some "recovery") w [] eq_refl) as [added [E _]].
  exists added. split; [exact E|].
  cbn in E. injection E as <-. split; reflexivity.
Defined.

End RecycleFacts.

(* ================================================================= *)
(** ** tools.py: what a [UserInfo] gives back *)

(** [decode] on a dictionary that [encode] has made of [d]: a new
    dictionary with the items of [d], the encrypted one left as it is. *)
Lemma decode_encoded_dict (h : Shared.store) (a : nat) (d d' : PyDict.t string) :
  nth_error h a = Some d' ->
  Forall2 (fun kv kv' => fst kv' = fst kv /\ encrypt KEY (snd kv) = Ok (snd kv')) d d' ->
  PyDict.wf d ->
  Forall (fun kv => is_str (snd kv)) d ->
  Shared.decode (Shared.RDict a) h = (Ok (Shared.RDict (List.length h)), h ++ [d]).
Proof.
  intros Hh R W Hs.
  assert (Lt : (a < List.length h)%nat) by (apply nth_error_Some; rewrite Hh; discriminate).
  unfold Shared.decode, try_except.
  unfold bindS at 1. unfold Shared.new_dict at 1.
  unfold bindS at 1. unfold Shared.deref at 1.
  rewrite nth_error_app1 by exact Lt. rewrite Hh.
  unfold bindS at 1.
  rewrite (decode_loop (List.length h) d d' R Hs [] (h ++ [[]])).
  - cbn [ret app]. f_equal. apply list_update_snoc.
  - rewrite nth_error_app2 by apply Nat.le_refl. rewrite Nat.sub_diag. reflexivity.
  - exact W.
Qed.

Lemma nth_error_list_update_other {X : Type} (l : list X) (i j : nat) (f : X -> X) :
  i <> j -> nth_error (list_update l i f) j = nth_error l j.
Proof.
  revert i j. induction l as [|y l IH]; intros [|i] [|j] H; cbn; try reflexivity.
  - congruence.
  - apply IH. congruence.
Qed.

(** What [encrypt] returns is a Python string. *)
Lemma encrypt_is_str (s c : string) : encrypt KEY s = Ok c -> is_str c.
Proof.
  intros He. destruct (encrypt_spec s) as [c' [He' Hb]].
  rewrite He in He'. injection He' as <-.
  pose proof (enc_bytes_range KEY (encode_utf8 s) KEY_byte (encode_utf8_in_range s)) as Hr.
  unfold is_str. rewrite Hb. apply ascii_bytes_valid.
  eapply Forall_impl; [|exact Hr]. cbn. intros; lia.
Qed.

(** [encode] on a value of the store: it returns, touches no dictionary
    but the one it is given, and what it returns reads back, in every
    later store that has left that dictionary alone, as the value. *)
Lemma encode_then_decode (v : Shared.ref) (h : Shared.store) :
  Shared.ref_ok h v ->
  exists e h',
    Shared.encode v h = (Ok e, h')
    /\ List.length h' = List.length h
    /\ (forall b, Shared.apart v (Shared.RDict b) -> nth_error h' b = nth_error h b)
    /\ (forall h'',
          (forall a, v = Shared.RDict a -> nth_error h'' a = nth_error h' a) ->
          Shared.gives_back h v h'' (Shared.decode e h''))
    /\ (forall a, v = Shared.RDict a ->
          e = v
          /\ exists d d', nth_error h a = Some d /\ nth_error h' a = Some d'
               /\ Forall2 (fun kv kv' => fst kv' = fst kv /\ encrypt KEY (snd kv) = Ok (snd kv'))
                    d d').
Proof.
  destruct v as [|s|a]; cbn [Shared.ref_ok]; intros Hv.
  - exists Shared.RNone, h. repeat split; try reflexivity; intros; discriminate.
  - destruct (encode_plain_value (Shared.RStr s) h Hv) as [e [E D]].
    exists e, h. split; [exact E|]. split; [reflexivity|]. split; [reflexivity|].
    split; [|intros; discriminate].
    intros h'' _. cbn [Shared.gives_back].
    destruct (encode_plain_value (Shared.RStr s) h'' Hv) as [e' [E' D']].
    assert (Same : fst (Shared.encode (Shared.RStr s) h'')
                   = fst (Shared.encode (Shared.RStr s) h)).
    { cbn [Shared.encode]. destruct (negb (String.eqb s "")); [|reflexivity].
      unfold bindS, Shared.pure. destruct (encrypt KEY s); reflexivity. }
    rewrite E, E' in Same. cbn [fst] in Same. injection Same as ->. exact D'.
  - destruct Hv as [d [Hh [W Hs]]].
    destruct (encode_loop a d [] h Hh W) as [d' [E R]]. cbn [app] in E.
    exists (Shared.RDict a), (list_update h a (fun _ => d')).
    split.
    { unfold Shared.encode. unfold bindS at 1. unfold Shared.deref at 1. rewrite Hh.
      unfold bindS at 1. rewrite E. reflexivity. }
    split; [apply length_list_update|].
    split; [intros b Hb; cbn in Hb; apply nth_error_list_update_other; exact Hb|].
    split.
    + intros h'' Same. cbn [Shared.gives_back]. exists d. split; [exact Hh|].
      apply (decode_encoded_dict h'' a d d'); try assumption.
      rewrite (Same a eq_refl). exact (nth_error_list_update h a (fun _ => d') _ Hh).
    + intros a' Ha. injection Ha as <-. split; [reflexivity|].
      exists d, d'. split; [exact Hh|]. split; [|exact R].
      exact (nth_error_list_update h a (fun _ => d') _ Hh).
Qed.

Lemma ref_ok_frame (h h' : Shared.store) (v : Shared.ref) :
  Shared.ref_ok h v ->
  (forall a, v = Shared.RDict a -> nth_error h' a = nth_error h a) ->
  Shared.ref_ok h' v.
Proof.
  destruct v as [|s|a]; cbn; intros Hv Same; try assumption.
  rewrite (Same a eq_refl). exact Hv.
Qed.

Lemma gives_back_frame (h h0 h1 : Shared.store) (v : Shared.ref)
    (got : result Shared.ref * Shared.store) :
  Shared.gives_back h0 v h1 got ->
  (forall a, v = Shared.RDict a -> nth_error h0 a = nth_error h a) ->
  Shared.gives_back h v h1 got.
Proof.
  destruct v as [|s|a]; cbn; intros Hv Same; try assumption.
  rewrite <- (Same a eq_refl). exact Hv.
Qed.

Lemma apart_sym (v w : Shared.ref) : Shared.apart v w -> Shared.apart w v.
Proof. destruct v, w; cbn; auto. Qed.

Lemma nth_error_snoc_old {X : Type} (l : list X) (x : X) (a : nat) (y : X) :
  nth_error l a = Some y -> nth_error (l ++ [x]) a = nth_error l a.
Proof.
  intros H. apply nth_error_app1. apply nth_error_Some. rewrite H. discriminate.
Qed.

(** C10, as the code has it.  For every Python string [s], [encrypt]
    returns a string [c] of even length whose bytes are ASCII (46..64 at
    the even places, the remainders, and 46..59 at the odd ones, the
    quotients), and [decrypt] gives [s] back from [c].  A [UserInfo] made
    from a name, a password and a cookie, each [None], a Python string or
    a dictionary of Python strings, no dictionary being given for two of
    them, returns from [name], [pwd] and [cookie] the value it was given:
    the string itself, [None] for the empty string, and for a dictionary a
    new dictionary with the items the caller's had. *)
Theorem encrypt_decrypt_round_trip
    (s : string) (name pwd cookie : Shared.ref) (h : Shared.store) :
  is_str s ->
  Shared.ref_ok h name -> Shared.ref_ok h pwd -> Shared.ref_ok h cookie ->
  Shared.apart name pwd -> Shared.apart name cookie -> Shared.apart pwd cookie ->
  (exists c,
      encrypt KEY s = Ok c
      /\ Nat.even (List.length (encode_utf8 c)) = true
      /\ (forall (i : nat) (x : Z),
            nth_error (encode_utf8 c) i = Some x ->
            if Nat.even i then 46 <= x <= 64 else 46 <= x <= 59)
      /\ is_str c
      /\ decrypt KEY c = Ok s)
  /\ (exists u h1,
        Shared.init name pwd cookie h = (Ok u, h1)
        /\ Shared.gives_back h name h1 (Shared.name u h1)
        /\ Shared.gives_back h pwd h1 (Shared.pwd u h1)
        /\ Shared.gives_back h cookie h1 (Shared.cookie u h1)).
Proof.
  intros Hs Hn Hp Hc Anp Anc Apc. split.
  - destruct (encrypt_spec s) as [c [He Hb]]. exists c.
    split; [exact He|]. split; [|split; [|split]].
    + rewrite Hb, enc_bytes_length, Nat.mul_comm. apply Nat.even_even.
    + rewrite Hb. apply enc_bytes_positions;
        [exact KEY_byte | apply encode_utf8_in_range].
    + exact (encrypt_is_str s c He).
    + exact (decrypt_encrypt s c Hs He).
  - destruct (encode_then_decode name h Hn) as [en [h1 [E1 [L1 [F1 [D1 _]]]]]].
    assert (Hp1 : Shared.ref_ok h1 pwd).
    { apply (ref_ok_frame h); [exact Hp|]. intros a ->. apply F1. exact Anp. }
    destruct (encode_then_decode pwd h1 Hp1) as [ep [h2 [E2 [L2 [F2 [D2 _]]]]]].
    assert (Hc2 : Shared.ref_ok h2 cookie).
    { apply (ref_ok_frame h); [exact Hc|]. intros a ->.
      rewrite F2 by exact Apc. apply F1. exact Anc. }
    destruct (encode_then_decode cookie h2 Hc2) as [ec [h3 [E3 [L3 [F3 [D3 _]]]]]].
    exists (Shared.mk en ep ec (Shared.RDict (List.length h3))), (h3 ++ [[]]).
    split.
    { unfold Shared.init, bindS. rewrite E1, E2, E3. reflexivity. }
    assert (Old : forall (v : Shared.ref) (a : nat) (hk : Shared.store),
               Shared.ref_ok hk v -> v = Shared.RDict a ->
               List.length hk = List.length h3 ->
               nth_error (h3 ++ [[]]) a = nth_error h3 a).
    { intros v a hk Hv -> Len. cbn in Hv. destruct Hv as [d [Hd _]].
      apply nth_error_app1. rewrite <- Len. apply nth_error_Some. rewrite Hd. discriminate. }
    unfold Shared.name, Shared.pwd, Shared.cookie.
    cbn [Shared._username Shared._pwd Shared._cookie].
    split; [|split].
    + apply D1. intros a Ha.
      rewrite (Old name a h Hn Ha) by congruence.
      subst name. rewrite F3 by (apply apart_sym; exact Anc).
      apply F2. apply apart_sym. exact Anp.
    + apply (gives_back_frame h h1).
      * apply D2. intros a Ha.
        rewrite (Old pwd a h Hp Ha) by congruence.
        subst pwd. apply F3. apply apart_sym. exact Apc.
      * intros a ->. apply F1. exact Anp.
    + apply (gives_back_frame h h2).
      * apply D3. intros a Ha.
        apply (Old cookie a h Hc Ha). congruence.
      * intros a ->. rewrite F2 by exact Apc. apply F1. exact Anc.
Qed.

Lemma encrypt_decrypt_round_trip_witness :
  (exists c, encrypt KEY "pass" = Ok c /\ decrypt KEY c = Ok "pass")
  /\ (exists u h1,
        Shared.init (Shared.RStr "user") (Shared.RStr "pass") (Shared.RDict 0) [[("k", "v")]]
        = (Ok u, h1)
        /\ Shared.name u h1 = (Ok (Shared.RStr "user"), h1)
        /\ Shared.cookie u h1 = (Ok (Shared.RDict (List.length h1)), h1 ++ [[("k", "v")]])).
Proof.
  destruct (encrypt_decrypt_round_trip "pass" (Shared.RStr "user") (Shared.RStr "pass")
              (Shared.RDict 0) [[("k", "v")]])
    as [[c [He [_ [_ [_ Hd]]]]] [u [h1 [Hu [Hn [_ Hc]]]]]].
  - reflexivity.
  - reflexivity.
  - reflexivity.
  - exists [("k", "v")]. split; [reflexivity|]. split; repeat constructor. intros [].
  - exact I.
  - exact I.
  - exact I.
  - split.
    + exists c. split; assumption.
    + exists u, h1. split; [exact Hu|]. split; [exact Hn|].
      destruct Hc as [d [Hd0 Hg]]. injection Hd0 as <-. exact Hg.
Defined.

(** C10 as stated fails on the empty string: stored as the name, it is
    a Python string, and the accessor returns [None] for it. *)
Lemma empty_name_comes_back_as_None :
  is_str ""
  /\ exists u h1,
       Shared.init (Shared.RStr "") Shared.RNone Shared.RNone [] = (Ok u, h1)
       /\ Shared.name u h1 = (Ok Shared.RNone, h1)
       /\ fst (Shared.name u h1) <> Ok (Shared.RStr "").
Proof.
  split; [reflexivity|].
  eexists _, _. split; [reflexivity|]. split; [reflexivity|]. discriminate.
Qed.

(** A dictionary given to [UserInfo] for two of its fields is encrypted
    twice, in place; each of the two accessors then returns a dictionary
    of ciphers, the plain values encrypted once, not the values that were
    given. *)
Theorem shared_dict_reads_back_as_cipher
    (h : Shared.store) (a : nat) (d : PyDict.t string) (pwd : Shared.ref) :
  nth_error h a = Some d ->
  PyDict.wf d ->
  Forall (fun kv => is_str (snd kv)) d ->
  match pwd with Shared.RDict _ => False | Shared.RStr p => is_str p | Shared.RNone => True end ->
  exists u h1 d1,
    Shared.init (Shared.RDict a) pwd (Shared.RDict a) h = (Ok u, h1)
    /\ Forall2 (fun kv kv' => fst kv' = fst kv /\ encrypt KEY (snd kv) = Ok (snd kv')) d d1
    /\ Shared.name u h1 = (Ok (Shared.RDict (List.length h1)), h1 ++ [d1])
    /\ Shared.cookie u h1 = (Ok (Shared.RDict (List.length h1)), h1 ++ [d1]).
Proof.
  intros Hh W Hs Hp.
  assert (Hn : Shared.ref_ok h (Shared.RDict a)) by (exists d; repeat split; assumption).
  destruct (encode_then_decode (Shared.RDict a) h Hn) as [en [h1 [E1 [L1 [F1 [_ S1]]]]]].
  destruct (S1 a eq_refl) as [-> [d0 [d1 [Hd0 [Hd1 R1]]]]].
  rewrite Hh in Hd0. injection Hd0 as <-.
  assert (Hp1 : Shared.ref_ok h1 pwd) by (destruct pwd; [exact I | exact Hp | contradiction]).
  destruct (encode_then_decode pwd h1 Hp1) as [ep [h2 [E2 [L2 [F2 _]]]]].
  assert (Keys : PyDict.keys d1 = PyDict.keys d).
  { clear - R1. induction R1 as [|[k v] [k' c] d d1 [Hk _] R IH]; [reflexivity|].
    cbn in *. subst k'. f_equal. exact IH. }
  assert (Str1 : Forall (fun kv => is_str (snd kv)) d1).
  { clear - R1. induction R1 as [|[k v] [k' c] d d1 [_ Hc] R IH]; constructor.
    - cbn in *. exact (encrypt_is_str v c Hc).
    - exact IH. }
  assert (Hd2 : nth_error h2 a = Some d1).
  { rewrite F2; [exact Hd1|]. destruct pwd; [exact I | exact I | contradiction]. }
  assert (Hc2 : Shared.ref_ok h2 (Shared.RDict a)).
  { exists d1. split; [exact Hd2|]. split; [|exact Str1].
    unfold PyDict.wf. rewrite Keys. exact W. }
  destruct (encode_then_decode (Shared.RDict a) h2 Hc2) as [ec [h3 [E3 [L3 [F3 [D3 S3]]]]]].
  destruct (S3 a eq_refl) as [-> _].
  exists (Shared.mk (Shared.RDict a) ep (Shared.RDict a) (Shared.RDict (List.length h3))),
    (h3 ++ [[]]), d1.
  split.
  { unfold Shared.init, bindS. rewrite E1, E2, E3. reflexivity. }
  split; [exact R1|].
  assert (G : Shared.gives_back h2 (Shared.RDict a) (h3 ++ [[]])
                (Shared.decode (Shared.RDict a) (h3 ++ [[]]))).
  { apply D3. intros a' Ha. injection Ha as <-.
    apply nth_error_app1. rewrite L3. apply nth_error_Some. rewrite Hd2. discriminate. }
  cbn [Shared.gives_back] in G. destruct G as [d' [Hd' G]].
  rewrite Hd2 in Hd'. injection Hd' as <-.
  unfold Shared.name, Shared.cookie. cbn [Shared._username Shared._cookie].
  split; exact G.
Qed.

Lemma shared_dict_reads_back_as_cipher_witness :
  exists u h1,
    Shared.init (Shared.RDict 0) (Shared.RStr "pass") (Shared.RDict 0) [[("k", "v")]]
    = (Ok u, h1)
    /\ Shared.name u h1 = (Ok (Shared.RDict (List.length h1)), h1 ++ [[("k", "8:")]]).
Proof.
  destruct (shared_dict_reads_back_as_cipher [[("k", "v")]] 0 [("k", "v")] (Shared.RStr "pass"))
    as [u [h1 [d1 [E [R [N _]]]]]].
  - reflexivity.
  - repeat constructor. intros [].
  - repeat constructor.
  - reflexivity.
  - exists u, h1. split; [exact E|].
    inversion R as [|kv kv' r r' [Hk Hc] R']; subst. inversion R'; subst.
    destruct kv' as [k' c]. cbn in Hk, Hc. subst k'.
    vm_compute in Hc. injection Hc as <-. exact N.
Defined.

(* ================================================================= *)
(** ** workers.py: a restart and the signal of the run before it *)

Lemma finished_delivered_pending (m : t) (a : nat) (d : Downloader) (n : nat) (url : string) :
  nth_error (objects m) a = Some d ->
  d_pending d = S n ->
  nth_error (frames m) (d_frame d) = Some (Some url) ->
  PyDict.mem (downloaders m) url = true ->
  finished_delivered a m
  = (Ok tt,
     with_downloaders
       (with_count
          (with_objects m
             (list_update (objects m) a
                (fun d => mkDownloader (d_name d) (d_url d) (d_pwd d) (d_save_path d)
                            (d_stopped d) (d_running d) n (d_frame d))))
          (_count m - 1))
       (PyDict.remove (downloaders m) url)).
Proof.
  intros Hd Hp Hf Hm.
  unfold finished_delivered, bindS at 1, object_at. rewrite Hd. cbn [fst snd]. rewrite Hp.
  unfold update_object, _add_thread, bindS, modify, get_state. cbn. rewrite Hf.
  cbn. rewrite Hm. reflexivity.
Qed.



(* ================================================================= *)
(** ** workers.py: a submit while the thread runs *)

(** C2, at the input where it fails.  A worker whose thread runs is
    given a second submit.  [set_values] writes its arguments over the
    attributes and calls [start()], which does nothing on a thread that
    runs: [run] is not entered, so the text that says the worker is at
    work, which only [run] emits, is not emitted, and nothing tells the
    caller that the submit was dropped.  For [LoginLuncher] the second
    submit adds nothing to the record; two submits in a row, the thread
    not yet at its first line, give one run, made with the user name,
    the password and the cookie of the second.  For [GetSharedInfo] on
    the link of a file the second submit emits the text that says the
    information is being fetched, and [update], and replaces the link
    and the password the run under way reads.  [ListRefresher] is the
    one worker that tests the flag in [set_values]: with the flag up it
    emits its text and changes nothing. *)
Theorem busy_submit_is_not_rejected
    (disk : LanZouCloud) (utils : Api.Utils) (text share_url x pwd : string)
    (rest : list (string * string * string)) :
  text <> "" ->
  Api.is_file_url utils share_url = true ->
  (forall (w : LoginLuncher.t) (l : list item) (n : nat)
          (username password : string) (cookie : pyval),
      LoginLuncher_set_values username password cookie (QThread.mk (mkIO w l) true n)
      = (Ok tt, QThread.mk (mkIO (LoginLuncher.mk username password cookie) l) true n))
  /\ (forall (w : LoginLuncher.t) (l : list item)
             (u1 p1 : string) (c1 : pyval) (u2 p2 : string) (c2 : pyval),
        (LoginLuncher_set_values u1 p1 c1 ;;;
         LoginLuncher_set_values u2 p2 c2 ;;;
         QThread.exec (LoginLuncher.run disk)) (QThread.mk (mkIO w l) false 0)
        = (LoginLuncher_set_values u2 p2 c2 ;;;
           QThread.exec (LoginLuncher.run disk)) (QThread.mk (mkIO w l) false 0))
  /\ (forall (w : GetSharedInfo.t) (l : list item) (n : nat),
        GetSharedInfo_set_values utils text ((share_url, x, pwd) :: rest)
          (QThread.mk (mkIO w l) true n)
        = (Ok tt,
           QThread.mk
             (mkIO (GetSharedInfo.mk share_url pwd true false
                      (GetSharedInfo._mutex w) (GetSharedInfo._is_work w))
                (l ++ [Emitted "msg" [o_str "正在获取文件链接信息……"; o_int 20000];
                       Emitted "update" []]))
             true n))
  /\ (forall (fid0 : Z) (f0 d0 p0 m0 : bool) (l : list Api.item) (running : bool) (n : nat)
             (fid : Z) (files folders path : bool),
        ListRefresher.set_values fid files folders path
          (QThread.mk (Api.mkIO (ListRefresher.mk fid0 f0 d0 p0 m0 true) l) running n)
        = (Ok tt,
           QThread.mk
             (Api.mkIO (ListRefresher.mk fid0 f0 d0 p0 m0 true)
                (l ++ [Api.Emitted "err_msg"
                         [Api.g_str "正在更新目录，请稍后再试！"; Api.g_int 3100]]))
             running n)).
Proof.
  intros Ht Hu. split; [|split; [|split]].
  - intros. reflexivity.
  - intros. reflexivity.
  - intros w l n. unfold GetSharedInfo_set_values.
    assert (T : truthy (PyStr text) = true).
    { cbn. apply negb_true_iff. apply String.eqb_neq. exact Ht. }
    rewrite T. cbn [negb]. rewrite Hu.
    unfold bindS, QThread.method, QThread.start, emit, record, set_self, modify, ret.
    cbn. rewrite <- app_assoc. reflexivity.
  - intros. reflexivity.
Qed.

Lemma busy_submit_is_not_rejected_witness :
  let disk := mkDisk 0 (-1) 6 3 2 7 9 (fun _ _ => mkReply [] (Ok (a_code 0))) in
  let utils := Api.mkUtils (fun _ => true) (fun _ => false) in
  let first := LoginLuncher.mk "alice" "secret" PyNone in
  (LoginLuncher_set_values "bob" "hunter2" PyNone (QThread.mk (mkIO first []) true 1)
   = (Ok tt, QThread.mk (mkIO (LoginLuncher.mk "bob" "hunter2" PyNone) []) true 1))
  /\ calls_in
       (log (QThread.obj
          (snd ((LoginLuncher_set_values "alice" "secret" PyNone ;;;
                 LoginLuncher_set_values "bob" "hunter2" PyNone ;;;
                 QThread.exec (LoginLuncher.run disk))
                  (QThread.mk (mkIO (LoginLuncher.mk "" "" PyNone) []) false 0)))))
     = [Called (login "bob" "hunter2"); Called get_cookie].
Proof.
  intros disk utils first.
  destruct (busy_submit_is_not_rejected disk utils "https://www.lanzous.com/i1 1234"
              "https://www.lanzous.com/i1" "" "1234" [])
    as [H1 [H2 _]].
  - discriminate.
  - reflexivity.
  - split; [apply H1|]. rewrite H2. reflexivity.
Defined.

(* ================================================================= *)
(** ** workers.py: RenameMkdirWorker *)

(** C3, at the input where it fails.  [RenameMkdirWorker.run] reads
    [self.infos[0]] after it has taken the mutex and set the flag, and
    before [try:].  With [infos] [None], as the object is made, or empty,
    the line raises: the exception leaves [run], the thread ends, the
    flag stays up and the mutex locked, nothing is emitted.  From then
    on every submit, whatever it asks, starts a run that finds the flag
    up: it emits the text that says the worker is at work, calls no
    backend, and leaves flag and mutex as they are. *)
Theorem fault_before_try_locks_the_worker
    (disk : Api.LanZouCloud) (work_id : Z) (folder_list : option (PyDict.t Api.entry))
    (l : list Api.item) :
  let fresh := QThread.mk (Api.mkIO RenameMkdirWorker.init l) false 0 in
  let stuck := fun infos id fl log n =>
                 QThread.mk (Api.mkIO (RenameMkdirWorker.mk infos id fl true true) log)
                   false n in
  (RenameMkdirWorker.set_values None work_id folder_list ;;;
   QThread.exec (RenameMkdirWorker.run disk)) fresh
  = (Raise TypeError, stuck None work_id folder_list (l ++ [Api.Locked]) 1%nat)
  /\ (RenameMkdirWorker.set_values (Some []) work_id folder_list ;;;
      QThread.exec (RenameMkdirWorker.run disk)) fresh
     = (Raise IndexError, stuck (Some []) work_id folder_list (l ++ [Api.Locked]) 1%nat)
  /\ forall infos0 id0 fl0 log n infos id fl,
       (RenameMkdirWorker.set_values infos id fl ;;;
        QThread.exec (RenameMkdirWorker.run disk)) (stuck infos0 id0 fl0 log n)
       = (Ok tt,
          stuck infos id fl
            (log ++ [Api.Emitted "msg" [Api.g_str busy_text_2; Api.g_int 3100]]) (S n)).
Proof.
  intros fresh stuck. split; [|split].
  - reflexivity.
  - reflexivity.
  - intros. reflexivity.
Qed.

(* ================================================================= *)
(** ** workers.py: the text that says the worker is at work *)

(** The lines of a guarded [run], once the flag was found down, with
    what they add to the record kept to [allowed]. *)
Lemma guard_pattern_for {W : Type} (allowed : item -> bool) (lockf unflagf : W -> W)
    (body : St (io W) unit) (handler : exn -> St (io W) unit)
    (w : W) (l : list item) :
  adds allowed body ->
  (forall e, adds allowed (handler e)) ->
  (forall e s, fst (handler e s) = Ok tt) ->
  exists work,
    (record Locked ;;; set_self lockf ;;; try_except body handler ;;;
     set_self unflagf ;;; record Unlocked) (mkIO w l)
    = (Ok tt, mkIO (unflagf (lockf w)) (l ++ Locked :: work ++ [Unlocked]))
    /\ forallb allowed work = true.
Proof.
  intros Hb Hh Hok.
  destruct (adds_try allowed body handler Hb Hh (mkIO (lockf w) (l ++ [Locked])))
    as [work [E F]].
  exists work. split; [|exact F].
  unfold bindS at 1. cbn [record modify self log].
  unfold bindS at 1. cbn [set_self modify self log].
  unfold bindS at 1.
  assert (R : fst (try_except body handler (mkIO (lockf w) (l ++ [Locked]))) = Ok tt).
  { unfold try_except. destruct (body _) as [[[]|e] s1]; [reflexivity|apply Hok]. }
  destruct (try_except body handler (mkIO (lockf w) (l ++ [Locked]))) as [r s2].
  cbn [fst snd] in R, E. subst r s2.
  unfold record, set_self, modify, bindS. cbn. rewrite <- !app_assoc. reflexivity.
Qed.

Lemma quiet_guarded (work : list item) :
  forallb is_quiet_work work = true ->
  forallb (fun i => negb (is_busy_text i)) (Locked :: work ++ [Unlocked]) = true.
Proof.
  intros H. cbn [forallb is_busy_text negb andb]. rewrite forallb_app. cbn.
  rewrite andb_true_r. rewrite forallb_forall in *. intros i Hi.
  specialize (H i Hi). unfold is_quiet_work in H. apply andb_true_iff in H. tauto.
Qed.

(** A text that ends as [suffix] does is none that ends otherwise. *)
Lemma list_of_append (a b : string) :
  list_ascii_of_string (a ++ b) = list_ascii_of_string a ++ list_ascii_of_string b.
Proof. induction a as [|c a IH]; cbn; [reflexivity|]. rewrite IH. reflexivity. Qed.

Lemma ends_otherwise (u suffix text : string) :
  list_ascii_of_string suffix
  <> skipn (List.length (list_ascii_of_string text)
            - List.length (list_ascii_of_string suffix))
       (list_ascii_of_string text) ->
  String.eqb (u ++ suffix) text = false.
Proof.
  intros H. apply String.eqb_neq. intros E. apply H.
  apply (f_equal list_ascii_of_string) in E. rewrite list_of_append in E.
  rewrite <- E. rewrite length_app, Nat.add_sub.
  rewrite skipn_app, Nat.sub_diag, skipn_all. reflexivity.
Qed.

Lemma illegal_link_is_no_busy_text (share_url : string) :
  is_busy_text (Emitted "msg" [o_str (share_url ++ " 为非法链接！"); o_int 0]) = false.
Proof.
  cbn [is_busy_text]. rewrite !ends_otherwise; [reflexivity| | |];
    vm_compute; discriminate.
Qed.

Section Histories.
Context {W A : Type}.
Variable flag : W -> bool.
Variable submit : A -> St (QThread.t (io W)) unit.
Variable run : St (io W) unit.

Hypothesis submit_keeps :
  forall a w l r n, exists w' added r' n',
    after (submit a) (QThread.mk (mkIO w l) r n) = QThread.mk (mkIO w' (l ++ added)) r' n'
    /\ flag w' = flag w
    /\ forallb (fun i => negb (is_busy_text i)) added = true.

Hypothesis run_releases :
  forall w l, flag w = false ->
    exists res w' added,
      run (mkIO w l) = (res, mkIO w' (l ++ added))
      /\ flag w' = false
      /\ forallb (fun i => negb (is_busy_text i)) added = true.

Lemma history_is_quiet (steps : list (step A)) :
  forall w l r n,
    flag w = false ->
    exists w' added r' n',
      history submit run steps (QThread.mk (mkIO w l) r n)
      = QThread.mk (mkIO w' (l ++ added)) r' n'
      /\ flag w' = false
      /\ forallb (fun i => negb (is_busy_text i)) added = true.
Proof.
  induction steps as [|s steps IH]; intros w l r n Hf.
  - exists w, [], r, n. rewrite app_nil_r. repeat split. exact Hf.
  - cbn [history fold_left].
    assert (Step : exists w1 a1 r1 n1,
               match s with
               | Submit a => after (submit a) (QThread.mk (mkIO w l) r n)
               | Exec => after (QThread.exec run) (QThread.mk (mkIO w l) r n)
               end = QThread.mk (mkIO w1 (l ++ a1)) r1 n1
               /\ flag w1 = false
               /\ forallb (fun i => negb (is_busy_text i)) a1 = true).
    { destruct s as [a|].
      - destruct (submit_keeps a w l r n) as [w1 [a1 [r1 [n1 [E [F Q]]]]]].
        exists w1, a1, r1, n1. split; [exact E|]. split; [congruence | exact Q].
      - unfold after, QThread.exec. cbn [QThread.isRunning QThread.obj QThread.begun].
        destruct r.
        + destruct (run_releases w l Hf) as [res [w1 [a1 [E [F Q]]]]].
          rewrite E. exists w1, a1, false, n. repeat split; assumption.
        + exists w, [], false, n. rewrite app_nil_r. repeat split. exact Hf. }
    destruct Step as [w1 [a1 [r1 [n1 [E [F Q]]]]]]. rewrite E.
    destruct (IH w1 (l ++ a1) r1 n1 F) as [w2 [a2 [r2 [n2 [E2 [F2 Q2]]]]]].
    fold (history submit run steps (QThread.mk (mkIO w1 (l ++ a1)) r1 n1)).
    rewrite E2. exists w2, (a1 ++ a2), r2, n2. rewrite app_assoc.
    split; [reflexivity|]. split; [exact F2|]. rewrite forallb_app, Q, Q2. reflexivity.
Qed.
End Histories.

Lemma SetPwdWorker_run_items_quiet (disk : LanZouCloud) (l : list Infos) :
  forall v, adds is_quiet_work (SetPwdWorker.run_items disk l v).
Proof.
  induction l as [|i l IH]; intros v; cbn [SetPwdWorker.run_items].
  - apply adds_ret.
  - apply adds_bind; [|intros v'; apply IH].
    unfold SetPwdWorker.run_item. adds_tac.
Qed.

Lemma GetSharedInfo_run_quiet (disk : LanZouCloud) (w : GetSharedInfo.t) (l : list item) :
  GetSharedInfo._is_work w = false ->
  exists res w' added,
    GetSharedInfo.run disk (mkIO w l) = (res, mkIO w' (l ++ added))
    /\ GetSharedInfo._is_work w' = false
    /\ forallb (fun i => negb (is_busy_text i)) added = true.
Proof.
  intros Hf.
  destruct (guard_pattern_for is_quiet_work GetSharedInfo.lock_and_flag
              GetSharedInfo.unflag_and_unlock
              (GetSharedInfo.run_try disk) GetSharedInfo.run_except w l)
    as [work [E F]].
  - unfold GetSharedInfo.run_try, GetSharedInfo.emit_msg, infos_code, infos_item.
    adds_tac.
  - intros e. unfold GetSharedInfo.run_except. adds_tac.
  - intros e s. destruct e; reflexivity.
  - eexists _, _, _. unfold GetSharedInfo.run, bindS at 1. cbn [get_self self].
    rewrite Hf. cbn [negb]. rewrite E. split; [reflexivity|].
    split; [reflexivity | apply quiet_guarded, F].
Qed.

Lemma SetPwdWorker_run_quiet (disk : LanZouCloud) (w : SetPwdWorker.t) (l : list item) :
  SetPwdWorker._is_work w = false ->
  exists res w' added,
    SetPwdWorker.run disk (mkIO w l) = (res, mkIO w' (l ++ added))
    /\ SetPwdWorker._is_work w' = false
    /\ forallb (fun i => negb (is_busy_text i)) added = true.
Proof.
  intros Hf.
  destruct (guard_pattern_for is_quiet_work SetPwdWorker.lock_and_flag
              SetPwdWorker.unflag_and_unlock
              (SetPwdWorker.run_try disk) SetPwdWorker.run_except w l)
    as [work [E F]].
  - unfold SetPwdWorker.run_try.
    apply adds_bind; [apply adds_get_self|]. intros w0.
    apply adds_bind; [apply SetPwdWorker_run_items_quiet|]. intros v.
    adds_tac.
  - intros e. unfold SetPwdWorker.run_except. adds_tac.
  - intros e s. destruct e; reflexivity.
  - eexists _, _, _. unfold SetPwdWorker.run, bindS at 1. cbn [get_self self].
    rewrite Hf. cbn [negb]. rewrite E. split; [reflexivity|].
    split; [reflexivity | apply quiet_guarded, F].
Qed.

Lemma LogoutWorker_run_quiet (disk : LanZouCloud) (w : LogoutWorker.t) (l : list item) :
  LogoutWorker._is_work w = false ->
  exists res w' added,
    LogoutWorker.run disk (mkIO w l) = (res, mkIO w' (l ++ added))
    /\ LogoutWorker._is_work w' = false
    /\ forallb (fun i => negb (is_busy_text i)) added = true.
Proof.
  intros Hf.
  destruct (guard_pattern_for is_quiet_work LogoutWorker.lock_and_flag
              LogoutWorker.unflag_and_unlock
              (LogoutWorker.run_try disk) LogoutWorker.run_except w l)
    as [work [E F]].
  - unfold LogoutWorker.run_try. adds_tac.
  - intros e. unfold LogoutWorker.run_except. adds_tac.
  - intros e s. destruct e; reflexivity.
  - eexists _, _, _. unfold LogoutWorker.run, bindS at 1. cbn [get_self self].
    rewrite Hf. cbn [negb]. rewrite E. split; [reflexivity|].
    split; [reflexivity | apply quiet_guarded, F].
Qed.

Lemma RemoveFilesWorker_run_quiet (disk : LanZouCloud) (w : RemoveFilesWorker.t)
    (l : list item) :
  RemoveFilesWorker._is_work w = false ->
  exists res w' added,
    RemoveFilesWorker.run disk (mkIO w l) = (res, mkIO w' (l ++ added))
    /\ RemoveFilesWorker._is_work w' = false
    /\ forallb (fun i => negb (is_busy_text i)) added = true.
Proof.
  intros Hf.
  unfold RemoveFilesWorker.run, bindS at 1. cbn [get_self self]. rewrite Hf. cbn [negb].
  destruct (RemoveFilesWorker.infos w) as [|i0 rest] eqn:Ei.
  - eexists _, _, _. unfold record, set_self, modify, bindS. cbn.
    rewrite <- !app_assoc. split; [reflexivity|]. split; reflexivity.
  - set (s1 := mkIO (RemoveFilesWorker.lock_and_flag w) (l ++ [Locked])).
    assert (Item : forall i, adds is_quiet_work (RemoveFilesWorker.run_item disk i)).
    { intros i. unfold RemoveFilesWorker.run_item. adds_tac. }
    destruct (adds_for_in is_quiet_work (i0 :: rest) (RemoveFilesWorker.run_item disk)
                Item s1) as [work [E F]].
    pose proof (for_in_ok (i0 :: rest) (RemoveFilesWorker.run_item disk)
                  (RemoveFilesWorker_run_item_ok disk) s1) as R.
    unfold bindS at 1. cbn [record modify self log].
    unfold bindS at 1. cbn [set_self modify self log]. fold s1.
    unfold bindS at 1.
    destruct (for_in (i0 :: rest) (RemoveFilesWorker.run_item disk) s1) as [r s2].
    cbn [fst snd] in R, E. subst r s2.
    unfold emit, record, set_self, modify, bindS. cbn.
    rewrite <- !app_assoc. cbn.
    eexists _, _, _. split; [reflexivity|]. split; [reflexivity|].
    cbn [forallb is_busy_text negb andb]. rewrite forallb_app. cbn.
    rewrite andb_true_r. rewrite forallb_forall in *. intros i Hi.
    specialize (F i Hi). unfold is_quiet_work in F. apply andb_true_iff in F. tauto.
Qed.


(* ================================================================= *)
(** ** workers.py: what RenameMkdirWorker asks and tells *)

Section RenameFacts.
Import Api.

(** The body of the loop of [RenameMkdirWorker.run], in one equation. *)
Lemma RenameMkdirWorker_run_edit_eq (disk : LanZouCloud) (v : RenameMkdirWorker.locals)
    (info : edit) (s : io RenameMkdirWorker.t) :
  RenameMkdirWorker.run_edit disk v info s
  = if RenameMkdirWorker.nameless info then (Raise OtherError, s)
    else
      (match outcome (respond disk (List.length (calls_in (log s)))
                        (RenameMkdirWorker.call_of info)) with
       | Ok res =>
           Ok (if answer_is res (SUCCESS disk)
               then RenameMkdirWorker.mkLocals
                      (if ed_is_file info then true else RenameMkdirWorker.has_file v)
                      (if ed_is_file info then RenameMkdirWorker.has_folder v else true)
                      (RenameMkdirWorker.failed v)
               else RenameMkdirWorker.mkLocals (RenameMkdirWorker.has_file v)
                      (RenameMkdirWorker.has_folder v) true)
       | Raise e => Raise e
       end,
       mkIO (self s) (log s ++ [Called (RenameMkdirWorker.call_of info)])).
Proof.
  unfold RenameMkdirWorker.run_edit, RenameMkdirWorker.nameless, RenameMkdirWorker.call_of.
  destruct (ed_is_file info) eqn:Ef; cbn [negb andb].
  - unfold bindS. rewrite api_ask_eq. cbn [fst snd].
    destruct (outcome _) as [res|e]; [|reflexivity].
    destruct (answer_is res (SUCCESS disk)); reflexivity.
  - destruct (String.eqb (ed_new_name info) "") eqn:En; cbn [negb].
    + unfold bindS, raise. reflexivity.
    + unfold bindS at 1. cbn [ret fst snd]. unfold bindS. rewrite api_ask_eq. cbn [fst snd].
      destruct (outcome _) as [res|e]; [|reflexivity].
      destruct (answer_is res (SUCCESS disk)); reflexivity.
Qed.

(** The loop on a selection whose item [k] is the first folder without a
    new name, the calls before it being answered. *)
Lemma RenameMkdirWorker_edits_until (disk : LanZouCloud) (k : nat) :
  forall (edits : list edit) (bad : edit) (v : RenameMkdirWorker.locals)
         (s : io RenameMkdirWorker.t),
    nth_error edits k = Some bad ->
    RenameMkdirWorker.nameless bad = true ->
    forallb (fun i => negb (RenameMkdirWorker.nameless i)) (firstn k edits) = true ->
    (forall n i, (n < k)%nat -> nth_error edits n = Some i ->
       exists a, outcome (respond disk (List.length (calls_in (log s)) + n)
                            (RenameMkdirWorker.call_of i)) = Ok a) ->
    RenameMkdirWorker.run_edits disk edits v s
    = (Raise OtherError,
       mkIO (self s)
         (log s ++ map (fun i => Called (RenameMkdirWorker.call_of i)) (firstn k edits))).
Proof.
  induction k as [|k IH]; intros edits bad v s Hn Hb Hok Hans.
  - destruct edits as [|i edits]; [discriminate|]. cbn [nth_error] in Hn.
    injection Hn as ->. cbn [RenameMkdirWorker.run_edits firstn map].
    unfold bindS. rewrite RenameMkdirWorker_run_edit_eq, Hb. rewrite app_nil_r.
    destruct s; reflexivity.
  - destruct edits as [|i edits]; [discriminate|]. cbn [nth_error] in Hn.
    cbn [firstn forallb] in Hok. apply andb_true_iff in Hok. destruct Hok as [Hi Hok].
    apply negb_true_iff in Hi.
    cbn [RenameMkdirWorker.run_edits firstn map]. unfold bindS.
    rewrite RenameMkdirWorker_run_edit_eq, Hi.
    destruct (Hans O i ltac:(lia) eq_refl) as [a Ha]. rewrite Nat.add_0_r in Ha.
    rewrite Ha.
    rewrite (IH edits bad _ _ Hn Hb Hok).
    + cbn [self log]. rewrite <- app_assoc. reflexivity.
    + intros n i' Hlt Hn'. cbn [log].
      destruct (Hans (S n) i' ltac:(lia) Hn') as [a' Ha']. exists a'.
      rewrite api_calls_in_app, length_app. cbn [calls_in filter is_call List.length].
      replace (List.length (calls_in (log s)) + 1 + n)%nat
        with (List.length (calls_in (log s)) + S n)%nat by lia.
      exact Ha'.
Qed.

Lemma RenameMkdirWorker_run_except (e : exn) (s : io RenameMkdirWorker.t) :
  RenameMkdirWorker.run_except e s
  = (Ok tt, mkIO (self s)
              (log s ++ match e with
                        | TimeoutError => [Emitted "msg" [g_str "网络超时，请稍后重试！"; g_int 6000]]
                        | _ => []
                        end)).
Proof. destruct e, s; cbn; rewrite ?app_nil_r; reflexivity. Qed.

(** A new folder.  [RenameMkdirWorker.run], given ['new'], a name and a
    description, with the folders of the directory at hand and the flag
    down, does this and no more.  When the name is that of a folder of
    the directory it tells so and calls no backend.  Otherwise it calls
    [mkdir] once, with the directory, the name and the description: on
    [MKDIR_ERROR] it tells the failure; on any other result it waits one
    second and a half, emits [update] for the folders of the directory
    and tells the success; on a timeout it tells the timeout; on any
    other exception it tells nothing.  In every case it returns, the
    object as it was, the mutex taken once and released. *)
Theorem new_folder_asks_once_unless_it_exists
    (disk : LanZouCloud) (name : string) (des : value) (rest : list value)
    (work_id : Z) (folders : PyDict.t entry) (l : list item) :
  let w := RenameMkdirWorker.mk (Some (v_str "new" :: v_str name :: des :: rest))
             work_id (Some folders) false false in
  RenameMkdirWorker.run disk (mkIO w l)
  = (Ok tt,
     mkIO w
       (l ++ Locked
          :: (if PyDict.mem folders name
              then [Emitted "msg" [g_str ("文件夹已存在：" ++ name); g_int 7000]]
              else
                Called (mkdir work_id name des)
                :: match outcome (respond disk (List.length (calls_in l))
                                    (mkdir work_id name des)) with
                   | Ok res =>
                       if answer_is res (MKDIR_ERROR disk)
                       then [Emitted "msg" [g_str ("创建文件夹失败：" ++ name); g_int 7000]]
                       else [Slept 1500;
                             Emitted "update" [g_int work_id; g_bool false; g_bool true;
                                               g_bool false];
                             Emitted "msg" [g_str ("成功创建文件夹：" ++ name); g_int 4000]]
                   | Raise TimeoutError =>
                       [Emitted "msg" [g_str "网络超时，请稍后重试！"; g_int 6000]]
                   | Raise _ => []
                   end)
          ++ [Unlocked])).
Proof.
  intros w. subst w.
  unfold RenameMkdirWorker.run, RenameMkdirWorker.run_try, RenameMkdirWorker.run_new,
    RenameMkdirWorker.infos_item, try_except, bindS, get_self, set_self, record, modify,
    ret, raise, RenameMkdirWorker.lock_and_flag, RenameMkdirWorker.unflag_and_unlock.
  cbn [fst snd self log RenameMkdirWorker.infos RenameMkdirWorker._work_id
       RenameMkdirWorker._folder_list RenameMkdirWorker._mutex RenameMkdirWorker._is_work
       nth_error negb RenameMkdirWorker.is_new].
  rewrite String.eqb_refl.
  cbn [fst snd self log RenameMkdirWorker.infos RenameMkdirWorker._work_id
       RenameMkdirWorker._folder_list RenameMkdirWorker._mutex RenameMkdirWorker._is_work
       nth_error negb].
  destruct (PyDict.mem folders name).
  - unfold emit, record, modify. cbn [fst snd self log].
    rewrite <- ?app_assoc. reflexivity.
  - rewrite api_ask_eq. cbn [fst snd self log].
    assert (N : List.length (calls_in (l ++ [Locked])) = List.length (calls_in l))
      by (rewrite api_calls_in_app; cbn; rewrite app_nil_r; reflexivity).
    rewrite N.
    destruct (outcome (respond disk (List.length (calls_in l)) (mkdir work_id name des)))
      as [res|e].
    + destruct (answer_is res (MKDIR_ERROR disk));
        unfold sleep, emit, record, modify; cbn [fst snd self log];
        rewrite <- ?app_assoc; reflexivity.
    + rewrite RenameMkdirWorker_run_except. cbn [fst snd self log].
      destruct e; rewrite <- ?app_assoc; cbn [app]; rewrite ?app_nil_r; reflexivity.
Qed.

(** Renaming stops without a word at a folder that is given no new
    name.  The name sent for a folder is [info.new_name or info.nmae],
    and the objects have no attribute [nmae]: at the first folder of the
    selection whose new name is empty [AttributeError] is raised, caught
    and logged.  When item [k] is that folder and the backend answers
    the calls before it, the run is: the mutex taken, the [k] items
    before changed, in order, the mutex released.  Neither [update] nor
    a message is emitted, though [k] items were changed. *)
Theorem rename_stops_silently_at_a_nameless_folder
    (disk : LanZouCloud) (action : value) (edits : list edit) (rest : list value)
    (work_id : Z) (folders : option (PyDict.t entry)) (l : list item)
    (k : nat) (bad : edit) :
  RenameMkdirWorker.is_new action = false ->
  nth_error edits k = Some bad ->
  RenameMkdirWorker.nameless bad = true ->
  forallb (fun i => negb (RenameMkdirWorker.nameless i)) (firstn k edits) = true ->
  (forall n i, (n < k)%nat -> nth_error edits n = Some i ->
     exists a, outcome (respond disk (List.length (calls_in l) + n)
                          (RenameMkdirWorker.call_of i)) = Ok a) ->
  let w := RenameMkdirWorker.mk (Some (action :: v_edits edits :: rest))
             work_id folders false false in
  RenameMkdirWorker.run disk (mkIO w l)
  = (Ok tt,
     mkIO w
       (l ++ Locked
          :: map (fun i => Called (RenameMkdirWorker.call_of i)) (firstn k edits)
          ++ [Unlocked])).
Proof.
  intros Ha Hn Hb Hok Hans w. subst w.
  unfold RenameMkdirWorker.run, RenameMkdirWorker.run_try, RenameMkdirWorker.run_rename,
    RenameMkdirWorker.infos_item, try_except, bindS, get_self, set_self, record, modify,
    ret, raise, RenameMkdirWorker.lock_and_flag, RenameMkdirWorker.unflag_and_unlock.
  cbn [fst snd self log RenameMkdirWorker.infos RenameMkdirWorker._work_id
       RenameMkdirWorker._folder_list RenameMkdirWorker._mutex RenameMkdirWorker._is_work
       nth_error negb].
  rewrite Ha.
  cbn [fst snd self log RenameMkdirWorker.infos RenameMkdirWorker._work_id
       RenameMkdirWorker._folder_list RenameMkdirWorker._mutex RenameMkdirWorker._is_work
       nth_error negb].
  rewrite (RenameMkdirWorker_edits_until disk k edits bad _ _ Hn Hb Hok).
  - rewrite RenameMkdirWorker_run_except. cbn [fst snd self log].
    rewrite ?app_nil_r, <- ?app_assoc. reflexivity.
  - intros n i Hlt Hi. cbn [log].
    rewrite api_calls_in_app. cbn [calls_in filter is_call]. rewrite app_nil_r.
    exact (Hans n i Hlt Hi).
Qed.

Lemma rename_stops_silently_at_a_nameless_folder_witness :
  let disk := mkDisk 0 (-1) 9 5 (fun _ _ => mkReply [] (Ok (a_code 0))) in
  let edits := [mkEdit true 11 "" "notes"; mkEdit false 12 "" "holiday"] in
  let w := RenameMkdirWorker.mk (Some [v_str "folder"; v_edits edits]) 5 None false false in
  RenameMkdirWorker.run disk (mkIO w [])
  = (Ok tt, mkIO w [Locked; Called (set_desc 11 "notes" true); Unlocked]).
Proof.
  intros disk edits w.
  apply (rename_stops_silently_at_a_nameless_folder disk (v_str "folder") edits [] 5 None []
           1 (mkEdit false 12 "" "holiday")).
  - reflexivity.
  - reflexivity.
  - reflexivity.
  - reflexivity.
  - intros n i _ _. exists (a_code 0). reflexivity.
Defined.

End RenameFacts.

(* ================================================================= *)
(** ** GetAllFoldersWorker: moving items, and the list of folders *)

Section MoveFacts.
Import Api.

(** One turn of the loop of [run]: one call, one [msg], and the three
    variables updated when the call returned [SUCCESS]. *)
Lemma GetAllFoldersWorker_run_move (disk : LanZouCloud)
    (v : GetAllFoldersWorker.locals) (info : GetAllFoldersWorker.move)
    (s : io GetAllFoldersWorker.t) :
  let ok := GetAllFoldersWorker.moved disk (List.length (calls_in (log s))) info in
  exists text ms,
    GetAllFoldersWorker.run_move disk v info s
    = (Ok (GetAllFoldersWorker.mkLocals
             (GetAllFoldersWorker.no_err v || ok)
             (GetAllFoldersWorker.r_files v || (GetAllFoldersWorker.mv_is_file info && ok))
             (GetAllFoldersWorker.r_folders v
              || (negb (GetAllFoldersWorker.mv_is_file info) && ok))),
       mkIO (self s)
         (log s ++ [Called (GetAllFoldersWorker.call_of info);
                    Emitted "msg" [g_str text; g_int ms]])).
Proof.
  intros ok. subst ok.
  unfold GetAllFoldersWorker.run_move, GetAllFoldersWorker.move_file_folder,
    GetAllFoldersWorker.moved, GetAllFoldersWorker.call_of, try_except.
  destruct v as [ne rfi rfo]. destruct s as [w l].
  destruct (GetAllFoldersWorker.mv_is_file info) eqn:F;
    unfold bindS at 1; rewrite api_ask_eq; cbn [fst snd self log];
    (destruct (outcome _) as [a|e];
     [ destruct (answer_is a (SUCCESS disk)) eqn:A
     | destruct e ]);
    unfold bindS, emit, record, modify, ret; cbn [fst snd self log
      GetAllFoldersWorker.no_err GetAllFoldersWorker.r_files GetAllFoldersWorker.r_folders
      negb andb];
    rewrite ?orb_true_r, ?orb_false_r, <- ?app_assoc; cbn [app];
    do 2 eexists; reflexivity.
Qed.

(** The loop of [run]: every item is tried, in the order of the list,
    whatever happened to the items before it. *)
Lemma GetAllFoldersWorker_run_moves (disk : LanZouCloud)
    (moves : list GetAllFoldersWorker.move) :
  forall (v : GetAllFoldersWorker.locals) (s : io GetAllFoldersWorker.t),
    let tried := combine (seq (List.length (calls_in (log s))) (List.length moves)) moves in
    let ok := fun p : nat * GetAllFoldersWorker.move =>
                GetAllFoldersWorker.moved disk (fst p) (snd p) in
    exists added,
      GetAllFoldersWorker.run_moves disk moves v s
      = (Ok (GetAllFoldersWorker.mkLocals
               (GetAllFoldersWorker.no_err v || existsb ok tried)
               (GetAllFoldersWorker.r_files v
                || existsb (fun p => GetAllFoldersWorker.mv_is_file (snd p) && ok p) tried)
               (GetAllFoldersWorker.r_folders v
                || existsb (fun p => negb (GetAllFoldersWorker.mv_is_file (snd p)) && ok p)
                     tried)),
         mkIO (self s) (log s ++ added))
      /\ calls_in added = map (fun m => Called (GetAllFoldersWorker.call_of m)) moves
      /\ List.length (emitted "msg" added) = List.length moves
      /\ emitted "moved" added = []
      /\ (forall i, In i added -> is_call i = true \/ is_emission i = true).
Proof.
  induction moves as [|info rest IH]; intros v s tried ok.
  - exists []. subst tried. cbn. rewrite !orb_false_r, app_nil_r.
    destruct v, s; repeat split; try contradiction.
  - cbn [GetAllFoldersWorker.run_moves]. unfold bindS at 1.
    destruct (GetAllFoldersWorker_run_move disk v info s) as [text [ms E]].
    rewrite E. cbn [fst snd].
    match goal with
    | |- context [GetAllFoldersWorker.run_moves disk rest ?v1 ?s1] =>
        destruct (IH v1 s1) as [added [E1 [C1 [M1 [R1 O1]]]]]
    end.
    rewrite E1. cbn [self log] in *.
    rewrite <- app_assoc in *. cbn [app] in *.
    rewrite api_calls_in_app in *.
    replace (List.length
               (calls_in (log s)
                ++ calls_in [Called (GetAllFoldersWorker.call_of info);
                             Emitted "msg" [g_str text; g_int ms]]))
      with (S (List.length (calls_in (log s))))
      by (rewrite length_app; cbn; lia).
    eexists. split; [|split; [|split; [|split]]].
    + subst tried ok. cbn [List.length seq combine existsb fst snd
        GetAllFoldersWorker.no_err GetAllFoldersWorker.r_files
        GetAllFoldersWorker.r_folders].
      rewrite <- !orb_assoc. reflexivity.
    + cbn [calls_in filter is_call map]. f_equal. exact C1.
    + cbn [emitted flat_map String.eqb Ascii.eqb Bool.eqb app List.length].
      change (flat_map _ added) with (emitted "msg" added). rewrite M1. reflexivity.
    + cbn [emitted flat_map app]. change (flat_map _ added) with (emitted "moved" added).
      rewrite R1. reflexivity.
    + intros i [<-|[<-|H]]; [left; reflexivity | right; reflexivity | exact (O1 i H)].
Qed.



(** The request that raises no exception but returns what has no
    [name_id] is treated like any other fault. *)
Lemma GetAllFoldersWorker_run_folders (disk : LanZouCloud) (w : GetAllFoldersWorker.t)
    (l : list item) :
  GetAllFoldersWorker.run_folders disk (mkIO w l)
  = (Ok tt,
     mkIO w
       (l ++ Emitted "msg" [g_str "网络请求中，请稍后……"; g_int 0]
          :: Called get_move_folders
          :: match outcome (respond disk (List.length (calls_in l)) get_move_folders) with
             | Ok (a_folders d) =>
                 [Emitted "infos"
                    [match GetAllFoldersWorker.org_infos w with
                     | Some o => g_ref o
                     | None => g_none
                     end; g_names d];
                  Emitted "msg" [g_str ""; g_int 0]]
             | Raise TimeoutError => [Emitted "msg" [g_str "网络超时！稍后重试"; g_int 6000]]
             | _ => []
             end)).
Proof.
  unfold GetAllFoldersWorker.run_folders, try_except.
  unfold bindS at 1. cbn [emit record modify fst snd self log].
  unfold bindS at 1. rewrite api_ask_eq. cbn [fst snd self log].
  replace (List.length (calls_in (l ++ [Emitted "msg" [g_str "网络请求中，请稍后……"; g_int 0]])))
    with (List.length (calls_in l))
    by (rewrite api_calls_in_app; cbn; rewrite app_nil_r; reflexivity).
  destruct (outcome _) as [a|e].
  - destruct a; unfold GetAllFoldersWorker.name_id_of, bindS, get_self, emit, record,
      modify, ret, raise; cbn [fst snd self log]; rewrite <- ?app_assoc; reflexivity.
  - destruct e; unfold bindS, emit, record, modify, ret; cbn [fst snd self log];
      rewrite <- ?app_assoc; reflexivity.
Qed.

(** The list of all the folders, asked for with nothing to move ([None],
    or an empty list, which [run] takes for the same) and the flag down.
    [run] announces the request, asks the backend once, and on an answer
    emits [infos] with the object it was given and the names, then clears
    the announcement.  On a timeout it says so.  On any other fault it
    emits nothing more: the announcement, which has no duration, is the
    last thing shown.  The guard is released in all three cases. *)
Theorem folder_list_is_asked_once
    (disk : LanZouCloud) (w : GetAllFoldersWorker.t) (l : list item) :
  GetAllFoldersWorker._is_work w = false ->
  GetAllFoldersWorker.move_infos w = None \/ GetAllFoldersWorker.move_infos w = Some [] ->
  GetAllFoldersWorker.run disk (mkIO w l)
  = (Ok tt,
     mkIO (GetAllFoldersWorker.unflag_and_unlock w)
       (l ++ Locked
          :: Emitted "msg" [g_str "网络请求中，请稍后……"; g_int 0]
          :: Called get_move_folders
          :: match outcome (respond disk (List.length (calls_in l)) get_move_folders) with
             | Ok (a_folders d) =>
                 [Emitted "infos"
                    [match GetAllFoldersWorker.org_infos w with
                     | Some o => g_ref o
                     | None => g_none
                     end; g_names d];
                  Emitted "msg" [g_str ""; g_int 0]]
             | Raise TimeoutError => [Emitted "msg" [g_str "网络超时！稍后重试"; g_int 6000]]
             | _ => []
             end ++ [Unlocked])).
Proof.
  intros Hf Hm.
  unfold GetAllFoldersWorker.run. unfold bindS at 1. cbn [get_self self fst snd].
  rewrite Hf. cbn [negb].
  unfold bindS at 1. cbn [record modify fst snd self log].
  unfold bindS at 1. cbn [set_self modify fst snd self log].
  unfold bindS at 1.
  assert (E : match GetAllFoldersWorker.move_infos w with
              | Some (info :: rest) =>
                  v <~ GetAllFoldersWorker.run_moves disk (info :: rest)
                         (GetAllFoldersWorker.mkLocals false false false) ;;
                  if GetAllFoldersWorker.no_err v
                  then sleep 2100 ;;;
                       emit "moved" [g_bool (GetAllFoldersWorker.r_files v);
                                     g_bool (GetAllFoldersWorker.r_folders v);
                                     g_bool false]
                  else ret tt
              | _ => GetAllFoldersWorker.run_folders disk
              end = GetAllFoldersWorker.run_folders disk)
    by (destruct Hm as [-> | ->]; reflexivity).
  rewrite E, GetAllFoldersWorker_run_folders. cbn [fst snd].
  replace (List.length (calls_in (l ++ [Locked]))) with (List.length (calls_in l))
    by (rewrite api_calls_in_app; cbn; rewrite app_nil_r; reflexivity).
  unfold bindS, set_self, record, modify. cbn [fst snd self log].
  rewrite <- !app_assoc. reflexivity.
Qed.

Lemma folder_list_is_asked_once_witness :
  let disk := mkDisk 0 (-1) 9 5 (fun _ _ => mkReply [] (Raise ValueError)) in
  let w := GetAllFoldersWorker.mk (Some 7%nat) (Some []) false false in
  GetAllFoldersWorker.run disk (mkIO w [])
  = (Ok tt,
     mkIO w [Locked; Emitted "msg" [g_str "网络请求中，请稍后……"; g_int 0];
             Called get_move_folders; Unlocked]).
Proof.
  intros disk w.
  exact (folder_list_is_asked_once disk w [] eq_refl (or_intror eq_refl)).
Defined.

End MoveFacts.
